(** * ScanQR: the scan handler, the sync routine and their store, embedded in Rocq

    The repository ships three copies of one React Native screen:
    - the ref-based screen (first file of [src/unnamed/part_000]), which
      debounces with [lastScannedCode], [lastScannedTime] and
      [isProcessingRef];
    - the screen of [src/app/index.tsx], which debounces with the boolean
      state [isScanning];
    - the older screen (second file of [src/unnamed/part_000]), which also
      uses [isScanning].

    Handlers are [async] functions over mutable refs, React state, the local
    database, timers and the network.  They are modelled as computations of a
    state-and-exception monad over one [World]; every observable call
    (console, alert, notification, fetch, database) is appended to the
    world's output trace.  Timestamps are integral milliseconds ([Date.now()]),
    far below 2^53, so JavaScript's number arithmetic on them is exact and
    they are modelled in [Z].

    A handler reads React state as it is when the handler runs.  The timer
    handle kept in [scanTimeoutRef] is read by the unmount cleanup only,
    which is not part of the model.  The database module [src/database] and
    the record type of [src/models] are not among the sources; the database
    is modelled from section 4.2 of the specification. *)

From Stdlib Require Import String ZArith List Bool Lia DecimalString.
Import ListNotations.

Local Open Scope string_scope.
Local Open Scope Z_scope.

(** ** Data *)

(** [ScannedCode] of [src/models]: the fields the screens read
    ([item.id], [item.data], [item.type], [item.timestamp]). *)
Record ScannedCode := mkScannedCode {
  id : string;
  data : string;
  type : string;
  timestamp : Z
}.

(** The [stats] state: [{ total, porTipo, ultimoEscaneo }].  The screen
    types [ultimoEscaneo] as [string | null]; it is kept here as what the
    specification says it is, the timestamp of the most recent insertion. *)
Record Stats := mkStats {
  total : nat;
  porTipo : list (string * nat);
  ultimoEscaneo : option Z
}.

Inductive screen := RefScreen | AppIndex | LegacyScreen.

(** Template literals interpolate numbers in decimal. *)
Definition show_nat (n : nat) : string := NilEmpty.string_of_uint (Nat.to_uint n).

(** ** Requests, errors and the output trace *)

Inductive JValue := JStr (s : string) | JNum (z : Z).

Record Request := mkRequest {
  url : string;
  method : string;
  headers : list (string * string);
  body : list (string * JValue)
}.

Inductive DbOp :=
  ConsultarCodigos | ObtenerEstadisticas | ExisteCodigo
| InsertarCodigo | EliminarCodigo | LimpiarCodigos.

Inductive Error := StorageError (op : DbOp) | NetworkError | NotificationError.

Inductive effect :=
| ConsoleLog (args : list string)
| ConsoleError (msg : string) (e : Error)
| AlertE (title msg : string)
| Notification (title body : string)
| Fetch (req : Request)
| DbCall (op : DbOp).

(** Callbacks handed to [setTimeout]. *)
Inductive callback :=
| Unlock                        (* isProcessingRef.current = false *)
| LocalModeAlert (msg : string) (* Alert.alert("Modo Local", msg); setIsSyncing(false) *)
| EnableScanning.               (* setIsScanning(true) *)

(** How one [fetch] call ends: the promise resolves (whatever the HTTP
    status) or rejects. *)
Inductive NetOutcome := Resolves | Rejects.

(** ** The world *)

(** What the surroundings decide: the mode switch, which database calls
    reject, how the notification sink behaves. *)
Record Env := mkEnv {
  isLocalMode : bool;
  storageFault : DbOp -> bool;
  platformWeb : bool;
  webNotificationUsable : bool;
  webPermissionGranted : bool;
  notifyFault : bool
}.

(** [lastScannedCode], [lastScannedTime], [isProcessingRef]. *)
Record Refs := mkRefs {
  lastScannedCode : string;
  lastScannedTime : Z;
  isProcessingRef : bool
}.

Inductive Database := LocalDb.

(** React state of the screen. *)
Record UiState := mkUi {
  db : option Database;
  scannedCodes : list ScannedCode;
  stats : Stats;
  isSyncing : bool;
  isScanning : bool
}.

(** Contents of the local database, most recent first. *)
Record Store := mkStore {
  records : list ScannedCode;
  nextId : nat
}.

Record World := mkWorld {
  env : Env;
  now : Z;
  refs : Refs;
  ui : UiState;
  store : Store;
  timers : list (Z * callback);
  (* handlers suspended at their first [await]: captured db, data, type *)
  inflight : list (Database * string * string);
  (* outcomes of the coming [fetch] calls; past the end they resolve *)
  network : list NetOutcome;
  out : list effect
}.

Definition upd_now (t : Z) (w : World) : World :=
  mkWorld (env w) t (refs w) (ui w) (store w) (timers w) (inflight w) (network w) (out w).
Definition upd_refs (r : Refs) (w : World) : World :=
  mkWorld (env w) (now w) r (ui w) (store w) (timers w) (inflight w) (network w) (out w).
Definition upd_ui (u : UiState) (w : World) : World :=
  mkWorld (env w) (now w) (refs w) u (store w) (timers w) (inflight w) (network w) (out w).
Definition upd_store (s : Store) (w : World) : World :=
  mkWorld (env w) (now w) (refs w) (ui w) s (timers w) (inflight w) (network w) (out w).
Definition upd_timers (ts : list (Z * callback)) (w : World) : World :=
  mkWorld (env w) (now w) (refs w) (ui w) (store w) ts (inflight w) (network w) (out w).
Definition upd_inflight (l : list (Database * string * string)) (w : World) : World :=
  mkWorld (env w) (now w) (refs w) (ui w) (store w) (timers w) l (network w) (out w).
Definition upd_network (n : list NetOutcome) (w : World) : World :=
  mkWorld (env w) (now w) (refs w) (ui w) (store w) (timers w) (inflight w) n (out w).
Definition upd_out (o : list effect) (w : World) : World :=
  mkWorld (env w) (now w) (refs w) (ui w) (store w) (timers w) (inflight w) (network w) o.

Definition setScannedCodes (l : list ScannedCode) (u : UiState) : UiState :=
  mkUi (db u) l (stats u) (isSyncing u) (isScanning u).
Definition setStats (s : Stats) (u : UiState) : UiState :=
  mkUi (db u) (scannedCodes u) s (isSyncing u) (isScanning u).
Definition setIsSyncing (b : bool) (u : UiState) : UiState :=
  mkUi (db u) (scannedCodes u) (stats u) b (isScanning u).
Definition setIsScanning (b : bool) (u : UiState) : UiState :=
  mkUi (db u) (scannedCodes u) (stats u) (isSyncing u) b.

(** ** The monad of handlers: state with JavaScript exceptions *)

Inductive Res (A : Type) := Ok (a : A) | Throw (e : Error).
Arguments Ok {A} a.
Arguments Throw {A} e.

Definition M (A : Type) : Type := World -> Res A * World.

Definition ret {A} (a : A) : M A := fun w => (Ok a, w).

Definition bind {A B} (c : M A) (k : A -> M B) : M B := fun w =>
  match c w with
  | (Ok a, w1) => k a w1
  | (Throw e, w1) => (Throw e, w1)
  end.

Definition throw {A} (e : Error) : M A := fun w => (Throw e, w).

(** [try { c } catch (error) { h error }] *)
Definition try_catch {A} (c : M A) (h : Error -> M A) : M A := fun w =>
  match c w with
  | (Ok a, w1) => (Ok a, w1)
  | (Throw e, w1) => h e w1
  end.

(** [try { c } finally { f }]: [f] runs on both exits; the exit of [c] is
    kept unless [f] itself throws. *)
Definition try_finally {A} (c : M A) (f : M unit) : M A := fun w =>
  match c w with
  | (r, w1) =>
      match f w1 with
      | (Ok _, w2) => (r, w2)
      | (Throw e, w2) => (Throw e, w2)
      end
  end.

Declare Scope handler_scope.
Delimit Scope handler_scope with handler.
Notation "x <- c ;; k" := (bind c (fun x => k))
  (at level 61, c at next level, right associativity) : handler_scope.
Notation "c ;; k" := (bind c (fun _ => k))
  (at level 61, right associativity) : handler_scope.
Local Open Scope handler_scope.

Definition getW : M World := fun w => (Ok w, w).
Definition modify (f : World -> World) : M unit := fun w => (Ok tt, f w).
Definition emit (e : effect) : M unit := modify (fun w => upd_out (out w ++ [e]) w).
Definition modify_ui (f : UiState -> UiState) : M unit :=
  modify (fun w => upd_ui (f (ui w)) w).

(** [setTimeout(cb, delay)] *)
Definition setTimeout (cb : callback) (delay : Z) : M unit :=
  modify (fun w => upd_timers (timers w ++ [(now w + delay, cb)]) w).

Definition when (b : bool) (c : M unit) : M unit := if b then c else ret tt.

Fixpoint for_each {A} (l : list A) (f : A -> M unit) : M unit :=
  match l with
  | [] => ret tt
  | x :: l' => f x ;; for_each l' f
  end.

(** ** The local database *)

(** Modelled from the spec: the per-type counts of [computeStats] of the
    absent [src/database] (section 3): one more record of type [ty]. *)
Fixpoint bump (ty : string) (m : list (string * nat)) : list (string * nat) :=
  match m with
  | [] => [(ty, 1%nat)]
  | (k, n) :: m' => if (k =? ty)%string then (k, S n) :: m' else (k, n) :: bump ty m'
  end.

(** Modelled from the spec: [computeStats] of the absent [src/database]
    (section 3, AggregateStats): the record count, the count per type tag
    and the timestamp of the most recent insertion, all derived from the
    stored records. *)
Definition computeStats (l : list ScannedCode) : Stats :=
  mkStats (length l)
          (fold_right (fun c m => bump (type c) m) [] l)
          (match l with [] => None | c :: _ => Some (timestamp c) end).

(** Modelled from the spec: [deleteById] of the absent [src/database]
    (section 4.2): removes exactly one record, nothing if the id is absent. *)
Fixpoint remove_id (i : string) (l : list ScannedCode) : list ScannedCode :=
  match l with
  | [] => []
  | c :: l' => if (id c =? i)%string then l' else c :: remove_id i l'
  end.

(** Modelled from the spec: the calling convention of the absent
    [src/database] (section 4.2, failure semantics): a call either rejects
    with a storage error, leaving the store as it was, or runs once. *)
Definition dbCall {A} (op : DbOp) (run : World -> A * Store) : M A := fun w =>
  let w1 := upd_out (out w ++ [DbCall op]) w in
  if storageFault (env w) op then (Throw (StorageError op), w1)
  else let (a, s) := run w1 in (Ok a, upd_store s w1).

(** Modelled from the spec: [list] (section 4.2): every record, most
    recent first. *)
Definition consultarCodigos (d : Database) : M (list ScannedCode) :=
  dbCall ConsultarCodigos (fun w => (records (store w), store w)).

(** Modelled from the spec: [computeStats] (section 4.2). *)
Definition obtenerEstadisticas (d : Database) : M Stats :=
  dbCall ObtenerEstadisticas (fun w => (computeStats (records (store w)), store w)).

(** Modelled from the spec: [exists] (section 4.2): whether some stored
    record has this payload. *)
Definition existeCodigo (d : Database) (payload : string) : M bool :=
  dbCall ExisteCodigo
    (fun w => (existsb (fun c => (data c =? payload)%string) (records (store w)), store w)).

(** Modelled from the spec: the record [insert] creates (section 4.2): a
    fresh identifier and the current timestamp. *)
Definition newCode (payload ty : string) (w : World) : ScannedCode :=
  mkScannedCode (show_nat (nextId (store w))) payload ty (now w).

(** Modelled from the spec: [insert] (section 4.2): always a new record;
    no look at the records already there. *)
Definition insertarCodigo (d : Database) (payload ty : string) : M ScannedCode :=
  dbCall InsertarCodigo
    (fun w =>
       (newCode payload ty w,
        mkStore (newCode payload ty w :: records (store w)) (S (nextId (store w))))).

(** Modelled from the spec: [deleteById] (section 4.2). *)
Definition eliminarCodigo (d : Database) (i : string) : M unit :=
  dbCall EliminarCodigo
    (fun w => (tt, mkStore (remove_id i (records (store w))) (nextId (store w)))).

(** Modelled from the spec: [clearAll] (section 4.2). *)
Definition limpiarCodigos (d : Database) : M unit :=
  dbCall LimpiarCodigos (fun w => (tt, mkStore [] (nextId (store w)))).

(** ** Helpers shared by the screens *)

(** [updateData]: reload the list and the statistics; a failure is logged
    and nothing else happens. *)
Definition updateData (database : Database) : M unit :=
  try_catch
    (codes <- consultarCodigos database ;;
     statistics <- obtenerEstadisticas database ;;
     modify_ui (setScannedCodes codes) ;;
     modify_ui (setStats statistics))
    (fun error => emit (ConsoleError "Error actualizando datos:" error)).

(** The call that hands the message to the platform
    ([new Notification] / [scheduleNotificationAsync]). *)
Definition deliver (message : string) : M unit :=
  w <- getW ;;
  if notifyFault (env w) then throw NotificationError
  else emit (Notification "QR Scanner" message).

Definition showNotification (message : string) : M unit :=
  try_catch
    (w <- getW ;;
     if platformWeb (env w) then
       if webNotificationUsable (env w) then
         if webPermissionGranted (env w) then deliver message
         else emit (AlertE "QR Scanner" message)
       else emit (AlertE "QR Scanner" message)
     else deliver message)
    (fun error =>
       emit (ConsoleError "Error mostrando notificación:" error) ;;
       emit (AlertE "QR Scanner" message)).

(** The [onPress] of the button Eliminar in the dialog of
    [clearScannedCodes]. *)
Definition clearScannedCodes_onPress : M unit :=
  w <- getW ;;
  match db (ui w) with
  | Some d =>
      try_catch
        (limpiarCodigos d ;; updateData d ;; emit (AlertE "Éxito" "Historial limpiado"))
        (fun error =>
           emit (ConsoleError "Error limpiando códigos:" error) ;;
           emit (AlertE "Error" "No se pudo limpiar el historial"))
  | None => ret tt
  end.

(** How the user answers a confirmation dialog. *)
Inductive DialogAnswer := Cancelar | Eliminar.

Definition clearDialog : effect :=
  AlertE "Limpiar Historial"
    "¿Estás seguro de que quieres eliminar todos los códigos escaneados?".

(** [clearScannedCodes]: it opens the confirmation dialog; the button
    Eliminar runs the [onPress] above, the button Cancelar nothing. *)
Definition clearScannedCodes (answer : DialogAnswer) : M unit :=
  emit clearDialog ;;
  match answer with
  | Eliminar => clearScannedCodes_onPress
  | Cancelar => ret tt
  end.

Definition deleteCode (i : string) : M unit :=
  w <- getW ;;
  match db (ui w) with
  | Some d =>
      try_catch
        (eliminarCodigo d i ;; updateData d)
        (fun error =>
           emit (ConsoleError "Error eliminando código:" error) ;;
           emit (AlertE "Error" "No se pudo eliminar el código"))
  | None => ret tt
  end.

Definition setDB (d : Database) (u : UiState) : UiState :=
  mkUi (Some d) (scannedCodes u) (stats u) (isSyncing u) (isScanning u).

(** [retrieveLocalDbData] of the mount effect (ref-based screen and
    [src/app/index.tsx]).  [connectDb] comes from the absent
    [src/database]; it is a parameter here. *)
Definition retrieveLocalDbData (connectDb : M Database) : M unit :=
  try_catch
    (database <- connectDb ;;
     modify_ui (setDB database) ;;
     updateData database)
    (fun error =>
       emit (ConsoleError "Error conectando a la base de datos:" error) ;;
       emit (AlertE "Error" "No se pudo conectar a la base de datos")).

(** ** Synchronisation *)

Definition API_URL (s : screen) : string :=
  match s with
  | RefScreen => "http://localhost:3000"
  | AppIndex => "http://192.168.1.76:3000"
  | LegacyScreen => "http://localhost:3000"
  end.

(** The object given to [JSON.stringify]; the older screen sends no
    timestamp. *)
Definition requestBody (s : screen) (code : ScannedCode) : list (string * JValue) :=
  match s with
  | LegacyScreen => [("data", JStr (data code)); ("type", JStr (type code))]
  | _ => [("data", JStr (data code)); ("type", JStr (type code));
          ("timestamp", JNum (timestamp code))]
  end.

Definition request (s : screen) (code : ScannedCode) : Request :=
  mkRequest (API_URL s ++ "/codigos") "POST"
    [("Accept", "application/json;encoding=utf-8");
     ("Content-Type", "application/json;encoding=utf-8")]
    (requestBody s code).

Definition fetch (req : Request) : M unit := fun w =>
  let w1 := upd_out (out w ++ [Fetch req]) w in
  match network w with
  | [] => (Ok tt, w1)
  | Resolves :: n => (Ok tt, upd_network n w1)
  | Rejects :: n => (Throw NetworkError, upd_network n w1)
  end.

Definition localModeMessage (s : screen) (codes : list ScannedCode) : string :=
  match s with
  | LegacyScreen =>
      "Estás trabajando en modo local. La sincronización con el servidor no está disponible."
  | _ =>
      "Estás trabajando en modo local. Tienes " ++ show_nat (length codes)
      ++ " códigos almacenados localmente."
  end.

Definition syncWithServer (s : screen) : M unit :=
  w <- getW ;;
  let codes := scannedCodes (ui w) in
  if (length codes =? 0)%nat then
    emit (AlertE "Sincronización" "No hay códigos para sincronizar")
  else
    modify_ui (setIsSyncing true) ;;
    try_finally
      (try_catch
         (if isLocalMode (env w) then
            setTimeout (LocalModeAlert (localModeMessage s codes)) 500
          else
            for_each codes (fun code => fetch (request s code)) ;;
            emit (AlertE "Sincronización Exitosa"
                    ("Se han sincronizado " ++ show_nat (length codes)
                     ++ " códigos con el servidor")))
         (fun error =>
            emit (ConsoleError "Error al sincronizar:" error) ;;
            emit (AlertE "Error de Sincronización"
                    "No se pudieron sincronizar los códigos. Verifica tu conexión.")))
      (when (negb (isLocalMode (env w))) (modify_ui (setIsSyncing false))).

(** ** The ref-based screen: debouncing and scan processing *)

Inductive Decision := Accept | RejectBusy | RejectDuplicate.

Module Ref.

Definition SCAN_COOLDOWN : Z := 3000.
Definition PROCESSING_TIMEOUT : Z := 1000.

(** The two guards of [onBarcodeScanned] and the three assignments that
    follow them. *)
Definition decide (r : Refs) (scannedData : string) (currentTime : Z) : Decision * Refs :=
  if isProcessingRef r then (RejectBusy, r)
  else if (lastScannedCode r =? scannedData)%string
          && (currentTime - lastScannedTime r <? SCAN_COOLDOWN)
       then (RejectDuplicate, r)
       else (Accept, mkRefs scannedData currentTime true).

(** Body of the [if (db)] inside the [try]. *)
Definition scanBody (d : Database) (scannedData ty : string) : M unit :=
  existe <- existeCodigo d scannedData ;;
  if existe then
    showNotification ("Código ya escaneado: " ++ scannedData)
  else
    showNotification ("Nuevo código escaneado: " ++ scannedData) ;;
    insertarCodigo d scannedData ty ;;
    updateData d.

Definition scanCatch (error : Error) : M unit :=
  emit (ConsoleError "Error procesando escaneo:" error) ;;
  emit (AlertE "Error" "No se pudo procesar el código escaneado").

Definition scanFinally : M unit := setTimeout Unlock PROCESSING_TIMEOUT.

(** [try { if (db) ... } catch ... finally ...] *)
Definition scanTry (odb : option Database) (scannedData ty : string) : M unit :=
  try_finally
    (try_catch
       (match odb with Some d => scanBody d scannedData ty | None => ret tt end)
       scanCatch)
    scanFinally.

(** The guards, with the console line each exit writes. *)
Definition scanGuards (scannedData : string) : M Decision :=
  w <- getW ;;
  let currentTime := now w in
  match decide (refs w) scannedData currentTime with
  | (RejectBusy, _) =>
      emit (ConsoleLog ["Escaneo ignorado: ya procesando"]) ;; ret RejectBusy
  | (RejectDuplicate, _) =>
      emit (ConsoleLog ["scaneo ignorado: mismo código muy reciente"]) ;;
      ret RejectDuplicate
  | (Accept, r) =>
      modify (upd_refs r) ;;
      emit (ConsoleLog ["Procesando escaneo:"; scannedData]) ;;
      ret Accept
  end.

(** [onBarcodeScanned] when every awaited call settles at once. *)
Definition onBarcodeScanned (scannedData ty : string) : M Decision :=
  d <- scanGuards scannedData ;;
  match d with
  | Accept => w <- getW ;; scanTry (db (ui w)) scannedData ty ;; ret Accept
  | _ => ret d
  end.

(** [onBarcodeScanned] up to its first [await]: with a database the handler
    suspends inside the [try]; without one the [try] is empty and the
    [finally] runs in the same turn.  The awaited calls, the first one
    ([db.existeCodigo]) included, enter the trace when they settle. *)
Definition onBarcodeScanned_start (scannedData ty : string) : M Decision :=
  d <- scanGuards scannedData ;;
  match d with
  | Accept =>
      w <- getW ;;
      match db (ui w) with
      | Some h => modify (fun w => upd_inflight (inflight w ++ [(h, scannedData, ty)]) w)
      | None => scanTry None scannedData ty
      end ;;
      ret Accept
  | _ => ret d
  end.

(** The awaited work of the oldest suspended handler settles and the
    handler runs to its end. *)
Definition onBarcodeScanned_resume : M unit :=
  w <- getW ;;
  match inflight w with
  | [] => ret tt
  | (h, scannedData, ty) :: rest =>
      modify (upd_inflight rest) ;; scanTry (Some h) scannedData ty
  end.

End Ref.

(** ** The screen of [src/app/index.tsx] *)

Module Index.

(** The handler taken as one step: its awaited calls settle at once, and
    the [isScanning] it tests is the one displayed when it is called.  The
    switch and the timer come first, before any awaited call. *)
Definition onBarcodeScanned (scannedData ty : string) : M unit :=
  w <- getW ;;
  if negb (isScanning (ui w)) then ret tt
  else
    modify_ui (setIsScanning false) ;;
    setTimeout EnableScanning 1000 ;;
    showNotification ("Código escaneado: " ++ scannedData) ;;
    match db (ui w) with
    | Some d =>
        insertarCodigo d scannedData ty ;;
        codes <- consultarCodigos d ;;
        modify_ui (setScannedCodes codes) ;;
        updateData d
    | None => ret tt
    end.

End Index.

(** ** The older screen (second file of [src/unnamed/part_000]) *)

Module Legacy.

(** The handler taken as one step, as on [src/app/index.tsx]: its awaited
    calls settle at once.  The timer that switches scanning on again is set
    last, after the awaited work, and nothing catches a failure. *)
Definition onBarcodeScanned (scannedData ty : string) : M unit :=
  w <- getW ;;
  if negb (isScanning (ui w)) then ret tt
  else
    modify_ui (setIsScanning false) ;;
    showNotification ("Código escaneado: " ++ scannedData) ;;
    match db (ui w) with
    | Some d =>
        insertarCodigo d scannedData ty ;;
        codes <- consultarCodigos d ;;
        modify_ui (setScannedCodes codes)
    | None => ret tt
    end ;;
    setTimeout EnableScanning 2000.

End Legacy.

(** ** Timers and the event loop *)

Definition fire (cb : callback) : M unit :=
  match cb with
  | Unlock =>
      modify (fun w => upd_refs (mkRefs (lastScannedCode (refs w))
                                        (lastScannedTime (refs w)) false) w) ;;
      emit (ConsoleLog ["Escaneo desbloqueado"])
  | LocalModeAlert msg =>
      emit (AlertE "Modo Local" msg) ;; modify_ui (setIsSyncing false)
  | EnableScanning => modify_ui (setIsScanning true)
  end.

Definition due (t : Z) (tc : Z * callback) : bool := fst tc <=? t.

(** The clock moves on by [dt] milliseconds; the timers that are due fire
    in the order they were set. *)
Definition advance (dt : N) : M unit := fun w =>
  let t := now w + Z.of_N dt in
  let w1 := upd_timers (filter (fun tc => negb (due t tc)) (timers w)) (upd_now t w) in
  for_each (map snd (filter (due t) (timers w))) fire w1.

Inductive event :=
| EvScan (scannedData ty : string)  (* the camera reports a decoded code *)
| EvSettle                          (* the awaited work of a scan settles *)
| EvAdvance (dt : N).               (* time passes *)

Definition step (e : event) (w : World) : option Decision * World :=
  match e with
  | EvScan scannedData ty =>
      match Ref.onBarcodeScanned_start scannedData ty w with
      | (Ok d, w') => (Some d, w')
      | (Throw _, w') => (None, w')
      end
  | EvSettle => (None, snd (Ref.onBarcodeScanned_resume w))
  | EvAdvance dt => (None, snd (advance dt w))
  end.

Fixpoint run (es : list event) (w : World) : list Decision * World :=
  match es with
  | [] => ([], w)
  | e :: es' =>
      let (od, w1) := step e w in
      let (ds, w2) := run es' w1 in
      (match od with Some d => d :: ds | None => ds end, w2)
  end.

(** ** Initial states *)

Definition noFault : DbOp -> bool := fun _ => false.

(** A native device with a working notification sink. *)
Definition nativeEnv (localMode : bool) (fault : DbOp -> bool) : Env :=
  mkEnv localMode fault false false false false.

(** The screen as [useRef] and [useState] initialise it, at clock [t], with
    [odb] as the database state and [l] already stored and displayed. *)
Definition initialWorld (e : Env) (t : Z) (odb : option Database)
    (l : list ScannedCode) (net : list NetOutcome) : World :=
  mkWorld e t (mkRefs "" 0 false)
    (mkUi odb l (computeStats l) false true)
    (mkStore l (length l)) [] [] net [].

(** The requests and the alerts of an output trace. *)
Definition fetches (o : list effect) : list Request :=
  flat_map (fun e => match e with Fetch r => [r] | _ => [] end) o.

Definition alerts (o : list effect) : list (string * string) :=
  flat_map (fun e => match e with AlertE t m => [(t, m)] | _ => [] end) o.

Definition dbCalls (o : list effect) : list DbOp :=
  flat_map (fun e => match e with DbCall op => [op] | _ => [] end) o.

Definition notifications (o : list effect) : list string :=
  flat_map (fun e => match e with Notification _ b => [b] | _ => [] end) o.

Definition rejected (d : Decision) : Prop := d = RejectDuplicate \/ d = RejectBusy.

(** Every scan of [es] carries [p] and is stamped less than
    [SCAN_COOLDOWN] after [t0]; [t] is the clock before [es]. *)
Fixpoint scans_within (p : string) (t0 t : Z) (es : list event) : bool :=
  match es with
  | [] => true
  | EvScan scannedData _ :: es' =>
      (scannedData =? p)%string && (t - t0 <? Ref.SCAN_COOLDOWN)
      && scans_within p t0 t es'
  | EvSettle :: es' => scans_within p t0 t es'
  | EvAdvance dt :: es' => scans_within p t0 (t + Z.of_N dt) es'
  end.

(** ** Vocabulary of the properties *)

(** [c] leaves the observation [f] of the world as it was. *)
Definition keeps {X A} (f : World -> X) (c : M A) : Prop :=
  forall w, f (snd (c w)) = f w.

(** [c] never throws. *)
Definition returns {A} (c : M A) : Prop := forall w, exists a, fst (c w) = Ok a.

(** The last accepted pair, the part of the refs a timer never writes. *)
Definition lastAccepted (w : World) : string * Z :=
  (lastScannedCode (refs w), lastScannedTime (refs w)).

(** The console line of a rejection. *)
Definition rejectLine (d : Decision) : string :=
  match d with
  | RejectBusy => "Escaneo ignorado: ya procesando"
  | _ => "scaneo ignorado: mismo código muy reciente"
  end.

Definition logged (e : effect) (w : World) : World := upd_out (out w ++ [e]) w.

(** The processing flag is set before [es] and after each of its events. *)
Fixpoint flag_stays (es : list event) (w : World) : bool :=
  isProcessingRef (refs w)
  && match es with
     | [] => true
     | e :: es' => flag_stays es' (snd (step e w))
     end.

(** No release callback is waiting. *)
Definition no_unlock_pending (w : World) : Prop :=
  forall t, ~ In (t, Unlock) (timers w).

(** Deadlines of the timers of [ts] that carry callback [cb]. *)
Definition deadlines (cb : callback -> bool) (ts : list (Z * callback)) : list Z :=
  map fst (filter (fun tc => cb (snd tc)) ts).

Definition isUnlock (cb : callback) : bool :=
  match cb with Unlock => true | _ => false end.

Definition isEnable (cb : callback) : bool :=
  match cb with EnableScanning => true | _ => false end.

Definition isLocalAlert (cb : callback) : bool :=
  match cb with LocalModeAlert _ => true | _ => false end.

(** Accepted scans of the ref-based screen that have not been released
    yet: handlers suspended at an [await] and release timers waiting. *)
Definition in_flight (w : World) : nat :=
  (length (inflight w) + length (deadlines isUnlock (timers w)))%nat.

(** The state the ref-based screen keeps between events: the flag is set
    exactly when one accepted scan is in flight; the last acceptance is not
    in the future; a waiting release is due no sooner than
    [PROCESSING_TIMEOUT] after the last acceptance and no later than
    [PROCESSING_TIMEOUT] from now; with the flag clear the last acceptance
    is at least [PROCESSING_TIMEOUT] old. *)
Definition steady (w : World) : Prop :=
  in_flight w = (if isProcessingRef (refs w) then 1%nat else 0%nat)
  /\ lastScannedTime (refs w) <= now w
  /\ (forall t, In t (deadlines isUnlock (timers w)) ->
        lastScannedTime (refs w) + Ref.PROCESSING_TIMEOUT <= t
        /\ t <= now w + Ref.PROCESSING_TIMEOUT)
  /\ (isProcessingRef (refs w) = false ->
      lastScannedTime (refs w) + Ref.PROCESSING_TIMEOUT <= now w).

(** The platform's notification call is reached and goes through:
    natively always, on the web with a usable and granted Notification
    API; and the call does not fail. *)
Definition sinkTakesIt (w : World) : bool :=
  negb (notifyFault (env w))
  && (negb (platformWeb (env w))
      || (webNotificationUsable (env w) && webPermissionGranted (env w))).

(** Between [w] and [w'] the message [m] was shown, as a notification or
    as the fallback alert. *)
Definition shown (m : string) (w w' : World) : Prop :=
  (notifications (out w') = (notifications (out w) ++ [m])%list
   /\ alerts (out w') = alerts (out w))
  \/ (notifications (out w') = notifications (out w)
      /\ alerts (out w') = (alerts (out w) ++ [("QR Scanner", m)])%list).

(** What [Index.onBarcodeScanned] does after its two first statements. *)
Definition indexWork (odb : option Database) (scannedData ty : string) : M unit :=
  showNotification ("Código escaneado: " ++ scannedData) ;;
  match odb with
  | Some d =>
      insertarCodigo d scannedData ty ;;
      codes <- consultarCodigos d ;;
      modify_ui (setScannedCodes codes) ;;
      updateData d
  | None => ret tt
  end.

(** The world after the two first statements of a handled scan on the
    screens that debounce with [isScanning]: scanning switched off and, on
    [src/app/index.tsx], the timer that switches it on again set. *)
Definition scanningOff (w : World) : World :=
  upd_ui (setIsScanning false (ui w)) w.

Definition indexPaused (w : World) : World :=
  upd_timers (timers w ++ [(now w + 1000, EnableScanning)]) (scanningOff w).

(** What [Legacy.onBarcodeScanned] does once scanning is switched off. *)
Definition legacyWork (odb : option Database) (scannedData ty : string) : M unit :=
  showNotification ("Código escaneado: " ++ scannedData) ;;
  match odb with
  | Some d =>
      insertarCodigo d scannedData ty ;;
      codes <- consultarCodigos d ;;
      modify_ui (setScannedCodes codes)
  | None => ret tt
  end ;;
  setTimeout EnableScanning 2000.

(** The notifications of an output trace, each with its title and body. *)
Definition notices (o : list effect) : list (string * string) :=
  flat_map (fun e => match e with Notification t b => [(t, b)] | _ => [] end) o.

(** Between [w] and [w'] nothing was put before the user. *)
Definition quiet (w w' : World) : Prop :=
  notices (out w') = notices (out w) /\ alerts (out w') = alerts (out w).

(** Between [w] and [w'] exactly one thing was put before the user: the
    message [m] under the title QR Scanner, as a notification or as the
    fallback alert. *)
Definition announced (m : string) (w w' : World) : Prop :=
  (notices (out w') = (notices (out w) ++ [("QR Scanner", m)])%list
   /\ alerts (out w') = alerts (out w))
  \/ (notices (out w') = notices (out w)
      /\ alerts (out w') = (alerts (out w) ++ [("QR Scanner", m)])%list).

(** ** Abbreviations and sample states used in the statements *)

(** A freshly started screen in local mode, database connected and empty. *)
Definition idleWorld : World :=
  initialWorld (nativeEnv true noFault) 1700000000000 (Some LocalDb) [] [].

(** The same screen with no database connection. *)
Definition offlineWorld : World :=
  initialWorld (nativeEnv true noFault) 1700000000000 None [] [].

(** A busy screen: a scan was accepted and its work has not settled. *)
Definition busyWorld : World := snd (step (EvScan "ABC123" "qr") idleWorld).

(** Scans of one payload during the three seconds after its acceptance. *)
Definition burst : list event :=
  [EvScan "ABC123" "qr"; EvAdvance 400; EvSettle; EvScan "ABC123" "qr";
   EvAdvance 1200; EvScan "ABC123" "qr"; EvAdvance 1399; EvScan "ABC123" "qr"].

(** A screen whose database rejects every insertion. *)
Definition brokenInsert : DbOp -> bool :=
  fun op => match op with InsertarCodigo => true | _ => false end.

(** The same screen as [idleWorld] over that database. *)
Definition brokenWorld : World :=
  initialWorld (nativeEnv true brokenInsert) 1700000000000 (Some LocalDb) [] [].

(** The store of [w] with one more record, for payload [p]. *)
Definition inserted (p ty : string) (w : World) : Store :=
  mkStore (newCode p ty w :: records (store w)) (S (nextId (store w))).

(** Some stored record carries the payload [p]. *)
Definition known (p : string) (w : World) : bool :=
  existsb (fun c => (data c =? p)%string) (records (store w)).

(** A screen that already holds one scan of ABC123. *)
Definition knownWorld : World :=
  initialWorld (nativeEnv true noFault) 1700000000000 (Some LocalDb)
    [mkScannedCode "0" "ABC123" "qr" 1600000000000] [].

(** Three scans of one payload, each settled and each past the cooldown of
    the one before. *)
Definition threeScans : list event :=
  [EvScan "ABC123" "qr"; EvSettle; EvAdvance 3000;
   EvScan "ABC123" "qr"; EvSettle; EvAdvance 3000;
   EvScan "ABC123" "qr"; EvSettle].

(** What a [catch] block of the screens does: a console error, then an
    alert. *)
Definition caught (msg title text : string) (e : Error) (w : World) : World :=
  logged (AlertE title text) (logged (ConsoleError msg e) w).

(** What the [finally] of the scan handler does: it sets the release timer. *)
Definition armed (w : World) : World :=
  upd_timers (timers w ++ [(now w + Ref.PROCESSING_TIMEOUT, Unlock)]) w.

(** A database on which every call rejects. *)
Definition allFault : DbOp -> bool := fun _ => true.

(** A screen over that database, showing the one record it holds. *)
Definition deadDbWorld : World :=
  initialWorld (nativeEnv true allFault) 1700000000000 (Some LocalDb)
    [mkScannedCode "0" "ABC123" "qr" 1600000000000] [].

(** A database whose listing call rejects. *)
Definition brokenRead : DbOp -> bool :=
  fun op => match op with ConsultarCodigos => true | _ => false end.

(** A screen that has not loaded the one record its database holds. *)
Definition staleWorld (fault : DbOp -> bool) : World :=
  mkWorld (nativeEnv true fault) 1700000000000 (mkRefs "" 0 false)
    (mkUi (Some LocalDb) [] (computeStats []) false true)
    (mkStore [mkScannedCode "0" "ABC123" "qr" 1600000000000] 1) [] [] [] [].

(** The [fetch] calls of screen [s] for the records [codes], in order. *)
Definition sent (s : screen) (codes : list ScannedCode) : list effect :=
  map (fun c => Fetch (request s c)) codes.

(** The two alerts that end a remote sync. *)
Definition syncErrorAlert : effect :=
  AlertE "Error de Sincronización"
    "No se pudieron sincronizar los códigos. Verifica tu conexión.".

Definition syncOkAlert (n : nat) : effect :=
  AlertE "Sincronización Exitosa"
    ("Se han sincronizado " ++ show_nat n ++ " códigos con el servidor").

(** Three stored records, most recent first. *)
Definition code1 : ScannedCode := mkScannedCode "2" "ABC123" "qr" 1600000003000.
Definition code2 : ScannedCode := mkScannedCode "1" "4006381333931" "ean13" 1600000002000.
Definition code3 : ScannedCode := mkScannedCode "0" "XYZ" "code128" 1600000001000.

(** A screen in remote mode showing three records. *)
Definition remoteWorld (net : list NetOutcome) : World :=
  initialWorld (nativeEnv false noFault) 1700000000000 (Some LocalDb)
    [code1; code2; code3] net.

(** What the caller and the user get from a sync: the handler's result and
    the alerts shown. *)
Definition report (r : Res unit * World) : Res unit * list (string * string) :=
  (fst r, alerts (out (snd r))).

(** A screen in local mode showing two records. *)
Definition localWorld : World :=
  initialWorld (nativeEnv true noFault) 1700000000000 (Some LocalDb)
    [code1; code2] [].

(** * Properties *)

(** ** What a computation leaves alone *)

Lemma upd_store_same (w : World) : upd_store (store w) w = w.
Proof. destruct w; reflexivity. Qed.

Section Frame.
Context {X : Type} (f : World -> X).

Local Abbreviation keeps := (keeps f).

Lemma keeps_ret {A} (a : A) : keeps (ret a).
Proof. intro w; reflexivity. Qed.

Lemma keeps_throw {A} (e : Error) : keeps (@throw A e).
Proof. intro w; reflexivity. Qed.

Lemma keeps_getW : keeps getW.
Proof. intro w; reflexivity. Qed.

Lemma keeps_bind {A B} (c : M A) (k : A -> M B) :
  keeps c -> (forall a, keeps (k a)) -> keeps (bind c k).
Proof.
  intros Hc Hk w. unfold bind. specialize (Hc w).
  destruct (c w) as [[a | e] w1]; simpl in *; [rewrite Hk | ]; exact Hc.
Qed.

Lemma keeps_try_catch {A} (c : M A) (h : Error -> M A) :
  keeps c -> (forall e, keeps (h e)) -> keeps (try_catch c h).
Proof.
  intros Hc Hh w. unfold try_catch. specialize (Hc w).
  destruct (c w) as [[a | e] w1]; simpl in *; [ | rewrite Hh]; exact Hc.
Qed.

Lemma keeps_try_finally {A} (c : M A) (g : M unit) :
  keeps c -> keeps g -> keeps (try_finally c g).
Proof.
  intros Hc Hg w. unfold try_finally. specialize (Hc w).
  destruct (c w) as [r w1]. specialize (Hg w1).
  destruct (g w1) as [[u | e] w2]; simpl in *; congruence.
Qed.

Lemma keeps_for_each {A} (l : list A) (k : A -> M unit) :
  (forall a, keeps (k a)) -> keeps (for_each l k).
Proof.
  intro Hk. induction l as [ | a l IH]; simpl.
  - apply keeps_ret.
  - apply keeps_bind; auto.
Qed.

Section OutUi.
Hypothesis f_out : forall o w, f (upd_out o w) = f w.

Lemma keeps_emit (e : effect) : keeps (emit e).
Proof. intro w; apply f_out. Qed.

Lemma keeps_deliver (message : string) : keeps (deliver message).
Proof.
  intro w. unfold deliver, bind, getW.
  destruct (notifyFault (env w)); [reflexivity | apply keeps_emit].
Qed.

Lemma keeps_showNotification (message : string) : keeps (showNotification message).
Proof.
  unfold showNotification. apply keeps_try_catch.
  - apply keeps_bind; [apply keeps_getW | intro w0].
    destruct (platformWeb (env w0)), (webNotificationUsable (env w0)),
      (webPermissionGranted (env w0));
      auto using keeps_deliver, keeps_emit.
  - intro e. apply keeps_bind; auto using keeps_emit.
Qed.

(** A database call that only reads. *)
Lemma keeps_dbCall_read {A} (op : DbOp) (q : World -> A) :
  keeps (dbCall op (fun w => (q w, store w))).
Proof.
  intro w. unfold dbCall.
  destruct (storageFault (env w) op); cbn [snd]; [apply f_out | ].
  change (store (upd_out (out w ++ [DbCall op]) w)) with (store w).
  change (upd_store (store w) (upd_out (out w ++ [DbCall op]) w))
    with (upd_out (out w ++ [DbCall op]) (upd_store (store w) w)).
  rewrite upd_store_same. apply f_out.
Qed.

Hypothesis f_ui : forall u w, f (upd_ui u w) = f w.

Lemma keeps_modify_ui (g : UiState -> UiState) : keeps (modify_ui g).
Proof. intro w; apply f_ui. Qed.

Lemma keeps_updateData (d : Database) : keeps (updateData d).
Proof.
  unfold updateData. apply keeps_try_catch.
  - apply keeps_bind; [apply keeps_dbCall_read | intro codes].
    apply keeps_bind; [apply keeps_dbCall_read | intro st].
    apply keeps_bind; auto using keeps_modify_ui.
  - auto using keeps_emit.
Qed.

Hypothesis f_store : forall s w, f (upd_store s w) = f w.

Lemma keeps_dbCall {A} (op : DbOp) (q : World -> A * Store) : keeps (dbCall op q).
Proof.
  intro w. unfold dbCall.
  destruct (storageFault (env w) op); simpl; [apply f_out | ].
  destruct (q _) as [a s]; simpl. rewrite f_store. apply f_out.
Qed.

Lemma keeps_scanBody (d : Database) (p ty : string) : keeps (Ref.scanBody d p ty).
Proof.
  unfold Ref.scanBody. apply keeps_bind; [apply keeps_dbCall | intros [ | ]].
  - apply keeps_showNotification.
  - apply keeps_bind; [apply keeps_showNotification | intros _].
    apply keeps_bind; [apply keeps_dbCall | intros _; apply keeps_updateData].
Qed.

(** The [try]/[catch] part of the scan handler. *)
Lemma keeps_scan_caught (odb : option Database) (p ty : string) :
  keeps (try_catch
           (match odb with Some d => Ref.scanBody d p ty | None => ret tt end)
           Ref.scanCatch).
Proof.
  apply keeps_try_catch.
  - destruct odb; [apply keeps_scanBody | apply keeps_ret].
  - intro e. apply keeps_bind; auto using keeps_emit.
Qed.

Hypothesis f_timers : forall ts w, f (upd_timers ts w) = f w.

Lemma keeps_scanTry (odb : option Database) (p ty : string) :
  keeps (Ref.scanTry odb p ty).
Proof.
  unfold Ref.scanTry. apply keeps_try_finally.
  - apply keeps_scan_caught.
  - intro w. apply f_timers.
Qed.

Hypothesis f_inflight : forall l w, f (upd_inflight l w) = f w.

Lemma keeps_resume : keeps Ref.onBarcodeScanned_resume.
Proof.
  unfold Ref.onBarcodeScanned_resume.
  apply keeps_bind; [apply keeps_getW | intro w0].
  destruct (inflight w0) as [ | [[h p] ty] rest]; [apply keeps_ret | ].
  apply keeps_bind; [intro w; apply f_inflight | intros _; apply keeps_scanTry].
Qed.
End OutUi.
End Frame.

Lemma keeps_fire_lastAccepted (cb : callback) : keeps lastAccepted (fire cb).
Proof. destruct cb; intro w; reflexivity. Qed.

Lemma keeps_fire_store (cb : callback) : keeps store (fire cb).
Proof. destruct cb; intro w; reflexivity. Qed.

Lemma keeps_fire_now (cb : callback) : keeps now (fire cb).
Proof. destruct cb; intro w; reflexivity. Qed.

Lemma keeps_fire_timers (cb : callback) : keeps timers (fire cb).
Proof. destruct cb; intro w; reflexivity. Qed.

Lemma advance_lastAccepted (dt : N) : keeps lastAccepted (advance dt).
Proof.
  intro w. unfold advance.
  rewrite (keeps_for_each lastAccepted _ _ keeps_fire_lastAccepted). reflexivity.
Qed.

Lemma advance_store (dt : N) : keeps store (advance dt).
Proof.
  intro w. unfold advance.
  rewrite (keeps_for_each store _ _ keeps_fire_store). reflexivity.
Qed.

Lemma advance_now (dt : N) (w : World) : now (snd (advance dt w)) = now w + Z.of_N dt.
Proof.
  unfold advance. rewrite (keeps_for_each now _ _ keeps_fire_now). reflexivity.
Qed.

Lemma advance_timers (dt : N) (w : World) :
  timers (snd (advance dt w))
  = filter (fun tc => negb (due (now w + Z.of_N dt) tc)) (timers w).
Proof.
  unfold advance. rewrite (keeps_for_each timers _ _ keeps_fire_timers). reflexivity.
Qed.

(** Firing callbacks never sets the flag; one [Unlock] among them clears it. *)
Lemma fire_all_flag (cbs : list callback) (w : World) :
  isProcessingRef (refs w) = false \/ In Unlock cbs ->
  isProcessingRef (refs (snd (for_each cbs fire w))) = false.
Proof.
  revert w. induction cbs as [ | cb cbs IH]; intros w H; simpl.
  - destruct H as [H | []]. exact H.
  - unfold bind. destruct (fire cb w) as [[u | e] w1] eqn:E.
    + apply IH. destruct H as [H | [H | H]]; auto; left.
      * destruct cb; inversion E; subst; simpl; auto.
      * subst cb. inversion E; reflexivity.
    + destruct cb; discriminate E.
Qed.

(** Without an [Unlock] among them the refs are untouched. *)
Lemma fire_all_refs (cbs : list callback) (w : World) :
  ~ In Unlock cbs -> refs (snd (for_each cbs fire w)) = refs w.
Proof.
  revert w. induction cbs as [ | cb cbs IH]; intros w H; simpl; [reflexivity | ].
  unfold bind. destruct (fire cb w) as [[u | e] w1] eqn:E.
  - rewrite IH by (intro; apply H; right; assumption).
    destruct cb; inversion E; subst; try reflexivity.
    exfalso; apply H; left; reflexivity.
  - destruct cb; discriminate E.
Qed.

Lemma advance_unlocks (dt : N) (w : World) (t : Z) :
  In (t, Unlock) (timers w) -> t <= now w + Z.of_N dt ->
  isProcessingRef (refs (snd (advance dt w))) = false.
Proof.
  intros Hin Hle. unfold advance. apply fire_all_flag. right.
  apply in_map_iff. exists (t, Unlock). split; [reflexivity | ].
  apply filter_In. split; [exact Hin | ]. unfold due; simpl. lia.
Qed.

Lemma advance_keeps_refs (dt : N) (w : World) :
  (forall t, In (t, Unlock) (timers w) -> now w + Z.of_N dt < t) ->
  refs (snd (advance dt w)) = refs w.
Proof.
  intro H. unfold advance. rewrite fire_all_refs; [reflexivity | ].
  intro Hin. apply in_map_iff in Hin. destruct Hin as [[t cb] [Hcb Hf]].
  simpl in Hcb; subst cb. apply filter_In in Hf. destruct Hf as [Hin Hdue].
  specialize (H t Hin). unfold due in Hdue; simpl in Hdue. lia.
Qed.

(** ** Computations that never throw *)

Lemma returns_ret {A} (a : A) : returns (ret a).
Proof. intro w. exists a. reflexivity. Qed.

Lemma returns_modify (g : World -> World) : returns (modify g).
Proof. intro w. exists tt. reflexivity. Qed.

Lemma returns_emit (e : effect) : returns (emit e).
Proof. apply returns_modify. Qed.

Lemma returns_bind {A B} (c : M A) (k : A -> M B) :
  returns c -> (forall a, returns (k a)) -> returns (bind c k).
Proof.
  intros Hc Hk w. unfold bind. destruct (Hc w) as [a Ha].
  destruct (c w) as [r w1]. simpl in Ha. subst r. apply Hk.
Qed.

Lemma returns_try_catch {A} (c : M A) (h : Error -> M A) :
  (forall e, returns (h e)) -> returns (try_catch c h).
Proof.
  intros Hh w. unfold try_catch.
  destruct (c w) as [[a | e] w1]; [exists a; reflexivity | apply Hh].
Qed.

Lemma returns_try_finally {A} (c : M A) (g : M unit) :
  returns c -> returns g -> returns (try_finally c g).
Proof.
  intros Hc Hg w. unfold try_finally. destruct (Hc w) as [a Ha].
  destruct (c w) as [r w1]. simpl in Ha. subst r.
  destruct (Hg w1) as [u Hu]. destruct (g w1) as [r w2]. simpl in Hu. subst r.
  exists a. reflexivity.
Qed.

Lemma returns_caught (c : M unit) (msg title text : string) :
  returns (try_catch c (fun error =>
             emit (ConsoleError msg error) ;; emit (AlertE title text))).
Proof.
  apply returns_try_catch. intro e.
  apply returns_bind; [apply returns_emit | intros _; apply returns_emit].
Qed.

Lemma returns_updateData (d : Database) : returns (updateData d).
Proof. apply returns_try_catch. intro e. apply returns_emit. Qed.

Lemma returns_scanTry (odb : option Database) (p ty : string) :
  returns (Ref.scanTry odb p ty).
Proof.
  apply returns_try_finally; [apply returns_caught | apply returns_modify].
Qed.

(** ** The guards *)

Lemma decide_busy (r : Refs) (p : string) (t : Z) :
  isProcessingRef r = true -> Ref.decide r p t = (RejectBusy, r).
Proof. intro H. unfold Ref.decide. rewrite H. reflexivity. Qed.

Lemma decide_duplicate (r : Refs) (p : string) (t : Z) :
  isProcessingRef r = false -> lastScannedCode r = p ->
  t - lastScannedTime r < Ref.SCAN_COOLDOWN ->
  Ref.decide r p t = (RejectDuplicate, r).
Proof.
  intros Hf Hp Ht. unfold Ref.decide. rewrite Hf, Hp, String.eqb_refl.
  destruct (Z.ltb_spec (t - lastScannedTime r) Ref.SCAN_COOLDOWN); [reflexivity | lia].
Qed.

Lemma decide_accept (r : Refs) (p : string) (t : Z) :
  fst (Ref.decide r p t) = Accept ->
  isProcessingRef r = false
  /\ (lastScannedCode r <> p \/ Ref.SCAN_COOLDOWN <= t - lastScannedTime r)
  /\ Ref.decide r p t = (Accept, mkRefs p t true).
Proof.
  unfold Ref.decide. destruct (isProcessingRef r); [discriminate | ].
  destruct (String.eqb_spec (lastScannedCode r) p) as [He | Hn]; simpl.
  - destruct (Z.ltb_spec (t - lastScannedTime r) Ref.SCAN_COOLDOWN); [discriminate | ].
    intros _. auto.
  - intros _. auto.
Qed.

Lemma decide_rejects_keep (r : Refs) (p : string) (t : Z) :
  rejected (fst (Ref.decide r p t)) -> snd (Ref.decide r p t) = r.
Proof.
  unfold Ref.decide. destruct (isProcessingRef r); [reflexivity | ].
  destruct (_ && _); [reflexivity | ]. intros [H | H]; discriminate H.
Qed.

Lemma scanGuards_rejected (p : string) (w : World) :
  rejected (fst (Ref.decide (refs w) p (now w))) ->
  Ref.scanGuards p w
  = (Ok (fst (Ref.decide (refs w) p (now w))),
     logged (ConsoleLog [rejectLine (fst (Ref.decide (refs w) p (now w)))]) w).
Proof.
  intro H. unfold Ref.scanGuards, bind, getW.
  destruct (Ref.decide (refs w) p (now w)) as [[ | | ] r]; simpl in *.
  - destruct H as [H | H]; discriminate H.
  - reflexivity.
  - reflexivity.
Qed.

Lemma scanGuards_accepted (p : string) (w : World) :
  fst (Ref.decide (refs w) p (now w)) = Accept ->
  Ref.scanGuards p w
  = (Ok Accept,
     logged (ConsoleLog ["Procesando escaneo:"; p]) (upd_refs (mkRefs p (now w) true) w)).
Proof.
  intro H. apply decide_accept in H. destruct H as (_ & _ & H).
  unfold Ref.scanGuards, bind, getW. rewrite H. reflexivity.
Qed.

(** The guards return what [decide] says. *)
Lemma scanGuards_result (p : string) (w : World) :
  fst (Ref.scanGuards p w) = Ok (fst (Ref.decide (refs w) p (now w))).
Proof.
  unfold Ref.scanGuards, bind, getW.
  destruct (Ref.decide (refs w) p (now w)) as [[ | | ] r]; reflexivity.
Qed.

Lemma start_rejected (p ty : string) (w : World) :
  rejected (fst (Ref.decide (refs w) p (now w))) ->
  Ref.onBarcodeScanned_start p ty w
  = (Ok (fst (Ref.decide (refs w) p (now w))),
     logged (ConsoleLog [rejectLine (fst (Ref.decide (refs w) p (now w)))]) w).
Proof.
  intro H. unfold Ref.onBarcodeScanned_start, bind.
  rewrite (scanGuards_rejected _ _ H).
  destruct H as [H | H]; rewrite H; reflexivity.
Qed.

Lemma handler_rejected (p ty : string) (w : World) :
  rejected (fst (Ref.decide (refs w) p (now w))) ->
  Ref.onBarcodeScanned p ty w
  = (Ok (fst (Ref.decide (refs w) p (now w))),
     logged (ConsoleLog [rejectLine (fst (Ref.decide (refs w) p (now w)))]) w).
Proof.
  intro H. unfold Ref.onBarcodeScanned, bind.
  rewrite (scanGuards_rejected _ _ H).
  destruct H as [H | H]; rewrite H; reflexivity.
Qed.

(** The handler returns what [decide] says, whatever happens downstream. *)
Lemma handler_result (p ty : string) (w : World) :
  fst (Ref.onBarcodeScanned p ty w) = Ok (fst (Ref.decide (refs w) p (now w))).
Proof.
  destruct (fst (Ref.decide (refs w) p (now w))) eqn:E.
  - unfold Ref.onBarcodeScanned, bind. rewrite (scanGuards_accepted _ _ E).
    unfold getW. set (w1 := logged _ _).
    destruct (returns_scanTry (db (ui w1)) p ty w1) as [u Hu].
    destruct (Ref.scanTry (db (ui w1)) p ty w1) as [r w2].
    simpl in Hu. subst r. reflexivity.
  - rewrite handler_rejected; rewrite E; [reflexivity | right; reflexivity].
  - rewrite handler_rejected; rewrite E; [reflexivity | left; reflexivity].
Qed.

Lemma run_cons (e : event) (es : list event) (w : World) :
  run (e :: es) w
  = (match fst (step e w) with
     | Some d => d :: fst (run es (snd (step e w)))
     | None => fst (run es (snd (step e w)))
     end, snd (run es (snd (step e w)))).
Proof.
  simpl. destruct (step e w) as [od w1]. simpl.
  destruct (run es w1) as [ds w2]. reflexivity.
Qed.

Lemma step_scan_rejected (p ty : string) (w : World) :
  rejected (fst (Ref.decide (refs w) p (now w))) ->
  step (EvScan p ty) w
  = (Some (fst (Ref.decide (refs w) p (now w))),
     logged (ConsoleLog [rejectLine (fst (Ref.decide (refs w) p (now w)))]) w).
Proof. intro H. simpl. rewrite (start_rejected _ _ _ H). reflexivity. Qed.

(** ** Busy rejections (C2) *)

(** C2. While the processing flag is set every decode event is rejected as
    busy: [decide] answers [RejectBusy] for every payload and timestamp and
    whatever the last accepted pair is, so before the cooldown comparison
    plays any part, and leaves the refs as they were; over any run of events
    during which the flag stays set, every scan is answered [RejectBusy]. *)
Theorem busy_rejects_every_event :
  (forall code time p t,
      Ref.decide (mkRefs code time true) p t = (RejectBusy, mkRefs code time true))
  /\ (forall es w,
         flag_stays es w = true ->
         Forall (fun d => d = RejectBusy) (fst (run es w))).
Proof.
  split; [reflexivity | ].
  induction es as [ | e es IH]; intros w H; [constructor | ].
  simpl in H. apply andb_prop in H. destruct H as [Hflag Hrest].
  rewrite run_cons. simpl fst.
  destruct e as [p ty | | dt].
  - assert (Hd : Ref.decide (refs w) p (now w) = (RejectBusy, refs w))
      by (apply decide_busy; exact Hflag).
    assert (Hr : rejected (fst (Ref.decide (refs w) p (now w))))
      by (rewrite Hd; right; reflexivity).
    rewrite (step_scan_rejected p ty w Hr) in *. simpl fst. simpl snd.
    constructor; [rewrite Hd; reflexivity | apply IH; exact Hrest].
  - simpl fst. apply IH. exact Hrest.
  - simpl fst. apply IH. exact Hrest.
Qed.

Lemma busy_rejects_every_event_witness :
  flag_stays [EvScan "ABC123" "qr"; EvAdvance 5000; EvScan "XYZ" "code128";
              EvScan "ABC123" "qr"] busyWorld = true
  /\ Forall (fun d => d = RejectBusy)
       (fst (run [EvScan "ABC123" "qr"; EvAdvance 5000; EvScan "XYZ" "code128";
                  EvScan "ABC123" "qr"] busyWorld)).
Proof.
  split; [reflexivity | ].
  apply (proj2 busy_rejects_every_event). reflexivity.
Defined.

(** ** Rejections leave no trace but a console line (C10) *)

(** C10. When the handler rejects a decode event (busy or duplicate) it
    returns at the guard: the refs, the stored records, the displayed list
    and statistics, the timers and the suspended handlers are unchanged, no
    notification, alert, database call or request is issued; the only thing
    written is one console line. *)
Theorem rejected_scan_changes_nothing (p ty : string) (w : World) (d : Decision) :
  fst (Ref.onBarcodeScanned p ty w) = Ok d -> rejected d ->
  let w' := snd (Ref.onBarcodeScanned p ty w) in
  refs w' = refs w /\ store w' = store w /\ ui w' = ui w
  /\ timers w' = timers w /\ inflight w' = inflight w /\ network w' = network w
  /\ out w' = (out w ++ [ConsoleLog [rejectLine d]])%list
  /\ notifications (out w') = notifications (out w)
  /\ alerts (out w') = alerts (out w)
  /\ dbCalls (out w') = dbCalls (out w)
  /\ fetches (out w') = fetches (out w).
Proof.
  intros Hres Hrej. rewrite handler_result in Hres. injection Hres as Hd.
  rewrite <- Hd in Hrej. intro w'. subst w'.
  rewrite (handler_rejected p ty w Hrej). rewrite Hd. simpl snd.
  unfold logged, notifications, alerts, dbCalls, fetches. simpl out.
  rewrite !flat_map_app. simpl. rewrite !app_nil_r.
  repeat split; reflexivity.
Qed.

Lemma rejected_scan_changes_nothing_witness :
  let w' := snd (Ref.onBarcodeScanned "ABC123" "qr" busyWorld) in
  refs w' = refs busyWorld /\ store w' = store busyWorld /\ ui w' = ui busyWorld
  /\ timers w' = timers busyWorld /\ inflight w' = inflight busyWorld
  /\ network w' = network busyWorld
  /\ out w' = (out busyWorld ++ [ConsoleLog [rejectLine RejectBusy]])%list
  /\ notifications (out w') = notifications (out busyWorld)
  /\ alerts (out w') = alerts (out busyWorld)
  /\ dbCalls (out w') = dbCalls (out busyWorld)
  /\ fetches (out w') = fetches (out busyWorld).
Proof.
  apply (rejected_scan_changes_nothing "ABC123" "qr" busyWorld RejectBusy).
  - reflexivity.
  - right. reflexivity.
Defined.

(** ** Accepting a scan *)

Lemma start_accepted_db (p ty : string) (w : World) (h : Database) :
  fst (Ref.decide (refs w) p (now w)) = Accept -> db (ui w) = Some h ->
  Ref.onBarcodeScanned_start p ty w
  = (Ok Accept,
     upd_inflight (inflight w ++ [(h, p, ty)])
       (logged (ConsoleLog ["Procesando escaneo:"; p])
          (upd_refs (mkRefs p (now w) true) w))).
Proof.
  intros Ha Hdb. unfold Ref.onBarcodeScanned_start, bind.
  rewrite (scanGuards_accepted _ _ Ha). unfold getW. simpl. rewrite Hdb. reflexivity.
Qed.

Lemma start_accepted_nodb (p ty : string) (w : World) :
  fst (Ref.decide (refs w) p (now w)) = Accept -> db (ui w) = None ->
  Ref.onBarcodeScanned_start p ty w
  = (Ok Accept,
     upd_timers (timers w ++ [(now w + Ref.PROCESSING_TIMEOUT, Unlock)])
       (logged (ConsoleLog ["Procesando escaneo:"; p])
          (upd_refs (mkRefs p (now w) true) w))).
Proof.
  intros Ha Hdb. unfold Ref.onBarcodeScanned_start, bind.
  rewrite (scanGuards_accepted _ _ Ha). unfold getW. simpl. rewrite Hdb. reflexivity.
Qed.

(** On acceptance the refs hold the payload, the decode time and the flag
    before anything else happens; the clock and the store are untouched. *)
Lemma step_scan_accepted (p ty : string) (w : World) :
  fst (Ref.decide (refs w) p (now w)) = Accept ->
  fst (step (EvScan p ty) w) = Some Accept
  /\ refs (snd (step (EvScan p ty) w)) = mkRefs p (now w) true
  /\ now (snd (step (EvScan p ty) w)) = now w
  /\ store (snd (step (EvScan p ty) w)) = store w.
Proof.
  intro Ha. simpl step. destruct (db (ui w)) as [h | ] eqn:Hdb.
  - rewrite (start_accepted_db p ty w h Ha Hdb). simpl. auto.
  - rewrite (start_accepted_nodb p ty w Ha Hdb). simpl. auto.
Qed.

Lemma resume_lastAccepted : keeps lastAccepted Ref.onBarcodeScanned_resume.
Proof. apply keeps_resume; reflexivity. Qed.

Lemma resume_now : keeps now Ref.onBarcodeScanned_resume.
Proof. apply keeps_resume; reflexivity. Qed.

Lemma resume_refs : keeps refs Ref.onBarcodeScanned_resume.
Proof. apply keeps_resume; reflexivity. Qed.

(** Once [(p, t0)] is the last accepted pair, scans of [p] stamped inside
    the cooldown window are all rejected, whatever settles or fires between
    them, and the pair stays. *)
Lemma window_rejects (p : string) (t0 : Z) (es : list event) :
  forall w,
    lastAccepted w = (p, t0) -> scans_within p t0 (now w) es = true ->
    Forall rejected (fst (run es w)) /\ lastAccepted (snd (run es w)) = (p, t0).
Proof.
  induction es as [ | e es IH]; intros w Hlast Hwin.
  - split; [constructor | exact Hlast].
  - rewrite run_cons. simpl fst. simpl snd.
    destruct e as [q ty | | dt]; simpl in Hwin.
    + apply andb_prop in Hwin. destruct Hwin as [Hq Hrest].
      apply andb_prop in Hq. destruct Hq as [Hq Ht].
      apply String.eqb_eq in Hq. subst q. apply Z.ltb_lt in Ht.
      injection Hlast as Hcode Htime.
      assert (Hr : rejected (fst (Ref.decide (refs w) p (now w)))).
      { destruct (isProcessingRef (refs w)) eqn:Hflag.
        - rewrite decide_busy by exact Hflag. right; reflexivity.
        - rewrite decide_duplicate; [left; reflexivity | assumption .. | lia]. }
      rewrite (step_scan_rejected p ty w Hr). simpl fst. simpl snd.
      destruct (IH (logged (ConsoleLog [rejectLine (fst (Ref.decide (refs w) p (now w)))]) w))
        as [Hall Hkeep].
      * unfold lastAccepted. simpl. congruence.
      * exact Hrest.
      * split; [constructor; assumption | exact Hkeep].
    + simpl step. simpl fst. simpl snd. apply IH.
      * rewrite resume_lastAccepted. exact Hlast.
      * rewrite resume_now. exact Hwin.
    + simpl step. simpl fst. simpl snd. apply IH.
      * rewrite advance_lastAccepted. exact Hlast.
      * rewrite advance_now. exact Hwin.
Qed.

(** ** One acceptance per cooldown window (C1) *)

(** C1. Take a decode event that is accepted at time [now w], followed by
    any run of events in which every scan carries the same payload and is
    stamped less than [SCAN_COOLDOWN] (3000 ms) after that acceptance.  The
    first event is the only one accepted: every later scan is rejected as a
    duplicate or as busy.  On the acceptance the refs record the payload
    and the decode time as the last accepted pair (and set the flag), and
    that pair is still in place at the end of the run. *)
Theorem one_accept_per_window (w : World) (p ty : string) (es : list event) :
  fst (Ref.decide (refs w) p (now w)) = Accept ->
  scans_within p (now w) (now w) es = true ->
  exists ds,
    fst (run (EvScan p ty :: es) w) = Accept :: ds
    /\ Forall rejected ds
    /\ refs (snd (step (EvScan p ty) w)) = mkRefs p (now w) true
    /\ lastAccepted (snd (run (EvScan p ty :: es) w)) = (p, now w).
Proof.
  intros Ha Hwin.
  destruct (step_scan_accepted p ty w Ha) as (Hd & Hrefs & Hnow & _).
  destruct (window_rejects p (now w) es (snd (step (EvScan p ty) w))) as [Hall Hkeep].
  - unfold lastAccepted. rewrite Hrefs. reflexivity.
  - rewrite Hnow. exact Hwin.
  - exists (fst (run es (snd (step (EvScan p ty) w)))).
    rewrite run_cons. rewrite Hd. simpl fst. simpl snd. auto.
Qed.

Lemma one_accept_per_window_witness :
  exists ds,
    fst (run (EvScan "ABC123" "qr" :: burst) idleWorld) = Accept :: ds
    /\ Forall rejected ds
    /\ refs (snd (step (EvScan "ABC123" "qr") idleWorld))
       = mkRefs "ABC123" 1700000000000 true
    /\ lastAccepted (snd (run (EvScan "ABC123" "qr" :: burst) idleWorld))
       = ("ABC123", 1700000000000).
Proof.
  apply (one_accept_per_window idleWorld "ABC123" "qr" burst); reflexivity.
Defined.

(** ** Release of the processing flag (C3) *)

Lemma run_snd_cons (e : event) (es : list event) (w : World) :
  snd (run (e :: es) w) = snd (run es (snd (step e w))).
Proof. rewrite run_cons. reflexivity. Qed.

Lemma keeps_fire_inflight (cb : callback) : keeps inflight (fire cb).
Proof. destruct cb; intro w; reflexivity. Qed.

Lemma advance_inflight (dt : N) : keeps inflight (advance dt).
Proof.
  intro w. unfold advance.
  rewrite (keeps_for_each inflight _ _ keeps_fire_inflight). reflexivity.
Qed.

(** When the awaited work settles, whatever its outcome, the [finally]
    arms the release [PROCESSING_TIMEOUT] after that moment. *)
Lemma resume_timers (w : World) (h : Database) (p ty : string)
    (rest : list (Database * string * string)) :
  inflight w = (h, p, ty) :: rest ->
  timers (snd (Ref.onBarcodeScanned_resume w))
  = (timers w ++ [(now w + Ref.PROCESSING_TIMEOUT, Unlock)])%list.
Proof.
  intro Hin. unfold Ref.onBarcodeScanned_resume, bind, getW. rewrite Hin.
  unfold modify. cbv beta iota. set (w1 := upd_inflight rest w).
  unfold Ref.scanTry, try_finally.
  pose proof (keeps_scan_caught timers (fun _ _ => eq_refl) (fun _ _ => eq_refl)
                (fun _ _ => eq_refl) (Some h) p ty w1) as Ht.
  pose proof (keeps_scan_caught now (fun _ _ => eq_refl) (fun _ _ => eq_refl)
                (fun _ _ => eq_refl) (Some h) p ty w1) as Hn.
  destruct (try_catch _ _ w1) as [r w2]. simpl in Ht, Hn.
  unfold Ref.scanFinally, setTimeout, modify. simpl. rewrite Ht, Hn. reflexivity.
Qed.

Lemma decide_accept_when (r : Refs) (p : string) (t : Z) :
  isProcessingRef r = false ->
  lastScannedCode r <> p \/ Ref.SCAN_COOLDOWN <= t - lastScannedTime r ->
  fst (Ref.decide r p t) = Accept.
Proof.
  intros Hf H. unfold Ref.decide. rewrite Hf.
  destruct (String.eqb_spec (lastScannedCode r) p) as [He | Hn]; simpl.
  - destruct (Z.ltb_spec (t - lastScannedTime r) Ref.SCAN_COOLDOWN); [ | reflexivity].
    destruct H as [H | H]; [contradiction | lia].
  - reflexivity.
Qed.

Lemma step_scan_decision (p ty : string) (w : World) :
  fst (step (EvScan p ty) w) = Some (fst (Ref.decide (refs w) p (now w))).
Proof.
  destruct (fst (Ref.decide (refs w) p (now w))) eqn:Ed.
  - apply step_scan_accepted. exact Ed.
  - rewrite step_scan_rejected; rewrite Ed; [reflexivity | right; reflexivity].
  - rewrite step_scan_rejected; rewrite Ed; [reflexivity | left; reflexivity].
Qed.

Lemma scan_when_busy (p ty : string) (w : World) :
  isProcessingRef (refs w) = true -> fst (step (EvScan p ty) w) = Some RejectBusy.
Proof.
  intro H. rewrite step_scan_decision, decide_busy by exact H. reflexivity.
Qed.

(** With the flag clear, a scan of the last accepted payload is decided by
    the time since that acceptance alone. *)
Lemma scan_of_last_payload (p ty : string) (t0 : Z) (w : World) :
  isProcessingRef (refs w) = false -> lastAccepted w = (p, t0) ->
  fst (step (EvScan p ty) w)
  = Some (if now w - t0 <? Ref.SCAN_COOLDOWN then RejectDuplicate else Accept).
Proof.
  intros Hf Hl. injection Hl as Hcode Htime. rewrite step_scan_decision.
  destruct (Z.ltb_spec (now w - t0) Ref.SCAN_COOLDOWN) as [Hlt | Hge].
  - rewrite decide_duplicate; [reflexivity | assumption .. | rewrite Htime; exact Hlt].
  - rewrite decide_accept_when; [reflexivity | exact Hf | right; rewrite Htime; exact Hge].
Qed.

(** With the flag set and every waiting release due at [t], the flag is
    set until the clock reaches [t] and clear from then on. *)
Lemma released_exactly (w : World) (t : Z) (d : N) :
  isProcessingRef (refs w) = true ->
  In (t, Unlock) (timers w) ->
  (forall t', In (t', Unlock) (timers w) -> t' = t) ->
  isProcessingRef (refs (snd (advance d w))) = (now w + Z.of_N d <? t).
Proof.
  intros Hf Hin Honly.
  destruct (Z.ltb_spec (now w + Z.of_N d) t) as [Hlt | Hge].
  - rewrite advance_keeps_refs; [exact Hf | ].
    intros t' Ht'. rewrite (Honly t' Ht'). exact Hlt.
  - apply (advance_unlocks d w t Hin Hge).
Qed.

(** C3, as the code has it.  The release is set by the [finally] of the
    handler, [PROCESSING_TIMEOUT] (1000 ms) ahead of the moment the
    [finally] runs.  With a database connected that moment is the settling
    of the awaited work: however long ([d1]) the work stays pending the flag
    stays set, and [d2] ms after it has settled the flag is set exactly
    when [d2] is less than 1000.  Without a database the [try] is empty and
    the moment is the acceptance itself: [d1] ms after it the flag is set
    exactly when [d1] is less than 1000.  A scan of the same payload
    arriving then is rejected as busy while the flag is set, rejected as a
    duplicate when the flag is clear and less than [SCAN_COOLDOWN] has
    passed since the acceptance, and accepted otherwise. *)
Theorem flag_released_after_settle (w : World) (p ty : string) (d1 d2 : N) :
  fst (Ref.decide (refs w) p (now w)) = Accept ->
  inflight w = [] -> no_unlock_pending w ->
  let w1 := snd (run [EvScan p ty; EvAdvance d1] w) in
  let w2 := snd (run [EvSettle; EvAdvance d2] w1) in
  (db (ui w) <> None ->
   isProcessingRef (refs w1) = true
   /\ isProcessingRef (refs w2) = (Z.of_N d2 <? Ref.PROCESSING_TIMEOUT)
   /\ fst (step (EvScan p ty) w2)
      = Some (if Z.of_N d2 <? Ref.PROCESSING_TIMEOUT then RejectBusy
              else if Z.of_N d1 + Z.of_N d2 <? Ref.SCAN_COOLDOWN then RejectDuplicate
                   else Accept))
  /\ (db (ui w) = None ->
      isProcessingRef (refs w1) = (Z.of_N d1 <? Ref.PROCESSING_TIMEOUT)
      /\ fst (step (EvScan p ty) w1)
         = Some (if Z.of_N d1 <? Ref.PROCESSING_TIMEOUT then RejectBusy
                 else if Z.of_N d1 <? Ref.SCAN_COOLDOWN then RejectDuplicate
                      else Accept)).
Proof.
  intros Ha Hin Hno w1 w2. subst w2 w1.
  rewrite !run_snd_cons. simpl (snd (run [] _)). split.
  - intro Hsome. destruct (db (ui w)) as [h | ] eqn:Hdb; [clear Hsome | contradiction].
    simpl (step (EvScan p ty) w). rewrite (start_accepted_db p ty w h Ha Hdb).
    simpl (snd (Some Accept, _)). rewrite Hin. simpl app.
    set (wa := upd_inflight _ _).
    simpl (step (EvAdvance d1) wa). simpl (snd (None, _)).
    set (wb := snd (advance d1 wa)).
    assert (Hrb : refs wb = mkRefs p (now w) true).
    { unfold wb. rewrite advance_keeps_refs; [reflexivity | ].
      intros t Ht. exfalso. exact (Hno t Ht). }
    assert (Hnb : now wb = now w + Z.of_N d1)
      by (unfold wb; rewrite advance_now; reflexivity).
    assert (Hib : inflight wb = [(h, p, ty)])
      by (unfold wb; rewrite advance_inflight; reflexivity).
    assert (Htb : forall t, ~ In (t, Unlock) (timers wb)).
    { intros t Ht. unfold wb in Ht. rewrite advance_timers in Ht.
      apply filter_In in Ht. exact (Hno t (proj1 Ht)). }
    simpl (step EvSettle wb). simpl (snd (None, _)).
    set (wc := snd (Ref.onBarcodeScanned_resume wb)).
    assert (Hrc : refs wc = mkRefs p (now w) true)
      by (unfold wc; rewrite resume_refs; exact Hrb).
    assert (Hnc : now wc = now w + Z.of_N d1)
      by (unfold wc; rewrite resume_now; exact Hnb).
    assert (Htc : timers wc = (timers wb ++ [(now wb + Ref.PROCESSING_TIMEOUT, Unlock)])%list)
      by (unfold wc; apply (resume_timers wb h p ty [] Hib)).
    simpl (step (EvAdvance d2) wc). simpl (snd (None, _)).
    set (wd := snd (advance d2 wc)).
    assert (Hfd : isProcessingRef (refs wd) = (Z.of_N d2 <? Ref.PROCESSING_TIMEOUT)).
    { unfold wd. rewrite (released_exactly wc (now wb + Ref.PROCESSING_TIMEOUT) d2).
      - rewrite Hnc, Hnb.
        destruct (Z.ltb_spec (now w + Z.of_N d1 + Z.of_N d2)
                    (now w + Z.of_N d1 + Ref.PROCESSING_TIMEOUT));
          destruct (Z.ltb_spec (Z.of_N d2) Ref.PROCESSING_TIMEOUT);
          try reflexivity; lia.
      - rewrite Hrc. reflexivity.
      - rewrite Htc. apply in_or_app. right. left. reflexivity.
      - intros t' Ht'. rewrite Htc in Ht'. apply in_app_or in Ht'.
        destruct Ht' as [Ht' | [Ht' | []]]; [exfalso; exact (Htb t' Ht') | ].
        injection Ht' as Ht'. symmetry. exact Ht'. }
    assert (Hld : lastAccepted wd = (p, now w)).
    { unfold wd. rewrite advance_lastAccepted. unfold lastAccepted.
      rewrite Hrc. reflexivity. }
    assert (Hnd : now wd = now w + Z.of_N d1 + Z.of_N d2)
      by (unfold wd; rewrite advance_now; lia).
    split; [rewrite Hrb; reflexivity | ]. split; [exact Hfd | ].
    destruct (Z.of_N d2 <? Ref.PROCESSING_TIMEOUT) eqn:Hd2.
    + apply scan_when_busy. exact Hfd.
    + rewrite (scan_of_last_payload p ty (now w) wd Hfd Hld). rewrite Hnd.
      replace (now w + Z.of_N d1 + Z.of_N d2 - now w) with (Z.of_N d1 + Z.of_N d2) by lia.
      reflexivity.
  - intro Hdb.
    simpl (step (EvScan p ty) w). rewrite (start_accepted_nodb p ty w Ha Hdb).
    simpl (snd (Some Accept, _)). set (wa := upd_timers _ _).
    simpl (step (EvAdvance d1) wa). simpl (snd (None, _)).
    set (wb := snd (advance d1 wa)).
    assert (Hfb : isProcessingRef (refs wb) = (Z.of_N d1 <? Ref.PROCESSING_TIMEOUT)).
    { unfold wb. rewrite (released_exactly wa (now w + Ref.PROCESSING_TIMEOUT) d1).
      - change (now wa) with (now w).
        destruct (Z.ltb_spec (now w + Z.of_N d1) (now w + Ref.PROCESSING_TIMEOUT));
          destruct (Z.ltb_spec (Z.of_N d1) Ref.PROCESSING_TIMEOUT);
          try reflexivity; lia.
      - reflexivity.
      - unfold wa. simpl. apply in_or_app. right. left. reflexivity.
      - intros t' Ht'. unfold wa in Ht'. simpl in Ht'. apply in_app_or in Ht'.
        destruct Ht' as [Ht' | [Ht' | []]]; [exfalso; exact (Hno t' Ht') | ].
        injection Ht' as Ht'. symmetry. exact Ht'. }
    assert (Hlb : lastAccepted wb = (p, now w))
      by (unfold wb; rewrite advance_lastAccepted; reflexivity).
    assert (Hnb : now wb = now w + Z.of_N d1)
      by (unfold wb; rewrite advance_now; reflexivity).
    split; [exact Hfb | ].
    destruct (Z.of_N d1 <? Ref.PROCESSING_TIMEOUT) eqn:Hd1.
    + apply scan_when_busy. exact Hfb.
    + rewrite (scan_of_last_payload p ty (now w) wb Hfb Hlb). rewrite Hnb.
      replace (now w + Z.of_N d1 - now w) with (Z.of_N d1) by lia.
      reflexivity.
Qed.

Lemma flag_released_after_settle_witness :
  (let w1 := snd (run [EvScan "ABC123" "qr"; EvAdvance 2500] idleWorld) in
   let w2 := snd (run [EvSettle; EvAdvance 999] w1) in
   isProcessingRef (refs w1) = true
   /\ isProcessingRef (refs w2) = true
   /\ fst (step (EvScan "ABC123" "qr") w2) = Some RejectBusy)
  /\ (let w1 := snd (run [EvScan "ABC123" "qr"; EvAdvance 2500] idleWorld) in
      let w2 := snd (run [EvSettle; EvAdvance 1000] w1) in
      isProcessingRef (refs w2) = false
      /\ fst (step (EvScan "ABC123" "qr") w2) = Some Accept)
  /\ (let w1 := snd (run [EvScan "ABC123" "qr"; EvAdvance 1000] offlineWorld) in
      isProcessingRef (refs w1) = false
      /\ fst (step (EvScan "ABC123" "qr") w1) = Some RejectDuplicate).
Proof.
  split; [ | split].
  - apply (flag_released_after_settle idleWorld "ABC123" "qr" 2500 999);
      [reflexivity | reflexivity | intros t H; exact H | discriminate].
  - apply (flag_released_after_settle idleWorld "ABC123" "qr" 2500 1000);
      [reflexivity | reflexivity | intros t H; exact H | discriminate].
  - apply (flag_released_after_settle offlineWorld "ABC123" "qr" 1000 0);
      [reflexivity | reflexivity | intros t H; exact H | reflexivity].
Defined.

(** C3, as stated, fails: 3500 ms after an acceptance, so past both
    [PROCESSING_TIMEOUT] and [SCAN_COOLDOWN], with the awaited work of the
    accepted scan still pending, the flag is still set and the same payload
    is rejected as busy. *)
Lemma flag_not_released_while_work_pending :
  let w1 := snd (run [EvScan "ABC123" "qr"; EvAdvance 3500] idleWorld) in
  inflight w1 = [(LocalDb, "ABC123", "qr")]
  /\ now w1 - lastScannedTime (refs w1) = 3500
  /\ isProcessingRef (refs w1) = true
  /\ fst (step (EvScan "ABC123" "qr") w1) = Some RejectBusy.
Proof. vm_compute. repeat split; reflexivity. Qed.

(** Without a database the [try] is empty, the [finally] runs with the
    guards, and the flag is clear [PROCESSING_TIMEOUT] after the acceptance. *)
Lemma flag_released_without_db (w : World) (p ty : string) (d : N) :
  fst (Ref.decide (refs w) p (now w)) = Accept -> db (ui w) = None ->
  Ref.PROCESSING_TIMEOUT <= Z.of_N d ->
  isProcessingRef (refs (snd (run [EvScan p ty; EvAdvance d] w))) = false.
Proof.
  intros Ha Hdb Hd. rewrite !run_snd_cons. simpl (snd (run [] _)).
  simpl (step (EvScan p ty) w). rewrite (start_accepted_nodb p ty w Ha Hdb).
  simpl (snd (Some Accept, _)). set (wa := upd_timers _ _).
  simpl (step (EvAdvance d) wa). simpl (snd (None, _)).
  apply (advance_unlocks d wa (now w + Ref.PROCESSING_TIMEOUT)).
  - unfold wa. simpl. apply in_or_app. right. left. reflexivity.
  - unfold wa. simpl. lia.
Qed.

(** ** What the scan body does to the store *)

Lemma existeCodigo_run (h : Database) (p : string) (w : World) :
  existeCodigo h p w
  = if storageFault (env w) ExisteCodigo
    then (Throw (StorageError ExisteCodigo), logged (DbCall ExisteCodigo) w)
    else (Ok (existsb (fun c => (data c =? p)%string) (records (store w))),
          logged (DbCall ExisteCodigo) w).
Proof.
  unfold existeCodigo, dbCall, logged.
  destruct (storageFault (env w) ExisteCodigo); [reflexivity | ].
  destruct w; reflexivity.
Qed.

Lemma insertarCodigo_run (h : Database) (p ty : string) (w : World) :
  insertarCodigo h p ty w
  = if storageFault (env w) InsertarCodigo
    then (Throw (StorageError InsertarCodigo), logged (DbCall InsertarCodigo) w)
    else (Ok (newCode p ty w),
          upd_store (mkStore (newCode p ty w :: records (store w))
                             (S (nextId (store w))))
            (logged (DbCall InsertarCodigo) w)).
Proof.
  unfold insertarCodigo, dbCall, logged, newCode.
  destruct (storageFault (env w) InsertarCodigo); reflexivity.
Qed.

Lemma showNotification_store (m : string) : keeps store (showNotification m).
Proof. apply keeps_showNotification; reflexivity. Qed.

Lemma showNotification_env (m : string) : keeps env (showNotification m).
Proof. apply keeps_showNotification; reflexivity. Qed.

Lemma showNotification_now (m : string) : keeps now (showNotification m).
Proof. apply keeps_showNotification; reflexivity. Qed.

Lemma updateData_store (d : Database) : keeps store (updateData d).
Proof. apply keeps_updateData; reflexivity. Qed.

Lemma returns_showNotification (m : string) : returns (showNotification m).
Proof.
  apply returns_try_catch. intro e.
  apply returns_bind; [apply returns_emit | intros _; apply returns_emit].
Qed.

(** With the existence check or the insertion failing, the scan body
    stores nothing. *)
Lemma scanBody_store_fault (h : Database) (p ty : string) (w : World) :
  storageFault (env w) ExisteCodigo = true
  \/ storageFault (env w) InsertarCodigo = true ->
  store (snd (Ref.scanBody h p ty w)) = store w.
Proof.
  intro H. unfold Ref.scanBody, bind. rewrite existeCodigo_run.
  destruct (storageFault (env w) ExisteCodigo) eqn:He; [reflexivity | ].
  destruct H as [H | Hi]; [discriminate H | ].
  destruct (existsb _ _).
  - rewrite showNotification_store. reflexivity.
  - set (w1 := logged (DbCall ExisteCodigo) w).
    pose proof (showNotification_store ("Nuevo código escaneado: " ++ p) w1) as Hs.
    pose proof (showNotification_env ("Nuevo código escaneado: " ++ p) w1) as Hv.
    destruct (showNotification _ w1) as [[u | e] w2]; simpl in Hs, Hv.
    + rewrite insertarCodigo_run, Hv, Hi. simpl. exact Hs.
    + exact Hs.
Qed.

(** With both calls working, the scan body stores a new record exactly when
    no stored record carries the payload. *)
Lemma scanBody_store_ok (h : Database) (p ty : string) (w : World) :
  storageFault (env w) ExisteCodigo = false ->
  storageFault (env w) InsertarCodigo = false ->
  store (snd (Ref.scanBody h p ty w))
  = if existsb (fun c => (data c =? p)%string) (records (store w))
    then store w
    else mkStore (newCode p ty w :: records (store w)) (S (nextId (store w))).
Proof.
  intros He Hi. unfold Ref.scanBody, bind. rewrite existeCodigo_run, He.
  destruct (existsb _ _).
  - rewrite showNotification_store. reflexivity.
  - set (w1 := logged (DbCall ExisteCodigo) w).
    pose proof (showNotification_store ("Nuevo código escaneado: " ++ p) w1) as Hs.
    pose proof (showNotification_env ("Nuevo código escaneado: " ++ p) w1) as Hv.
    pose proof (showNotification_now ("Nuevo código escaneado: " ++ p) w1) as Hn.
    destruct (returns_showNotification ("Nuevo código escaneado: " ++ p) w1) as [u Hu].
    destruct (showNotification _ w1) as [r w2]; simpl in Hs, Hv, Hn, Hu. subst r.
    rewrite insertarCodigo_run, Hv, Hi.
    rewrite updateData_store. simpl store. unfold newCode.
    rewrite Hs, Hn. reflexivity.
Qed.

(** The [catch] and the [finally] never touch the store. *)
Lemma scanTry_store (odb : option Database) (p ty : string) (w : World) :
  store (snd (Ref.scanTry odb p ty w))
  = match odb with
    | Some h => store (snd (Ref.scanBody h p ty w))
    | None => store w
    end.
Proof.
  unfold Ref.scanTry, try_finally, try_catch.
  destruct odb as [h | ]; [ | reflexivity].
  destruct (Ref.scanBody h p ty w) as [[u | e] w1]; reflexivity.
Qed.

Lemma resume_store (w : World) (h : Database) (p ty : string)
    (rest : list (Database * string * string)) :
  inflight w = (h, p, ty) :: rest ->
  store (snd (Ref.onBarcodeScanned_resume w))
  = store (snd (Ref.scanBody h p ty (upd_inflight rest w))).
Proof.
  intro Hin. unfold Ref.onBarcodeScanned_resume, bind, getW. rewrite Hin.
  unfold modify. cbv beta iota. apply (scanTry_store (Some h)).
Qed.

Lemma resume_idle (w : World) :
  inflight w = [] -> Ref.onBarcodeScanned_resume w = (Ok tt, w).
Proof.
  intro Hin. unfold Ref.onBarcodeScanned_resume, bind, getW. rewrite Hin. reflexivity.
Qed.

(** The handler run in one go is its start followed by the settling of
    its awaited work. *)
Lemma handler_is_start_then_resume (p ty : string) (w : World) :
  inflight w = [] ->
  snd (Ref.onBarcodeScanned p ty w)
  = snd (Ref.onBarcodeScanned_resume (snd (Ref.onBarcodeScanned_start p ty w))).
Proof.
  intro Hin. destruct (fst (Ref.decide (refs w) p (now w))) eqn:Ed.
  - destruct (db (ui w)) as [h | ] eqn:Hdb.
    + rewrite (start_accepted_db p ty w h Ed Hdb). rewrite Hin. simpl snd.
      unfold Ref.onBarcodeScanned, bind. rewrite (scanGuards_accepted _ _ Ed).
      unfold getW. set (w1 := logged _ _).
      change (db (ui w1)) with (db (ui w)). rewrite Hdb.
      unfold Ref.onBarcodeScanned_resume, bind, getW, modify.
      change (inflight (upd_inflight [(h, p, ty)] w1)) with [(h, p, ty)].
      cbv beta iota.
      replace (upd_inflight [] (upd_inflight [(h, p, ty)] w1)) with w1
        by (unfold w1; destruct w; simpl in *; subst; reflexivity).
      destruct (returns_scanTry (Some h) p ty w1) as [u Hu].
      destruct (Ref.scanTry (Some h) p ty w1) as [r w2]. simpl in Hu. subst r.
      reflexivity.
    + rewrite (start_accepted_nodb p ty w Ed Hdb). simpl snd.
      rewrite resume_idle by exact Hin. simpl snd.
      unfold Ref.onBarcodeScanned, bind. rewrite (scanGuards_accepted _ _ Ed).
      unfold getW. set (w1 := logged _ _).
      change (db (ui w1)) with (db (ui w)). rewrite Hdb. reflexivity.
  - assert (Hr : rejected (fst (Ref.decide (refs w) p (now w))))
      by (rewrite Ed; right; reflexivity).
    rewrite (handler_rejected p ty w Hr), (start_rejected p ty w Hr). simpl snd.
    rewrite resume_idle by exact Hin. reflexivity.
  - assert (Hr : rejected (fst (Ref.decide (refs w) p (now w))))
      by (rewrite Ed; left; reflexivity).
    rewrite (handler_rejected p ty w Hr), (start_rejected p ty w Hr). simpl snd.
    rewrite resume_idle by exact Hin. reflexivity.
Qed.

(** ** Deduplication state comes first (C9) *)

(** C9. On acceptance the refs (payload, decode time, flag) are written by
    the guards' part of the handler, which makes no database call and
    stores nothing; the handler is that part followed by the [try], where
    every database call is made.  So when nothing can be stored (no
    database connection, or the existence check or the insertion fails) the
    handler ends with the store as it was and the refs still written, and
    every scan of the same payload stamped inside the cooldown window is
    rejected; in particular one that arrives after the flag has been
    released is rejected as a duplicate. *)
Theorem dedup_state_set_before_persistence
    (w : World) (p ty : string) (es : list event) (d : N) :
  fst (Ref.decide (refs w) p (now w)) = Accept ->
  inflight w = [] ->
  db (ui w) = None
  \/ storageFault (env w) ExisteCodigo = true
  \/ storageFault (env w) InsertarCodigo = true ->
  scans_within p (now w) (now w) es = true ->
  Ref.PROCESSING_TIMEOUT <= Z.of_N d < Ref.SCAN_COOLDOWN ->
  let wg := snd (Ref.scanGuards p w) in
  let wh := snd (Ref.onBarcodeScanned p ty w) in
  let wb := snd (run [EvScan p ty; EvSettle] w) in
  (refs wg = mkRefs p (now w) true
   /\ dbCalls (out wg) = dbCalls (out w) /\ store wg = store w)
  /\ Ref.onBarcodeScanned p ty w = (Ok Accept, snd (Ref.scanTry (db (ui wg)) p ty wg))
  /\ (refs wh = mkRefs p (now w) true /\ store wh = store w)
  /\ store wb = store w
  /\ Forall rejected (fst (run es wb))
  /\ fst (run [EvAdvance d; EvScan p ty] wb) = [RejectDuplicate].
Proof.
  intros Ha Hin Hfault Hwin Hd wg wh wb.
  assert (Hg : Ref.scanGuards p w
               = (Ok Accept, logged (ConsoleLog ["Procesando escaneo:"; p])
                               (upd_refs (mkRefs p (now w) true) w)))
    by (apply scanGuards_accepted; exact Ha).
  assert (Hh : Ref.onBarcodeScanned p ty w
               = (Ok Accept, snd (Ref.scanTry (db (ui wg)) p ty wg))).
  { unfold wg. unfold Ref.onBarcodeScanned, bind. rewrite Hg. unfold getW.
    cbn [snd]. set (w1 := logged _ _).
    destruct (returns_scanTry (db (ui w1)) p ty w1) as [u Hu].
    destruct (Ref.scanTry (db (ui w1)) p ty w1) as [r w2]. cbn [fst snd] in *.
    subst r. reflexivity. }
  assert (Hfw : forall h, db (ui w) = Some h ->
                          storageFault (env w) ExisteCodigo = true
                          \/ storageFault (env w) InsertarCodigo = true).
  { intros h Hdb. destruct Hfault as [Hf | Hf]; [congruence | exact Hf]. }
  destruct (step_scan_accepted p ty w Ha) as (_ & Hrefs & Hnow & Hstore).
  set (wa := snd (step (EvScan p ty) w)) in *.
  assert (Hwb : wb = snd (step EvSettle wa))
    by (unfold wb; rewrite !run_snd_cons; reflexivity).
  assert (Hlb : lastAccepted wb = (p, now w)).
  { rewrite Hwb. simpl step. simpl snd. rewrite resume_lastAccepted.
    unfold lastAccepted. rewrite Hrefs. reflexivity. }
  assert (Hnb : now wb = now w).
  { rewrite Hwb. simpl step. simpl snd. rewrite resume_now. exact Hnow. }
  assert (Hsb : store wb = store w /\ In (now w + Ref.PROCESSING_TIMEOUT, Unlock) (timers wb)).
  { rewrite Hwb. simpl (step EvSettle wa). simpl (snd (None, _)).
    destruct (db (ui w)) as [h | ] eqn:Hdb.
    - assert (Hia : inflight wa = [(h, p, ty)]).
      { unfold wa. simpl step. rewrite (start_accepted_db p ty w h Ha Hdb).
        simpl. rewrite Hin. reflexivity. }
      split.
      + rewrite (resume_store wa h p ty [] Hia).
        rewrite scanBody_store_fault; [exact Hstore | ].
        assert (Hea : env wa = env w).
        { unfold wa. simpl step. rewrite (start_accepted_db p ty w h Ha Hdb).
          reflexivity. }
        simpl env. rewrite Hea. exact (Hfw h eq_refl).
      + rewrite (resume_timers wa h p ty [] Hia). rewrite Hnow.
        apply in_or_app. right. left. reflexivity.
    - assert (Hwa : wa = upd_timers (timers w ++ [(now w + Ref.PROCESSING_TIMEOUT, Unlock)])
                           (logged (ConsoleLog ["Procesando escaneo:"; p])
                              (upd_refs (mkRefs p (now w) true) w))).
      { unfold wa. simpl step. rewrite (start_accepted_nodb p ty w Ha Hdb). reflexivity. }
      rewrite resume_idle by (rewrite Hwa; exact Hin).
      split; [exact Hstore | ]. rewrite Hwa. simpl.
      apply in_or_app. right. left. reflexivity. }
  destruct Hsb as [Hsb Htb].
  split.
  { unfold wg. rewrite Hg. simpl. unfold dbCalls. rewrite flat_map_app. simpl.
    rewrite app_nil_r. auto. }
  split; [exact Hh | ]. split.
  { unfold wh. rewrite Hh. simpl snd. split.
    - rewrite (keeps_scanTry refs) by reflexivity. unfold wg. rewrite Hg. reflexivity.
    - rewrite scanTry_store. unfold wg. rewrite Hg. simpl snd.
      set (w1 := logged _ _). change (db (ui w1)) with (db (ui w)).
      destruct (db (ui w)) as [h | ] eqn:Hdb; [ | reflexivity].
      rewrite scanBody_store_fault; [reflexivity | exact (Hfw h eq_refl)]. }
  split; [exact Hsb | ]. split.
  - apply (window_rejects p (now w) es wb Hlb). rewrite Hnb. exact Hwin.
  - rewrite run_cons. simpl (step (EvAdvance d) wb). simpl (fst (None, _)).
    simpl (snd (None, _)). set (wd := snd (advance d wb)).
    assert (Hfd : isProcessingRef (refs wd) = false).
    { unfold wd. apply (advance_unlocks d wb _ Htb). lia. }
    assert (Hld : lastAccepted wd = (p, now w))
      by (unfold wd; rewrite advance_lastAccepted; exact Hlb).
    assert (Hnd : now wd = now w + Z.of_N d)
      by (unfold wd; rewrite advance_now; lia).
    injection Hld as Hcode Htime.
    assert (Hdec : Ref.decide (refs wd) p (now wd) = (RejectDuplicate, refs wd)).
    { apply decide_duplicate; [exact Hfd | exact Hcode | ]. rewrite Htime, Hnd. lia. }
    rewrite run_cons. rewrite step_scan_rejected; rewrite Hdec.
    + reflexivity.
    + left. reflexivity.
Qed.

Lemma dedup_state_set_before_persistence_witness :
  let wg := snd (Ref.scanGuards "ABC123" brokenWorld) in
  let wh := snd (Ref.onBarcodeScanned "ABC123" "qr" brokenWorld) in
  let wb := snd (run [EvScan "ABC123" "qr"; EvSettle] brokenWorld) in
  (refs wg = mkRefs "ABC123" 1700000000000 true
   /\ dbCalls (out wg) = dbCalls (out brokenWorld) /\ store wg = store brokenWorld)
  /\ Ref.onBarcodeScanned "ABC123" "qr" brokenWorld
     = (Ok Accept, snd (Ref.scanTry (db (ui wg)) "ABC123" "qr" wg))
  /\ (refs wh = mkRefs "ABC123" 1700000000000 true /\ store wh = store brokenWorld)
  /\ store wb = store brokenWorld
  /\ Forall rejected (fst (run [EvScan "ABC123" "qr"; EvAdvance 2999;
                                EvScan "ABC123" "qr"] wb))
  /\ fst (run [EvAdvance 1000; EvScan "ABC123" "qr"] wb) = [RejectDuplicate].
Proof.
  apply (dedup_state_set_before_persistence brokenWorld "ABC123" "qr"
           [EvScan "ABC123" "qr"; EvAdvance 2999; EvScan "ABC123" "qr"] 1000).
  - reflexivity.
  - reflexivity.
  - right. right. reflexivity.
  - reflexivity.
  - split; vm_compute; [discriminate | reflexivity].
Defined.

(** ** Which scans create a record (C4) *)

Lemma consultarCodigos_store (d : Database) : keeps store (consultarCodigos d).
Proof. apply (keeps_dbCall_read store); reflexivity. Qed.

Lemma index_reload_store (d : Database) :
  keeps store (codes <- consultarCodigos d ;;
               modify_ui (setScannedCodes codes) ;; updateData d).
Proof.
  apply keeps_bind; [apply consultarCodigos_store | intro codes].
  apply keeps_bind; [intro w; reflexivity | intros _; apply updateData_store].
Qed.

Lemma notifications_app (o1 o2 : list effect) :
  notifications (o1 ++ o2) = (notifications o1 ++ notifications o2)%list.
Proof. apply flat_map_app. Qed.

Lemma alerts_app (o1 o2 : list effect) :
  alerts (o1 ++ o2) = (alerts o1 ++ alerts o2)%list.
Proof. apply flat_map_app. Qed.

Lemma consultarCodigos_run (h : Database) (w : World) :
  consultarCodigos h w
  = if storageFault (env w) ConsultarCodigos
    then (Throw (StorageError ConsultarCodigos), logged (DbCall ConsultarCodigos) w)
    else (Ok (records (store w)), logged (DbCall ConsultarCodigos) w).
Proof.
  unfold consultarCodigos, dbCall, logged.
  destruct (storageFault (env w) ConsultarCodigos); [reflexivity | ].
  destruct w; reflexivity.
Qed.

Lemma index_handled (p ty : string) (w : World) :
  isScanning (ui w) = true ->
  Index.onBarcodeScanned p ty w = indexWork (db (ui w)) p ty (indexPaused w).
Proof.
  intro H. unfold Index.onBarcodeScanned, indexWork, bind, getW. rewrite H.
  reflexivity.
Qed.

Lemma notices_app (o1 o2 : list effect) :
  notices (o1 ++ o2) = (notices o1 ++ notices o2)%list.
Proof. apply flat_map_app. Qed.

Lemma quiet_refl (w : World) : quiet w w.
Proof. split; reflexivity. Qed.

Lemma quiet_trans (w1 w2 w3 : World) : quiet w1 w2 -> quiet w2 w3 -> quiet w1 w3.
Proof. intros [H1 H2] [H3 H4]. split; congruence. Qed.

Lemma quiet_announced (m : string) (w1 w2 w3 : World) :
  quiet w1 w2 -> announced m w2 w3 -> announced m w1 w3.
Proof.
  intros [H1 H2] [[H3 H4] | [H3 H4]]; [left | right]; split; congruence.
Qed.

Lemma announced_quiet (m : string) (w1 w2 w3 : World) :
  announced m w1 w2 -> quiet w2 w3 -> announced m w1 w3.
Proof.
  intros [[H1 H2] | [H1 H2]] [H3 H4]; [left | right]; split; congruence.
Qed.

Lemma quiet_dbcall (op : DbOp) (w : World) : quiet w (logged (DbCall op) w).
Proof.
  unfold quiet, logged. simpl. rewrite notices_app, alerts_app. simpl.
  rewrite !app_nil_r. auto.
Qed.

(** The message of [showNotification] is the one thing it shows: a
    notification titled QR Scanner when the platform call is reached and
    goes through, the fallback alert otherwise. *)
Lemma showNotification_announces (m : string) (w : World) :
  fst (showNotification m w) = Ok tt
  /\ notices (out (snd (showNotification m w)))
     = (notices (out w) ++ (if sinkTakesIt w then [("QR Scanner", m)] else []))%list
  /\ alerts (out (snd (showNotification m w)))
     = (alerts (out w) ++ (if sinkTakesIt w then [] else [("QR Scanner", m)]))%list.
Proof.
  unfold sinkTakesIt, showNotification, deliver, try_catch, bind, getW, throw.
  destruct (platformWeb (env w)), (webNotificationUsable (env w)),
    (webPermissionGranted (env w)), (notifyFault (env w));
    simpl; rewrite ?notices_app, ?alerts_app; simpl;
    rewrite ?app_nil_r; repeat split; reflexivity.
Qed.

Lemma showNotification_announced (m : string) (w : World) :
  announced m w (snd (showNotification m w)).
Proof.
  destruct (showNotification_announces m w) as (_ & Hn & Ha). unfold announced.
  rewrite Hn, Ha. destruct (sinkTakesIt w); rewrite app_nil_r; auto.
Qed.

Lemma updateData_quiet (d : Database) (w : World) : quiet w (snd (updateData d w)).
Proof.
  unfold quiet, updateData, try_catch, bind, consultarCodigos, obtenerEstadisticas, dbCall.
  destruct (storageFault (env w) ConsultarCodigos); simpl.
  - rewrite !notices_app, !alerts_app. simpl. rewrite !app_nil_r. auto.
  - destruct (storageFault (env w) ObtenerEstadisticas); simpl;
      rewrite !notices_app, !alerts_app; simpl; rewrite !app_nil_r; auto.
Qed.

(** With the existence check and the insertion working, the scan body
    returns normally having shown one message: "already scanned" for a
    stored payload, "new code" otherwise. *)
Lemma scanBody_announces (h : Database) (p ty : string) (w : World) :
  storageFault (env w) ExisteCodigo = false ->
  storageFault (env w) InsertarCodigo = false ->
  fst (Ref.scanBody h p ty w) = Ok tt
  /\ announced (if known p w then "Código ya escaneado: " ++ p
                else "Nuevo código escaneado: " ++ p) w (snd (Ref.scanBody h p ty w)).
Proof.
  intros He Hi. unfold Ref.scanBody, bind, known. rewrite existeCodigo_run, He.
  set (w1 := logged (DbCall ExisteCodigo) w).
  assert (Hq : quiet w w1) by apply quiet_dbcall.
  destruct (existsb _ _).
  - split; [apply showNotification_announces | ].
    apply (quiet_announced _ w w1 _ Hq). apply showNotification_announced.
  - pose proof (showNotification_announced ("Nuevo código escaneado: " ++ p) w1) as Hsh.
    pose proof (showNotification_env ("Nuevo código escaneado: " ++ p) w1) as Hv.
    destruct (showNotification_announces ("Nuevo código escaneado: " ++ p) w1) as (Hr & _).
    destruct (showNotification _ w1) as [r w2]. simpl in Hsh, Hv, Hr. subst r.
    rewrite insertarCodigo_run, Hv. change (env w1) with (env w). rewrite Hi.
    set (w3 := upd_store _ _).
    assert (Hq3 : quiet w2 w3) by apply (quiet_dbcall InsertarCodigo w2).
    pose proof (updateData_quiet h w3) as Hq4.
    destruct (returns_updateData h w3) as [u Hu].
    destruct (updateData h w3) as [r w4]. simpl in Hq4, Hu. subst r. simpl.
    split; [destruct u; reflexivity | ].
    apply (announced_quiet _ w w2 w4); [ | exact (quiet_trans _ _ _ Hq3 Hq4)].
    apply (quiet_announced _ w w1 w2 Hq Hsh).
Qed.

Lemma index_reload_quiet (d : Database) (w : World) :
  quiet w (snd ((codes <- consultarCodigos d ;;
                 modify_ui (setScannedCodes codes) ;; updateData d) w)).
Proof.
  unfold bind. rewrite consultarCodigos_run.
  pose proof (quiet_dbcall ConsultarCodigos w) as Hq.
  destruct (storageFault (env w) ConsultarCodigos); [exact Hq | ].
  unfold modify_ui, modify. cbv beta iota.
  set (w2 := upd_ui _ _).
  apply (quiet_trans w w2); [exact Hq | apply updateData_quiet].
Qed.

(** C4, as the code has it.  On the ref-based screen an accepted scan, with
    the database connected and working, creates a record exactly when no
    stored record carries the payload, and the one message it shows tells
    which: for a known payload the store is left as it was and the message
    is "already scanned" ("Código ya escaneado"); otherwise the record is
    stored and the message is "new code" ("Nuevo código escaneado").  On
    the screen of [src/app/index.tsx], which has no existence check, every
    handled scan creates a record, known payload or not, and shows the same
    message ("Código escaneado"); and the store's own insertion always adds
    a record. *)
Theorem insert_depends_on_screen (w : World) (p ty : string) (h : Database) :
  db (ui w) = Some h ->
  storageFault (env w) ExisteCodigo = false ->
  storageFault (env w) InsertarCodigo = false ->
  (fst (Ref.decide (refs w) p (now w)) = Accept ->
   let w' := snd (Ref.onBarcodeScanned p ty w) in
   fst (Ref.onBarcodeScanned p ty w) = Ok Accept
   /\ store w' = (if known p w then store w else inserted p ty w)
   /\ announced (if known p w then "Código ya escaneado: " ++ p
                 else "Nuevo código escaneado: " ++ p) w w')
  /\ (isScanning (ui w) = true ->
      let w' := snd (Index.onBarcodeScanned p ty w) in
      store w' = inserted p ty w
      /\ announced ("Código escaneado: " ++ p) w w')
  /\ store (snd (insertarCodigo h p ty w)) = inserted p ty w.
Proof.
  intros Hdb He Hi. split; [ | split].
  - intros Ha w'. subst w'. split; [rewrite handler_result, Ha; reflexivity | ].
    unfold Ref.onBarcodeScanned, bind. rewrite (scanGuards_accepted _ _ Ha).
    unfold getW. set (w1 := logged _ _).
    change (db (ui w1)) with (db (ui w)). rewrite Hdb.
    pose proof (scanTry_store (Some h) p ty w1) as Hs.
    assert (Hann : announced (if known p w then "Código ya escaneado: " ++ p
                              else "Nuevo código escaneado: " ++ p) w
                     (snd (Ref.scanTry (Some h) p ty w1))).
    { destruct (scanBody_announces h p ty w1 He Hi) as [Hr Hb].
      change (known p w1) with (known p w) in Hb.
      unfold Ref.scanTry, try_finally, try_catch.
      destruct (Ref.scanBody h p ty w1) as [r w2]. simpl in Hr, Hb. subst r.
      simpl. apply (quiet_announced _ w w1 w2); [ | exact Hb].
      unfold quiet, w1, logged. simpl. rewrite notices_app, alerts_app. simpl.
      rewrite !app_nil_r. auto. }
    destruct (Ref.scanTry (Some h) p ty w1) as [[u | e] w2]; simpl in Hs, Hann |- *;
      rewrite Hs; rewrite (scanBody_store_ok h p ty w1 He Hi);
      (split; [reflexivity | exact Hann]).
  - intros Hscan w'. subst w'. rewrite (index_handled p ty w Hscan), Hdb.
    unfold indexWork, bind.
    pose proof (showNotification_store ("Código escaneado: " ++ p) (indexPaused w)) as Hs.
    pose proof (showNotification_env ("Código escaneado: " ++ p) (indexPaused w)) as Hv.
    pose proof (showNotification_now ("Código escaneado: " ++ p) (indexPaused w)) as Hn.
    pose proof (showNotification_announced ("Código escaneado: " ++ p) (indexPaused w))
      as Hsh.
    destruct (showNotification_announces ("Código escaneado: " ++ p) (indexPaused w))
      as (Hr & _).
    destruct (showNotification _ (indexPaused w)) as [r w2].
    simpl in Hs, Hv, Hn, Hsh, Hr. subst r.
    rewrite insertarCodigo_run, Hv. simpl env. rewrite Hi. cbv beta iota.
    set (w3 := upd_store _ _). split.
    + etransitivity; [exact (index_reload_store h w3) | ].
      unfold w3. simpl store. unfold inserted, newCode. rewrite Hs, Hn. reflexivity.
    + apply (announced_quiet _ w w2); [exact Hsh | ].
      apply (quiet_trans w2 w3); [apply (quiet_dbcall InsertarCodigo w2) | ].
      apply index_reload_quiet.
  - rewrite insertarCodigo_run, Hi. reflexivity.
Qed.

Lemma insert_depends_on_screen_witness :
  (fst (Ref.decide (refs knownWorld) "ABC123" (now knownWorld)) = Accept ->
   let w' := snd (Ref.onBarcodeScanned "ABC123" "qr" knownWorld) in
   fst (Ref.onBarcodeScanned "ABC123" "qr" knownWorld) = Ok Accept
   /\ store w' = (if known "ABC123" knownWorld then store knownWorld
                  else inserted "ABC123" "qr" knownWorld)
   /\ announced (if known "ABC123" knownWorld then "Código ya escaneado: " ++ "ABC123"
                 else "Nuevo código escaneado: " ++ "ABC123") knownWorld w')
  /\ (isScanning (ui knownWorld) = true ->
      let w' := snd (Index.onBarcodeScanned "ABC123" "qr" knownWorld) in
      store w' = inserted "ABC123" "qr" knownWorld
      /\ announced ("Código escaneado: " ++ "ABC123") knownWorld w')
  /\ store (snd (insertarCodigo LocalDb "ABC123" "qr" knownWorld))
     = inserted "ABC123" "qr" knownWorld.
Proof.
  apply (insert_depends_on_screen knownWorld "ABC123" "qr" LocalDb); reflexivity.
Defined.

(** C4, as stated, fails on the ref-based screen: the same payload accepted
    three times, each time past the cooldown, leaves one record, not three;
    the second and third acceptance make no insertion and show the
    "already scanned" message. *)
Lemma three_accepts_one_record :
  fst (run threeScans idleWorld) = [Accept; Accept; Accept]
  /\ records (store (snd (run threeScans idleWorld)))
     = [mkScannedCode "0" "ABC123" "qr" 1700000000000]
  /\ dbCalls (out (snd (run threeScans idleWorld)))
     = [ExisteCodigo; InsertarCodigo; ConsultarCodigos; ObtenerEstadisticas;
        ExisteCodigo; ExisteCodigo]
  /\ notices (out (snd (run threeScans idleWorld)))
     = [("QR Scanner", "Nuevo código escaneado: ABC123");
        ("QR Scanner", "Código ya escaneado: ABC123");
        ("QR Scanner", "Código ya escaneado: ABC123")].
Proof. vm_compute. repeat split; reflexivity. Qed.

(** ** Storage failures (C6) *)

Lemma returns_handler (p ty : string) : returns (Ref.onBarcodeScanned p ty).
Proof. intro w. eexists. apply handler_result. Qed.

Lemma returns_deleteCode (i : string) : returns (deleteCode i).
Proof.
  unfold deleteCode. apply returns_bind; [intro w; exists w; reflexivity | intro w0].
  destruct (db (ui w0)); [apply returns_caught | apply returns_ret].
Qed.

Lemma returns_clearScannedCodes_onPress : returns clearScannedCodes_onPress.
Proof.
  unfold clearScannedCodes_onPress.
  apply returns_bind; [intro w; exists w; reflexivity | intro w0].
  destruct (db (ui w0)); [apply returns_caught | apply returns_ret].
Qed.

(** C6, as the code has it.  The handlers of the screen never hand a
    failure on: [updateData], the scan handler, [deleteCode] and the
    clearing handler return normally whatever the database does.  A failed
    read or statistics query inside [updateData] is written to the console
    and nothing else happens (list and statistics stay as displayed); a
    failed existence check or insertion in the scan handler, a failed
    deletion and a failed clearing are written to the console and shown as
    an error alert.  The failed call is made once: nothing is retried. *)
Theorem storage_failures_are_caught
    (w : World) (h : Database) (p ty i : string) :
  (returns (updateData h) /\ returns (Ref.onBarcodeScanned p ty)
   /\ returns (deleteCode i) /\ returns clearScannedCodes_onPress)
  /\ (storageFault (env w) ConsultarCodigos = true ->
      updateData h w
      = (Ok tt, logged (ConsoleError "Error actualizando datos:"
                          (StorageError ConsultarCodigos))
                  (logged (DbCall ConsultarCodigos) w)))
  /\ (storageFault (env w) ConsultarCodigos = false ->
      storageFault (env w) ObtenerEstadisticas = true ->
      updateData h w
      = (Ok tt, logged (ConsoleError "Error actualizando datos:"
                          (StorageError ObtenerEstadisticas))
                  (logged (DbCall ObtenerEstadisticas)
                     (logged (DbCall ConsultarCodigos) w))))
  /\ (storageFault (env w) ExisteCodigo = true ->
      Ref.scanTry (Some h) p ty w
      = (Ok tt, armed (caught "Error procesando escaneo:" "Error"
                         "No se pudo procesar el código escaneado"
                         (StorageError ExisteCodigo)
                         (logged (DbCall ExisteCodigo) w))))
  /\ (storageFault (env w) ExisteCodigo = false -> known p w = false ->
      storageFault (env w) InsertarCodigo = true ->
      Ref.scanTry (Some h) p ty w
      = (Ok tt, armed (caught "Error procesando escaneo:" "Error"
                         "No se pudo procesar el código escaneado"
                         (StorageError InsertarCodigo)
                         (logged (DbCall InsertarCodigo)
                            (snd (showNotification ("Nuevo código escaneado: " ++ p)
                                    (logged (DbCall ExisteCodigo) w)))))))
  /\ (db (ui w) = Some h -> storageFault (env w) EliminarCodigo = true ->
      deleteCode i w
      = (Ok tt, caught "Error eliminando código:" "Error"
                  "No se pudo eliminar el código" (StorageError EliminarCodigo)
                  (logged (DbCall EliminarCodigo) w)))
  /\ (db (ui w) = Some h -> storageFault (env w) LimpiarCodigos = true ->
      clearScannedCodes_onPress w
      = (Ok tt, caught "Error limpiando códigos:" "Error"
                  "No se pudo limpiar el historial" (StorageError LimpiarCodigos)
                  (logged (DbCall LimpiarCodigos) w))).
Proof.
  split; [ | split; [ | split; [ | split; [ | split; [ | split]]]]].
  - auto using returns_updateData, returns_handler, returns_deleteCode,
      returns_clearScannedCodes_onPress.
  - intro Hc. unfold updateData, try_catch, bind, consultarCodigos, dbCall.
    rewrite Hc. reflexivity.
  - intros Hc Ho.
    unfold updateData, try_catch, bind, consultarCodigos, obtenerEstadisticas, dbCall.
    rewrite Hc. simpl. rewrite Ho. destruct w; reflexivity.
  - intro He. unfold Ref.scanTry, try_finally, try_catch, Ref.scanBody, bind.
    rewrite existeCodigo_run, He. reflexivity.
  - intros He Hk Hi. unfold Ref.scanTry, try_finally, try_catch, Ref.scanBody, bind.
    rewrite existeCodigo_run, He. unfold known in Hk. rewrite Hk.
    pose proof (showNotification_env ("Nuevo código escaneado: " ++ p)
                  (logged (DbCall ExisteCodigo) w)) as Hv.
    destruct (returns_showNotification ("Nuevo código escaneado: " ++ p)
                (logged (DbCall ExisteCodigo) w)) as [u Hu].
    destruct (showNotification _ _) as [r w2]. simpl in Hv, Hu. subst r.
    rewrite insertarCodigo_run, Hv, Hi. reflexivity.
  - intros Hdb Hf. unfold deleteCode, bind, getW. rewrite Hdb.
    unfold try_catch, bind, eliminarCodigo, dbCall. rewrite Hf. reflexivity.
  - intros Hdb Hf. unfold clearScannedCodes_onPress, bind, getW. rewrite Hdb.
    unfold try_catch, bind, limpiarCodigos, dbCall. rewrite Hf. reflexivity.
Qed.

Lemma storage_failures_are_caught_witness :
  updateData LocalDb deadDbWorld
  = (Ok tt, logged (ConsoleError "Error actualizando datos:"
                      (StorageError ConsultarCodigos))
              (logged (DbCall ConsultarCodigos) deadDbWorld))
  /\ deleteCode "0" deadDbWorld
     = (Ok tt, caught "Error eliminando código:" "Error"
                 "No se pudo eliminar el código" (StorageError EliminarCodigo)
                 (logged (DbCall EliminarCodigo) deadDbWorld)).
Proof.
  pose proof (storage_failures_are_caught deadDbWorld LocalDb "XYZ" "qr" "0") as H.
  split.
  - apply (proj1 (proj2 H)). reflexivity.
  - apply (proj1 (proj2 (proj2 (proj2 (proj2 (proj2 H)))))); reflexivity.
Defined.

(** C6, as stated, fails: with the listing call rejecting, [updateData]
    returns exactly what it returns when all goes well; the failure is
    written to the console only, no alert is raised, and the displayed list
    stays empty although a record is stored. *)
Lemma updateData_swallows_failure :
  fst (updateData LocalDb (staleWorld brokenRead)) = Ok tt
  /\ fst (updateData LocalDb (staleWorld noFault)) = Ok tt
  /\ out (snd (updateData LocalDb (staleWorld brokenRead)))
     = [DbCall ConsultarCodigos;
        ConsoleError "Error actualizando datos:" (StorageError ConsultarCodigos)]
  /\ scannedCodes (ui (snd (updateData LocalDb (staleWorld brokenRead)))) = []
  /\ scannedCodes (ui (snd (updateData LocalDb (staleWorld noFault))))
     = [mkScannedCode "0" "ABC123" "qr" 1600000000000].
Proof. vm_compute. repeat split; reflexivity. Qed.

(** ** Sending the records *)

Lemma fetches_sent (s : screen) (codes : list ScannedCode) :
  fetches (sent s codes) = map (request s) codes.
Proof.
  induction codes as [ | c cs IH]; [reflexivity | ].
  change (request s c :: fetches (sent s cs) = request s c :: map (request s) cs).
  rewrite IH. reflexivity.
Qed.

(** The loop stops at the first send that rejects: the [k] sends before it
    and that one are the only requests made. *)
Lemma send_all_fail (s : screen) (codes : list ScannedCode) :
  forall (k : nat) (rest : list NetOutcome) (w : World),
    network w = (repeat Resolves k ++ Rejects :: rest)%list ->
    (k < length codes)%nat ->
    for_each codes (fun code => fetch (request s code)) w
    = (Throw NetworkError,
       upd_network rest (upd_out (out w ++ sent s (firstn (S k) codes)) w)).
Proof.
  induction codes as [ | c cs IH]; intros k rest w Hnet Hk; [simpl in Hk; lia | ].
  simpl for_each. unfold bind. unfold fetch at 1. rewrite Hnet.
  destruct k as [ | k]; simpl repeat; simpl app; cbv beta iota.
  - destruct w; reflexivity.
  - rewrite (IH k rest); [ | reflexivity | simpl in Hk; lia].
    destruct w; simpl. rewrite <- app_assoc. reflexivity.
Qed.

(** With no rejection among the outcomes it consumes, the loop sends one
    request per record, in list order. *)
Lemma send_all_ok (s : screen) (codes : list ScannedCode) :
  forall (w : World),
    ~ In Rejects (firstn (length codes) (network w)) ->
    for_each codes (fun code => fetch (request s code)) w
    = (Ok tt,
       upd_network (skipn (length codes) (network w))
         (upd_out (out w ++ sent s codes) w)).
Proof.
  induction codes as [ | c cs IH]; intros w Hnet.
  - simpl. unfold ret. destruct w; simpl. rewrite app_nil_r. reflexivity.
  - simpl for_each. unfold bind. unfold fetch at 1.
    destruct (network w) as [ | [ | ] net] eqn:En.
    + rewrite IH by (simpl; rewrite En; rewrite firstn_nil; intros []).
      destruct w; simpl in *. subst. rewrite skipn_nil, <- app_assoc. reflexivity.
    + rewrite IH by (simpl; intro H; apply Hnet; right; exact H).
      destruct w; simpl in *. rewrite <- app_assoc. reflexivity.
    + exfalso. apply Hnet. left. reflexivity.
Qed.

(** Either a rejection lies among the first [n] outcomes, after [k < n]
    resolutions, or none does. *)
Lemma first_rejection (n : nat) :
  forall net : list NetOutcome,
    ~ In Rejects (firstn n net)
    \/ exists k rest, (k < n)%nat /\ net = (repeat Resolves k ++ Rejects :: rest)%list.
Proof.
  induction n as [ | n IH]; intro net; [left; intros [] | ].
  destruct net as [ | [ | ] net].
  - left. intros [].
  - destruct (IH net) as [H | (k & rest & Hk & Hn)].
    + left. simpl. intros [H1 | H1]; [discriminate H1 | exact (H H1)].
    + right. exists (S k), rest. split; [lia | ]. simpl. rewrite Hn. reflexivity.
  - right. exists 0%nat, net. split; [lia | reflexivity].
Qed.

Lemma sync_remote_fail (s : screen) (w : World) (k : nat) (rest : list NetOutcome) :
  isLocalMode (env w) = false ->
  network w = (repeat Resolves k ++ Rejects :: rest)%list ->
  (k < length (scannedCodes (ui w)))%nat ->
  syncWithServer s w
  = (Ok tt,
     upd_ui (setIsSyncing false (ui w))
       (upd_network rest
          (upd_out (out w ++ sent s (firstn (S k) (scannedCodes (ui w)))
                    ++ [ConsoleError "Error al sincronizar:" NetworkError;
                        syncErrorAlert]) w))).
Proof.
  intros Hmode Hnet Hk. unfold syncWithServer, bind, getW. rewrite Hmode.
  destruct (Nat.eqb_spec (length (scannedCodes (ui w))) 0) as [H0 | _]; [lia | ].
  unfold modify_ui at 1, modify. cbv beta iota.
  unfold try_finally, try_catch.
  rewrite (send_all_fail s _ k rest) by assumption.
  destruct w as [e t r u st ts inf net o]. destruct u. simpl.
  rewrite <- !app_assoc. reflexivity.
Qed.

Lemma sync_remote_ok (s : screen) (w : World) :
  isLocalMode (env w) = false ->
  scannedCodes (ui w) <> [] ->
  ~ In Rejects (firstn (length (scannedCodes (ui w))) (network w)) ->
  syncWithServer s w
  = (Ok tt,
     upd_ui (setIsSyncing false (ui w))
       (upd_network (skipn (length (scannedCodes (ui w))) (network w))
          (upd_out (out w ++ sent s (scannedCodes (ui w))
                    ++ [syncOkAlert (length (scannedCodes (ui w)))]) w))).
Proof.
  intros Hmode Hne Hnet. unfold syncWithServer, bind, getW. rewrite Hmode.
  destruct (Nat.eqb_spec (length (scannedCodes (ui w))) 0) as [H0 | _].
  { destruct (scannedCodes (ui w)); [contradiction | discriminate H0]. }
  unfold modify_ui at 1, modify. cbv beta iota.
  unfold try_finally, try_catch.
  rewrite (send_all_ok s) by assumption.
  destruct w as [e t r u st ts inf net o]. destruct u. simpl.
  rewrite <- !app_assoc. reflexivity.
Qed.

Lemma sync_nothing (s : screen) (w : World) :
  scannedCodes (ui w) = [] ->
  syncWithServer s w
  = (Ok tt, logged (AlertE "Sincronización" "No hay códigos para sincronizar") w).
Proof.
  intro H. unfold syncWithServer, bind, getW. rewrite H. reflexivity.
Qed.

(** ** A failed send (C5) *)

(** C5, as the code has it.  In remote mode, when the send of record
    [k + 1] rejects after [k] sends went through, the loop stops: exactly
    those [k + 1] requests were made, none for the records after.  What is
    reported is a console error and an alert with a fixed text; no count is
    part of it.  The handler itself returns normally and the syncing
    indicator is switched off. *)
Theorem sync_stops_at_first_failure
    (s : screen) (w : World) (k : nat) (rest : list NetOutcome) :
  isLocalMode (env w) = false ->
  network w = (repeat Resolves k ++ Rejects :: rest)%list ->
  (k < length (scannedCodes (ui w)))%nat ->
  let w' := snd (syncWithServer s w) in
  fst (syncWithServer s w) = Ok tt
  /\ out w' = (out w ++ sent s (firstn (S k) (scannedCodes (ui w)))
               ++ [ConsoleError "Error al sincronizar:" NetworkError;
                   syncErrorAlert])%list
  /\ fetches (out w')
     = (fetches (out w) ++ map (request s) (firstn (S k) (scannedCodes (ui w))))%list
  /\ alerts (out w')
     = (alerts (out w)
        ++ [("Error de Sincronización",
             "No se pudieron sincronizar los códigos. Verifica tu conexión.")])%list
  /\ network w' = rest
  /\ isSyncing (ui w') = false.
Proof.
  intros Hmode Hnet Hk w'. subst w'.
  rewrite (sync_remote_fail s w k rest Hmode Hnet Hk). simpl fst. simpl snd.
  simpl out. split; [reflexivity | ]. split; [reflexivity | ].
  split; [ | split; [ | split; reflexivity]].
  - unfold fetches at 1. rewrite !flat_map_app. fold (fetches (out w)).
    fold (fetches (sent s (firstn (S k) (scannedCodes (ui w))))).
    rewrite fetches_sent. simpl. rewrite app_nil_r. reflexivity.
  - unfold alerts at 1. rewrite !flat_map_app. fold (alerts (out w)).
    assert (Hs : forall l, flat_map (fun e => match e with
                                              | AlertE t m => [(t, m)]
                                              | _ => []
                                              end) (sent s l) = []).
    { induction l as [ | c l IH]; [reflexivity | exact IH]. }
    rewrite Hs. reflexivity.
Qed.

Lemma sync_stops_at_first_failure_witness :
  let w' := snd (syncWithServer RefScreen (remoteWorld [Resolves; Rejects])) in
  fst (syncWithServer RefScreen (remoteWorld [Resolves; Rejects])) = Ok tt
  /\ out w' = (out (remoteWorld [Resolves; Rejects])
               ++ sent RefScreen
                    (firstn 2 (scannedCodes (ui (remoteWorld [Resolves; Rejects]))))
               ++ [ConsoleError "Error al sincronizar:" NetworkError;
                   syncErrorAlert])%list
  /\ fetches (out w')
     = (fetches (out (remoteWorld [Resolves; Rejects]))
        ++ map (request RefScreen)
             (firstn 2 (scannedCodes (ui (remoteWorld [Resolves; Rejects])))))%list
  /\ alerts (out w')
     = (alerts (out (remoteWorld [Resolves; Rejects]))
        ++ [("Error de Sincronización",
             "No se pudieron sincronizar los códigos. Verifica tu conexión.")])%list
  /\ network w' = []
  /\ isSyncing (ui w') = false.
Proof.
  apply (sync_stops_at_first_failure RefScreen (remoteWorld [Resolves; Rejects]) 1 []).
  - reflexivity.
  - reflexivity.
  - simpl. lia.
Defined.

(** C5, as stated, fails: a sync whose second send rejects (one record
    sent before the failure) and a sync whose first send rejects (none
    sent) give the same report, so no partial count can be read off it. *)
Lemma sync_report_has_no_count :
  length (fetches (out (snd (syncWithServer RefScreen (remoteWorld [Resolves; Rejects])))))
  = 2%nat
  /\ length (fetches (out (snd (syncWithServer RefScreen (remoteWorld [Rejects])))))
     = 1%nat
  /\ report (syncWithServer RefScreen (remoteWorld [Resolves; Rejects]))
     = (Ok tt, [("Error de Sincronización",
                 "No se pudieron sincronizar los códigos. Verifica tu conexión.")])
  /\ ~ exists partialCount : Res unit * list (string * string) -> nat,
         partialCount (report (syncWithServer RefScreen (remoteWorld [Resolves; Rejects])))
         = 1%nat
         /\ partialCount (report (syncWithServer RefScreen (remoteWorld [Rejects])))
            = 0%nat.
Proof.
  split; [reflexivity | ]. split; [reflexivity | ]. split; [reflexivity | ].
  intros [f [H1 H0]].
  assert (E : report (syncWithServer RefScreen (remoteWorld [Resolves; Rejects]))
              = report (syncWithServer RefScreen (remoteWorld [Rejects])))
    by reflexivity.
  rewrite E in H1. rewrite H1 in H0. discriminate H0.
Qed.

(** ** The requests of a remote sync (C8) *)

Lemma rejection_in_reach (k n : nat) (rest : list NetOutcome) :
  (k < n)%nat -> In Rejects (firstn n (repeat Resolves k ++ Rejects :: rest)).
Proof.
  revert n. induction k as [ | k IH]; intros n Hk.
  - destruct n; [lia | left; reflexivity].
  - destruct n; [lia | ]. right. apply IH. lia.
Qed.

Lemma fetches_app (o1 o2 : list effect) :
  fetches (o1 ++ o2) = (fetches o1 ++ fetches o2)%list.
Proof. apply flat_map_app. Qed.

(** C8, as the code has it.  In remote mode the requests of a sync are
    those of the displayed records, one per record in list order: all of
    them when no send rejects, and when the send of record [k + 1] is the
    first to reject, exactly the first [k + 1], none after (one of the two
    is always the case).  Each is a POST to [API_URL] followed by /codigos
    with the headers Accept and Content-Type both set to
    application/json;encoding=utf-8.  On the ref-based screen and on the
    screen of [src/app/index.tsx] the JSON body has exactly the fields data,
    type and timestamp of the record; on the older screen it has data and
    type only. *)
Theorem sync_requests_shape (s : screen) (w : World) :
  isLocalMode (env w) = false ->
  let codes := scannedCodes (ui w) in
  let w' := snd (syncWithServer s w) in
  (~ In Rejects (firstn (length codes) (network w)) ->
   fetches (out w') = (fetches (out w) ++ map (request s) codes)%list)
  /\ (forall k rest,
         network w = (repeat Resolves k ++ Rejects :: rest)%list ->
         (k < length codes)%nat ->
         fetches (out w')
         = (fetches (out w) ++ map (request s) (firstn (S k) codes))%list)
  /\ (~ In Rejects (firstn (length codes) (network w))
      \/ exists k rest,
           (k < length codes)%nat
           /\ network w = (repeat Resolves k ++ Rejects :: rest)%list)
  /\ (forall code,
         request s code
         = mkRequest (API_URL s ++ "/codigos") "POST"
             [("Accept", "application/json;encoding=utf-8");
              ("Content-Type", "application/json;encoding=utf-8")]
             (match s with
              | LegacyScreen => [("data", JStr (data code)); ("type", JStr (type code))]
              | _ => [("data", JStr (data code)); ("type", JStr (type code));
                      ("timestamp", JNum (timestamp code))]
              end)).
Proof.
  intros Hmode codes w'. subst codes w'.
  split; [ | split; [ | split; [apply first_rejection | ]]].
  - intro Hok. destruct (scannedCodes (ui w)) as [ | c cs] eqn:Hcodes.
    + rewrite (sync_nothing s w Hcodes). simpl. rewrite fetches_app. reflexivity.
    + rewrite <- Hcodes in *.
      rewrite sync_remote_ok; [ | exact Hmode | rewrite Hcodes; discriminate | exact Hok].
      simpl. rewrite !fetches_app, fetches_sent. simpl.
      rewrite app_nil_r. reflexivity.
  - intros k rest Hnet Hk.
    rewrite (sync_remote_fail s w k rest Hmode Hnet Hk). simpl.
    rewrite !fetches_app, fetches_sent. simpl. rewrite app_nil_r. reflexivity.
  - intro code. destruct s; reflexivity.
Qed.

Lemma sync_requests_shape_witness :
  fetches (out (snd (syncWithServer AppIndex (remoteWorld [Resolves; Rejects; Resolves]))))
  = (fetches (out (remoteWorld [Resolves; Rejects; Resolves]))
     ++ map (request AppIndex) (firstn 2 [code1; code2; code3]))%list
  /\ fetches (out (snd (syncWithServer AppIndex (remoteWorld []))))
     = (fetches (out (remoteWorld [])) ++ map (request AppIndex) [code1; code2; code3])%list.
Proof.
  split.
  - apply (proj1 (proj2 (sync_requests_shape AppIndex
                           (remoteWorld [Resolves; Rejects; Resolves]) eq_refl))
             1%nat [Resolves]).
    + reflexivity.
    + simpl. lia.
  - apply (proj1 (sync_requests_shape AppIndex (remoteWorld []) eq_refl)).
    simpl. intros [].
Defined.

(** C8, as stated, fails on the older screen: the one request of a sync of
    one record carries data and type and no timestamp. *)
Lemma legacy_request_has_no_timestamp :
  fetches (out (snd (syncWithServer LegacyScreen
                       (initialWorld (nativeEnv false noFault) 1700000000000
                          (Some LocalDb) [code1] []))))
  = [mkRequest "http://localhost:3000/codigos" "POST"
       [("Accept", "application/json;encoding=utf-8");
        ("Content-Type", "application/json;encoding=utf-8")]
       [("data", JStr "ABC123"); ("type", JStr "qr")]]
  /\ map fst (body (request LegacyScreen code1)) = ["data"; "type"]
  /\ map fst (body (request LegacyScreen code1)) <> ["data"; "type"; "timestamp"].
Proof.
  split; [reflexivity | ]. split; [reflexivity | ]. discriminate.
Qed.

(** ** Local mode (C7) *)

Lemma fire_fetches (cb : callback) : keeps (fun w => fetches (out w)) (fire cb).
Proof.
  destruct cb; intro w; simpl; try reflexivity;
    rewrite fetches_app; simpl; apply app_nil_r.
Qed.

Lemma fire_alerts_grow (cb : callback) (a : string * string) (w : World) :
  In a (alerts (out w)) -> In a (alerts (out (snd (fire cb w)))).
Proof.
  intro H. destruct cb; simpl; try exact H;
    unfold alerts; rewrite flat_map_app; apply in_or_app; left; exact H.
Qed.

Lemma fire_all_alerts_grow (cbs : list callback) (a : string * string) :
  forall w, In a (alerts (out w)) ->
            In a (alerts (out (snd (for_each cbs fire w)))).
Proof.
  induction cbs as [ | cb cbs IH]; intros w H; [exact H | ].
  simpl. unfold bind.
  pose proof (fire_alerts_grow cb a w H) as H1.
  destruct (fire cb w) as [[u | e] w1]; simpl in H1; [apply IH | ]; exact H1.
Qed.

Lemma fire_all_local_alert (cbs : list callback) (m : string) :
  forall w, In (LocalModeAlert m) cbs ->
            In ("Modo Local", m) (alerts (out (snd (for_each cbs fire w)))).
Proof.
  induction cbs as [ | cb cbs IH]; intros w H; [destruct H | ].
  simpl. unfold bind. destruct H as [H | H].
  - subst cb. simpl. apply fire_all_alerts_grow. simpl.
    unfold alerts. rewrite flat_map_app. apply in_or_app. right. left. reflexivity.
  - destruct (fire cb w) as [[u | e] w1] eqn:E; [apply IH; exact H | ].
    destruct cb; discriminate E.
Qed.

(** C7. In local mode a sync of a non-empty list makes no request and no
    other call: it only switches the syncing indicator on and sets a timer
    of 500 ms.  When that timer fires the alert "Modo Local" is shown, its
    text stating the number of displayed records, and still no request has
    been made.  (Both for the ref-based screen and for the screen of
    [src/app/index.tsx].) *)
Theorem local_mode_sync_makes_no_request (s : screen) (w : World) :
  s <> LegacyScreen ->
  isLocalMode (env w) = true ->
  scannedCodes (ui w) <> [] ->
  let count := length (scannedCodes (ui w)) in
  let notice := "Estás trabajando en modo local. Tienes " ++ show_nat count
                ++ " códigos almacenados localmente." in
  let w1 := snd (syncWithServer s w) in
  let w2 := snd (advance 500 w1) in
  fst (syncWithServer s w) = Ok tt
  /\ out w1 = out w /\ network w1 = network w
  /\ timers w1 = (timers w ++ [(now w + 500, LocalModeAlert notice)])%list
  /\ fetches (out w2) = fetches (out w)
  /\ In ("Modo Local", notice) (alerts (out w2)).
Proof.
  intros Hs Hmode Hne count notice w1 w2.
  assert (Hrun : syncWithServer s w
                 = (Ok tt, upd_timers (timers w ++ [(now w + 500, LocalModeAlert notice)])
                             (upd_ui (setIsSyncing true (ui w)) w))).
  { unfold syncWithServer, bind, getW. rewrite Hmode.
    destruct (Nat.eqb_spec (length (scannedCodes (ui w))) 0) as [H0 | _].
    { destruct (scannedCodes (ui w)); [contradiction | discriminate H0]. }
    destruct s; [reflexivity | reflexivity | contradiction]. }
  subst w2 w1. rewrite Hrun. simpl fst. simpl snd.
  set (w1 := upd_timers _ _).
  split; [reflexivity | ]. split; [reflexivity | ]. split; [reflexivity | ].
  split; [reflexivity | ]. split.
  - unfold advance.
    rewrite (keeps_for_each (fun w => fetches (out w)) _ _ fire_fetches). reflexivity.
  - unfold advance. apply fire_all_local_alert.
    apply in_map_iff. exists (now w + 500, LocalModeAlert notice).
    split; [reflexivity | ]. apply filter_In. split.
    + unfold w1. simpl. apply in_or_app. right. left. reflexivity.
    + unfold due, w1. simpl. apply Z.leb_le. lia.
Qed.

Lemma local_mode_sync_makes_no_request_witness :
  let w1 := snd (syncWithServer RefScreen localWorld) in
  let w2 := snd (advance 500 w1) in
  fst (syncWithServer RefScreen localWorld) = Ok tt
  /\ out w1 = out localWorld /\ network w1 = network localWorld
  /\ timers w1
     = (timers localWorld
        ++ [(now localWorld + 500,
             LocalModeAlert
               ("Estás trabajando en modo local. Tienes " ++ show_nat 2
                ++ " códigos almacenados localmente."))])%list
  /\ fetches (out w2) = fetches (out localWorld)
  /\ In ("Modo Local",
         "Estás trabajando en modo local. Tienes " ++ show_nat 2
         ++ " códigos almacenados localmente.") (alerts (out w2)).
Proof.
  apply (local_mode_sync_makes_no_request RefScreen localWorld).
  - discriminate.
  - reflexivity.
  - discriminate.
Defined.

(** * Further properties of the screens *)

(** ** One accepted scan in flight, and its pace *)

Lemma deadlines_app (cb : callback -> bool) (a b : list (Z * callback)) :
  deadlines cb (a ++ b) = (deadlines cb a ++ deadlines cb b)%list.
Proof. unfold deadlines. rewrite filter_app, map_app. reflexivity. Qed.

Lemma deadlines_unlock_in (ts : list (Z * callback)) (t : Z) :
  In t (deadlines isUnlock ts) <-> In (t, Unlock) ts.
Proof.
  unfold deadlines. rewrite in_map_iff. split.
  - intros [[t' cb] [Ht Hin]]. apply filter_In in Hin. destruct Hin as [Hin Hcb].
    simpl in Ht, Hcb. subst t'. destruct cb; try discriminate Hcb. exact Hin.
  - intro Hin. exists (t, Unlock). split; [reflexivity | ].
    apply filter_In. split; [exact Hin | reflexivity].
Qed.

Lemma deadlines_not_due (cb : callback -> bool) (t' : Z) (ts : list (Z * callback)) :
  deadlines cb (filter (fun tc => negb (due t' tc)) ts)
  = filter (fun t => negb (t <=? t')) (deadlines cb ts).
Proof.
  unfold deadlines. induction ts as [ | [t c] ts IH]; [reflexivity | ].
  simpl. unfold due at 1. simpl fst.
  destruct (t <=? t') eqn:Ht; destruct (cb c) eqn:Hc; simpl;
    rewrite ?Hc, ?Ht; simpl; rewrite IH; reflexivity.
Qed.

Lemma resume_inflight (w : World) (x : Database * string * string)
    (rest : list (Database * string * string)) :
  inflight w = x :: rest -> inflight (snd (Ref.onBarcodeScanned_resume w)) = rest.
Proof.
  intro Hin. destruct x as [[h p] ty].
  unfold Ref.onBarcodeScanned_resume, bind, getW. rewrite Hin.
  unfold modify. cbv beta iota.
  rewrite (keeps_scanTry inflight) by reflexivity. reflexivity.
Qed.

Lemma steady_logged (e : effect) (w : World) : steady w -> steady (logged e w).
Proof. intro H. exact H. Qed.

Lemma steady_idle (w : World) :
  steady w -> isProcessingRef (refs w) = false ->
  inflight w = [] /\ deadlines isUnlock (timers w) = [].
Proof.
  intros (Hc & _) Hf. rewrite Hf in Hc. unfold in_flight in Hc.
  destruct (inflight w); [ | discriminate Hc].
  destruct (deadlines isUnlock (timers w)); [auto | discriminate Hc].
Qed.

Lemma steady_scan (p ty : string) (w : World) :
  steady w -> steady (snd (step (EvScan p ty) w)).
Proof.
  intro Hs. destruct (fst (Ref.decide (refs w) p (now w))) eqn:Ed.
  - destruct (decide_accept _ _ _ Ed) as (Hf & _ & _).
    destruct (steady_idle w Hs Hf) as [Hin Hd].
    destruct Hs as (_ & Hle & _ & _).
    simpl step. destruct (db (ui w)) as [h | ] eqn:Hdb.
    + rewrite (start_accepted_db p ty w h Ed Hdb). simpl snd.
      unfold steady, in_flight. simpl. rewrite Hin, Hd. simpl.
      repeat split; try lia; try (intros []); discriminate.
    + rewrite (start_accepted_nodb p ty w Ed Hdb). simpl snd.
      unfold steady, in_flight. simpl. rewrite Hin, deadlines_app, Hd. simpl.
      split; [reflexivity | ]. split; [lia | ]. split; [ | discriminate].
      intros t [Ht | []]. subst t. unfold Ref.PROCESSING_TIMEOUT. lia.
  - rewrite step_scan_rejected; rewrite Ed; [exact Hs | right; reflexivity].
  - rewrite step_scan_rejected; rewrite Ed; [exact Hs | left; reflexivity].
Qed.

Lemma steady_settle (w : World) : steady w -> steady (snd (step EvSettle w)).
Proof.
  intro Hs. simpl step. simpl snd.
  destruct (inflight w) as [ | [[h p] ty] rest] eqn:Hin.
  - rewrite resume_idle by exact Hin. exact Hs.
  - destruct Hs as (Hc & Hle & Hd & Hold).
    unfold in_flight in Hc. rewrite Hin in Hc.
    destruct (isProcessingRef (refs w)) eqn:Hf; [ | discriminate Hc].
    simpl in Hc.
    assert (Hrest : rest = []) by (destruct rest; [reflexivity | simpl in Hc; lia]).
    subst rest.
    assert (Hnone : deadlines isUnlock (timers w) = [])
      by (destruct (deadlines isUnlock (timers w)); [reflexivity | simpl in Hc; lia]).
    unfold steady, in_flight.
    rewrite (resume_inflight w _ _ Hin), (resume_timers w h p ty [] Hin).
    rewrite resume_refs, resume_now, Hf, deadlines_app, Hnone. simpl.
    split; [reflexivity | ]. split; [exact Hle | ]. split; [ | discriminate].
    intros t [Ht | []]. subst t. rewrite ?resume_refs, ?resume_now. lia.
Qed.

Lemma steady_advance (dt : N) (w : World) :
  steady w -> steady (snd (step (EvAdvance dt) w)).
Proof.
  intros (Hc & Hle & Hd & Hold). simpl step. simpl snd.
  pose proof (N2Z.is_nonneg dt) as Hdt.
  pose proof (advance_lastAccepted dt w) as Hlast.
  injection Hlast as _ Htime.
  unfold steady, in_flight.
  rewrite advance_inflight, advance_timers, advance_now, deadlines_not_due, Htime.
  unfold in_flight in Hc.
  destruct (deadlines isUnlock (timers w)) as [ | t [ | t2 D]] eqn:HD.
  - (* no release is waiting: the refs stay *)
    rewrite advance_keeps_refs.
    + simpl. split; [exact Hc | ]. split; [lia | ]. split; [intros t [] | ].
      intro Hf. specialize (Hold Hf). lia.
    + intros t Ht. apply deadlines_unlock_in in Ht. rewrite HD in Ht. destruct Ht.
  - (* one release is waiting *)
    destruct (isProcessingRef (refs w)) eqn:Hf;
      [ | destruct (inflight w); discriminate Hc].
    assert (Hin : inflight w = [])
      by (destruct (inflight w); [reflexivity | simpl in Hc; lia]).
    rewrite Hin. destruct (Hd t (or_introl eq_refl)) as [Hlo Hhi].
    simpl. destruct (Z.leb_spec t (now w + Z.of_N dt)) as [Hdue | Hwait]; simpl.
    + rewrite (advance_unlocks dt w t);
        [ | apply deadlines_unlock_in; rewrite HD; left; reflexivity | exact Hdue].
      split; [reflexivity | ]. split; [lia | ]. split; [intros t' [] | ].
      intros _. lia.
    + rewrite advance_keeps_refs.
      * rewrite Hf. split; [reflexivity | ]. split; [lia | ].
        split; [ | discriminate]. intros t' [Ht' | []]. subst t'. lia.
      * intros t' Ht'. apply deadlines_unlock_in in Ht'. rewrite HD in Ht'.
        destruct Ht' as [Ht' | []]. subst t'. exact Hwait.
  - exfalso. destruct (isProcessingRef (refs w)); simpl in Hc; lia.
Qed.

Lemma steady_step (e : event) (w : World) : steady w -> steady (snd (step e w)).
Proof.
  destruct e; [apply steady_scan | apply steady_settle | apply steady_advance].
Qed.

Lemma steady_initial (e : Env) (t : Z) (odb : option Database)
    (l : list ScannedCode) (net : list NetOutcome) :
  Ref.PROCESSING_TIMEOUT <= t -> steady (initialWorld e t odb l net).
Proof.
  intro Ht. unfold steady, in_flight, Ref.PROCESSING_TIMEOUT in *. simpl.
  repeat split; try lia; intros [].
Qed.

Lemma steady_run (es : list event) :
  forall w, steady w -> steady (snd (run es w)).
Proof.
  induction es as [ | e es IH]; intros w Hs; [exact Hs | ].
  rewrite run_snd_cons. apply IH. apply steady_step. exact Hs.
Qed.

Lemma run_snd_app (a b : list event) :
  forall w, snd (run (a ++ b) w) = snd (run b (snd (run a w))).
Proof.
  induction a as [ | e a IH]; intro w; [reflexivity | ].
  simpl app. rewrite !run_snd_cons. apply IH.
Qed.

Lemma advance_keeps_clear (dt : N) (w : World) :
  isProcessingRef (refs w) = false ->
  isProcessingRef (refs (snd (advance dt w))) = false.
Proof. intro H. unfold advance. apply fire_all_flag. left. exact H. Qed.

(** X1. On the ref-based screen at most one accepted scan is in flight:
    after any run of scans, settlings and timer firings from a steady state
    (the initial state is one), the suspended handlers and the waiting
    release timers number one when the processing flag is set and none when
    it is clear. *)
Theorem at_most_one_scan_in_flight (es : list event) (w : World) :
  steady w ->
  let w' := snd (run es w) in
  in_flight w' = (if isProcessingRef (refs w') then 1%nat else 0%nat)
  /\ (in_flight w' <= 1)%nat.
Proof.
  intros Hs w'. destruct (steady_run es w Hs) as (Hc & _). fold w' in Hc.
  split; [exact Hc | ]. rewrite Hc. destruct (isProcessingRef (refs w')); lia.
Qed.

Lemma at_most_one_scan_in_flight_witness :
  let w' := snd (run (EvScan "ABC123" "qr" :: burst) idleWorld) in
  in_flight w' = (if isProcessingRef (refs w') then 1%nat else 0%nat)
  /\ (in_flight w' <= 1)%nat.
Proof.
  apply (at_most_one_scan_in_flight (EvScan "ABC123" "qr" :: burst) idleWorld).
  apply steady_initial. vm_compute. discriminate.
Defined.

(** X2. Accepted scans are paced: in any run from a steady state, whenever
    a scan is accepted, whatever its payload, the acceptance before it lies
    at least [PROCESSING_TIMEOUT] (1000 ms) back. *)
Theorem accepted_scans_are_paced (es : list event) (w : World) (p ty : string) :
  steady w ->
  let w' := snd (run es w) in
  fst (step (EvScan p ty) w') = Some Accept ->
  lastScannedTime (refs w') + Ref.PROCESSING_TIMEOUT <= now w'.
Proof.
  intros Hs w' Hacc. destruct (steady_run es w Hs) as (_ & _ & _ & Hold).
  fold w' in Hold. apply Hold.
  rewrite step_scan_decision in Hacc. injection Hacc as Hacc.
  apply decide_accept in Hacc. apply Hacc.
Qed.

Lemma accepted_scans_are_paced_witness :
  let w' := snd (run [EvScan "ABC123" "qr"; EvSettle; EvAdvance 1000] idleWorld) in
  fst (step (EvScan "XYZ" "code128") w') = Some Accept
  /\ lastScannedTime (refs w') + Ref.PROCESSING_TIMEOUT <= now w'.
Proof.
  split; [reflexivity | ].
  apply (accepted_scans_are_paced [EvScan "ABC123" "qr"; EvSettle; EvAdvance 1000]
           idleWorld "XYZ" "code128").
  - apply steady_initial. vm_compute. discriminate.
  - reflexivity.
Defined.

(** X3. The flag cannot stay set: at any point of a run from a steady
    state, once the awaited work (if any) has settled, the processing flag
    is clear [PROCESSING_TIMEOUT] later at the latest. *)
Theorem flag_clears_after_settling (es : list event) (w : World) (d : N) :
  steady w ->
  Ref.PROCESSING_TIMEOUT <= Z.of_N d ->
  isProcessingRef (refs (snd (run (es ++ [EvSettle; EvAdvance d]) w))) = false.
Proof.
  intros Hs Hd. rewrite run_snd_app, !run_snd_cons. simpl (snd (run [] _)).
  set (w1 := snd (run es w)).
  assert (Hs1 : steady w1) by (apply steady_run; exact Hs).
  set (w2 := snd (step EvSettle w1)).
  assert (Hs2 : steady w2) by (apply steady_step; exact Hs1).
  assert (Hin : inflight w2 = []).
  { unfold w2. simpl step. simpl snd.
    destruct (inflight w1) as [ | x rest] eqn:E.
    - rewrite resume_idle by exact E. exact E.
    - rewrite (resume_inflight w1 x rest E).
      destruct Hs1 as (Hc & _). unfold in_flight in Hc. rewrite E in Hc.
      destruct rest; [reflexivity | ].
      destruct (isProcessingRef (refs w1)); simpl in Hc; lia. }
  simpl (step (EvAdvance d) w2). simpl snd.
  destruct (isProcessingRef (refs w2)) eqn:Hf.
  - destruct Hs2 as (Hc & _ & Hdl & _). unfold in_flight in Hc.
    rewrite Hin, Hf in Hc. simpl in Hc.
    destruct (deadlines isUnlock (timers w2)) as [ | t D] eqn:HD; [discriminate Hc | ].
    destruct (Hdl t (or_introl eq_refl)) as [_ Hhi].
    apply (advance_unlocks d w2 t).
    + apply deadlines_unlock_in. rewrite HD. left. reflexivity.
    + lia.
  - apply advance_keeps_clear. exact Hf.
Qed.

Lemma flag_clears_after_settling_witness :
  isProcessingRef
    (refs (snd (run ((EvScan "ABC123" "qr" :: burst) ++ [EvSettle; EvAdvance 1000])
                  idleWorld))) = false.
Proof.
  apply (flag_clears_after_settling (EvScan "ABC123" "qr" :: burst) idleWorld 1000).
  - apply steady_initial. vm_compute. discriminate.
  - vm_compute. discriminate.
Defined.

(** ** The notification helper *)

Lemma showNotification_effects (message : string) (w : World) :
  fst (showNotification message w) = Ok tt
  /\ notifications (out (snd (showNotification message w)))
     = (notifications (out w) ++ (if sinkTakesIt w then [message] else []))%list
  /\ alerts (out (snd (showNotification message w)))
     = (alerts (out w)
        ++ (if sinkTakesIt w then [] else [("QR Scanner", message)]))%list.
Proof.
  unfold sinkTakesIt, showNotification, deliver, try_catch, bind, getW, throw.
  destruct (platformWeb (env w)), (webNotificationUsable (env w)),
    (webPermissionGranted (env w)), (notifyFault (env w));
    simpl; rewrite ?notifications_app, ?alerts_app; simpl;
    rewrite ?app_nil_r; repeat split; reflexivity.
Qed.

(** X4. [showNotification] never throws and shows its message exactly
    once, on every platform and whatever the permission and the sink do:
    as a notification with the title QR Scanner and the message as its body
    when the sink takes it (natively, or on the web with a usable and
    granted Notification API, and the call not failing), otherwise as an
    alert with the title QR Scanner and the message as its text; never
    both, never neither, and nothing else is shown. *)
Theorem showNotification_shows_once (message : string) (w : World) :
  let w' := snd (showNotification message w) in
  fst (showNotification message w) = Ok tt
  /\ notices (out w')
     = (notices (out w)
        ++ (if sinkTakesIt w then [("QR Scanner", message)] else []))%list
  /\ alerts (out w')
     = (alerts (out w)
        ++ (if sinkTakesIt w then [] else [("QR Scanner", message)]))%list
  /\ (length (notices (out w')) + length (alerts (out w'))
      = length (notices (out w)) + length (alerts (out w)) + 1)%nat.
Proof.
  intro w'. destruct (showNotification_announces message w) as (Hr & Hn & Ha).
  fold w' in Hn, Ha. repeat split; try assumption.
  rewrite Hn, Ha, !length_app. destruct (sinkTakesIt w); simpl; lia.
Qed.

Lemma showNotification_shown (m : string) (w : World) :
  shown m w (snd (showNotification m w)).
Proof.
  destruct (showNotification_effects m w) as (_ & Hn & Ha). unfold shown.
  rewrite Hn, Ha. destruct (sinkTakesIt w); rewrite app_nil_r; auto.
Qed.

(** ** Reloading the list and the statistics *)

Lemma updateData_cases (d : Database) (w : World) :
  (storageFault (env w) ConsultarCodigos = false
   /\ storageFault (env w) ObtenerEstadisticas = false
   /\ updateData d w
      = (Ok tt,
         upd_ui (setStats (computeStats (records (store w)))
                   (setScannedCodes (records (store w)) (ui w)))
           (logged (DbCall ObtenerEstadisticas) (logged (DbCall ConsultarCodigos) w))))
  \/ ((storageFault (env w) ConsultarCodigos = true
       \/ storageFault (env w) ObtenerEstadisticas = true)
      /\ exists o, updateData d w = (Ok tt, upd_out o w) /\ alerts o = alerts (out w)).
Proof.
  unfold updateData, try_catch, bind, consultarCodigos, obtenerEstadisticas, dbCall.
  destruct (storageFault (env w) ConsultarCodigos) eqn:Hc.
  - right. split; [left; reflexivity | ]. eexists. split; [reflexivity | ].
    simpl. rewrite !alerts_app. simpl. rewrite !app_nil_r. reflexivity.
  - simpl.
    destruct (storageFault (env w) ObtenerEstadisticas) eqn:Ho.
    + right. split; [right; reflexivity | ]. eexists. split.
      * simpl. destruct w; reflexivity.
      * simpl. rewrite !alerts_app. simpl. rewrite !app_nil_r. reflexivity.
    + left. split; [reflexivity | ]. split; [reflexivity | ].
      simpl. destruct w; reflexivity.
Qed.

(** X5. [updateData] replaces the displayed list and the displayed
    statistics together or not at all.  When both queries resolve, the list
    becomes what the database lists and the statistics what it computes,
    the rest of the displayed state staying, and nothing is written but the
    two calls.  When the listing rejects, or resolves and the statistics
    query rejects, the whole displayed state is left as it was and the
    failure is written to the console.  In every case it returns normally,
    shows nothing to the user and leaves the refs, the timers and the
    stored records untouched. *)
Theorem updateData_all_or_nothing (d : Database) (w : World) :
  let w' := snd (updateData d w) in
  let listing := storageFault (env w) ConsultarCodigos in
  let counting := storageFault (env w) ObtenerEstadisticas in
  (fst (updateData d w) = Ok tt
   /\ refs w' = refs w /\ timers w' = timers w /\ store w' = store w
   /\ quiet w w')
  /\ (listing = false -> counting = false ->
      ui w' = setStats (computeStats (records (store w)))
                (setScannedCodes (records (store w)) (ui w))
      /\ out w' = (out w ++ [DbCall ConsultarCodigos; DbCall ObtenerEstadisticas])%list)
  /\ (listing = true ->
      ui w' = ui w
      /\ out w' = (out w ++ [DbCall ConsultarCodigos;
                             ConsoleError "Error actualizando datos:"
                               (StorageError ConsultarCodigos)])%list)
  /\ (listing = false -> counting = true ->
      ui w' = ui w
      /\ out w' = (out w ++ [DbCall ConsultarCodigos; DbCall ObtenerEstadisticas;
                             ConsoleError "Error actualizando datos:"
                               (StorageError ObtenerEstadisticas)])%list).
Proof.
  intros w' listing counting. subst w' listing counting. split.
  - split.
    { destruct (updateData_cases d w) as [(_ & _ & E) | (_ & o & E & _)];
        rewrite E; reflexivity. }
    split; [apply (keeps_updateData refs); reflexivity | ].
    split; [apply (keeps_updateData timers); reflexivity | ].
    split; [apply updateData_store | apply updateData_quiet].
  - unfold updateData, try_catch, bind, consultarCodigos, obtenerEstadisticas, dbCall.
    destruct (storageFault (env w) ConsultarCodigos); simpl.
    + split; [discriminate | ]. split; [ | discriminate].
      intros _. rewrite <- app_assoc. auto.
    + destruct (storageFault (env w) ObtenerEstadisticas); simpl.
      * split; [discriminate | ]. split; [discriminate | ].
        intros _ _. rewrite <- !app_assoc. auto.
      * split; [ | split; discriminate].
        intros _ _. rewrite <- app_assoc. auto.
Qed.

Lemma updateData_all_or_nothing_witness :
  (ui (snd (updateData LocalDb (staleWorld noFault)))
   = setStats (computeStats (records (store (staleWorld noFault))))
       (setScannedCodes (records (store (staleWorld noFault))) (ui (staleWorld noFault)))
   /\ out (snd (updateData LocalDb (staleWorld noFault)))
      = (out (staleWorld noFault)
         ++ [DbCall ConsultarCodigos; DbCall ObtenerEstadisticas])%list)
  /\ (ui (snd (updateData LocalDb (staleWorld brokenRead))) = ui (staleWorld brokenRead)
      /\ out (snd (updateData LocalDb (staleWorld brokenRead)))
         = (out (staleWorld brokenRead)
            ++ [DbCall ConsultarCodigos;
                ConsoleError "Error actualizando datos:"
                  (StorageError ConsultarCodigos)])%list).
Proof.
  split.
  - apply (proj1 (proj2 (updateData_all_or_nothing LocalDb (staleWorld noFault))));
      reflexivity.
  - apply (proj1 (proj2 (proj2 (updateData_all_or_nothing LocalDb
                                  (staleWorld brokenRead))))).
    reflexivity.
Defined.

(** ** The scan handler of [src/app/index.tsx] *)

Lemma deadlines_enable_in (ts : list (Z * callback)) (t : Z) :
  In t (deadlines isEnable ts) <-> In (t, EnableScanning) ts.
Proof.
  unfold deadlines. rewrite in_map_iff. split.
  - intros [[t' cb] [Ht Hin]]. apply filter_In in Hin. destruct Hin as [Hin Hcb].
    simpl in Ht, Hcb. subst t'. destruct cb; try discriminate Hcb. exact Hin.
  - intro Hin. exists (t, EnableScanning). split; [reflexivity | ].
    apply filter_In. split; [exact Hin | reflexivity].
Qed.

Lemma fire_all_enables (cbs : list callback) (w : World) :
  isScanning (ui w) = true \/ In EnableScanning cbs ->
  isScanning (ui (snd (for_each cbs fire w))) = true.
Proof.
  revert w. induction cbs as [ | cb cbs IH]; intros w H; simpl.
  - destruct H as [H | []]. exact H.
  - unfold bind. destruct (fire cb w) as [[u | e] w1] eqn:E.
    + apply IH. destruct H as [H | [H | H]]; auto; left.
      * destruct cb; inversion E; subst; simpl; auto.
      * subst cb. inversion E; reflexivity.
    + destruct cb; discriminate E.
Qed.

Lemma fire_all_keeps_scanning (cbs : list callback) (w : World) :
  ~ In EnableScanning cbs ->
  isScanning (ui (snd (for_each cbs fire w))) = isScanning (ui w).
Proof.
  revert w. induction cbs as [ | cb cbs IH]; intros w H; simpl; [reflexivity | ].
  unfold bind. destruct (fire cb w) as [[u | e] w1] eqn:E.
  - rewrite IH by (intro; apply H; right; assumption).
    destruct cb; inversion E; subst; try reflexivity.
    exfalso; apply H; left; reflexivity.
  - destruct cb; discriminate E.
Qed.

(** Scanning after time has passed: switched on by a timer that came due,
    otherwise as it was. *)
Lemma advance_scanning (dt : N) (w : World) :
  isScanning (ui (snd (advance dt w)))
  = (isScanning (ui w)
     || existsb (fun t => t <=? now w + Z.of_N dt) (deadlines isEnable (timers w))).
Proof.
  unfold advance.
  destruct (existsb _ (deadlines isEnable (timers w))) eqn:Ex.
  - rewrite orb_true_r. apply fire_all_enables. right.
    apply existsb_exists in Ex. destruct Ex as [t [Hin Ht]].
    apply deadlines_enable_in in Hin. apply in_map_iff.
    exists (t, EnableScanning). split; [reflexivity | ].
    apply filter_In. split; [exact Hin | exact Ht].
  - rewrite orb_false_r. rewrite fire_all_keeps_scanning; [reflexivity | ].
    intro Hin. apply in_map_iff in Hin. destruct Hin as [[t cb] [Hcb Hf]].
    simpl in Hcb. subst cb. apply filter_In in Hf. destruct Hf as [Hin Hdue].
    assert (Hex : existsb (fun t => t <=? now w + Z.of_N dt)
                    (deadlines isEnable (timers w)) = true).
    { apply existsb_exists. exists t. split; [ | exact Hdue].
      apply deadlines_enable_in. exact Hin. }
    rewrite Hex in Ex. discriminate Ex.
Qed.

Lemma index_ignored (p ty : string) (w : World) :
  isScanning (ui w) = false -> Index.onBarcodeScanned p ty w = (Ok tt, w).
Proof.
  intro H. unfold Index.onBarcodeScanned, bind, getW. rewrite H. reflexivity.
Qed.

Lemma updateData_scanning (d : Database) :
  keeps (fun w => isScanning (ui w)) (updateData d).
Proof.
  intro w. destruct (updateData_cases d w) as [(_ & _ & E) | (_ & o & E & _)];
    rewrite E; reflexivity.
Qed.

Lemma indexWork_timers (odb : option Database) (p ty : string) :
  keeps timers (indexWork odb p ty).
Proof.
  unfold indexWork.
  apply keeps_bind; [apply keeps_showNotification; reflexivity | intros _].
  destruct odb as [d | ]; [ | apply keeps_ret].
  apply keeps_bind; [apply keeps_dbCall; reflexivity | intros _].
  apply keeps_bind; [apply keeps_dbCall; reflexivity | intro codes].
  apply keeps_bind; [intro w; reflexivity | intros _].
  apply keeps_updateData; reflexivity.
Qed.

Lemma indexWork_now (odb : option Database) (p ty : string) :
  keeps now (indexWork odb p ty).
Proof.
  unfold indexWork.
  apply keeps_bind; [apply keeps_showNotification; reflexivity | intros _].
  destruct odb as [d | ]; [ | apply keeps_ret].
  apply keeps_bind; [apply keeps_dbCall; reflexivity | intros _].
  apply keeps_bind; [apply keeps_dbCall; reflexivity | intro codes].
  apply keeps_bind; [intro w; reflexivity | intros _].
  apply keeps_updateData; reflexivity.
Qed.

Lemma indexWork_scanning (odb : option Database) (p ty : string) :
  keeps (fun w => isScanning (ui w)) (indexWork odb p ty).
Proof.
  unfold indexWork.
  apply keeps_bind; [apply keeps_showNotification; reflexivity | intros _].
  destruct odb as [d | ]; [ | apply keeps_ret].
  apply keeps_bind; [apply keeps_dbCall; reflexivity | intros _].
  apply keeps_bind; [apply keeps_dbCall; reflexivity | intro codes].
  apply keeps_bind; [intro w; reflexivity | intros _].
  apply updateData_scanning.
Qed.

(** X6. On the screen of [src/app/index.tsx] a handled scan, taken with
    its awaited calls settling at once, switches scanning off and sets the
    timer that switches it on again before any of its work, so whatever the
    notification sink and the database do (even when the handler throws):
    scanning is off after the handler, exactly one timer has been added,
    due 1000 ms ahead, and scanning is off until those 1000 ms have passed
    and on from then. *)
Theorem index_scan_pauses_one_second (p ty : string) (w : World) (d : N) :
  isScanning (ui w) = true ->
  deadlines isEnable (timers w) = [] ->
  let w' := snd (Index.onBarcodeScanned p ty w) in
  isScanning (ui w') = false
  /\ timers w' = (timers w ++ [(now w + 1000, EnableScanning)])%list
  /\ isScanning (ui (snd (advance d w'))) = (1000 <=? Z.of_N d).
Proof.
  intros Hs Hno w'. subst w'. rewrite (index_handled p ty w Hs).
  set (w' := snd (indexWork (db (ui w)) p ty (indexPaused w))).
  assert (Hoff : isScanning (ui w') = false)
    by (unfold w'; rewrite indexWork_scanning; reflexivity).
  assert (Ht : timers w' = (timers w ++ [(now w + 1000, EnableScanning)])%list)
    by (unfold w'; rewrite indexWork_timers; reflexivity).
  assert (Hn : now w' = now w) by (unfold w'; rewrite indexWork_now; reflexivity).
  split; [exact Hoff | ]. split; [exact Ht | ].
  rewrite advance_scanning, Hoff, Ht, deadlines_app, Hno, Hn. simpl.
  rewrite orb_false_r.
  destruct (Z.leb_spec (now w + 1000) (now w + Z.of_N d));
    destruct (Z.leb_spec 1000 (Z.of_N d)); try reflexivity; lia.
Qed.

Lemma index_scan_pauses_one_second_witness :
  let w' := snd (Index.onBarcodeScanned "ABC123" "qr" brokenWorld) in
  isScanning (ui w') = false
  /\ timers w' = (timers brokenWorld ++ [(now brokenWorld + 1000, EnableScanning)])%list
  /\ isScanning (ui (snd (advance 999 w'))) = (1000 <=? Z.of_N 999).
Proof.
  apply (index_scan_pauses_one_second "ABC123" "qr" brokenWorld 999); reflexivity.
Defined.

Lemma shown_logged (m : string) (op : DbOp) (w w' : World) :
  shown m w w' -> shown m w (logged (DbCall op) w').
Proof.
  unfold shown, logged. simpl. rewrite notifications_app, alerts_app. simpl.
  rewrite !app_nil_r. auto.
Qed.

(** X7. On the screen of [src/app/index.tsx] the message of a handled scan
    is shown before the database is looked at: without a database
    connection the handler returns normally having stored nothing; with a
    database whose insertion rejects, the failure leaves the handler
    uncaught (no [try] surrounds it) and nothing is stored; in both cases
    the user has been told that the code was scanned. *)
Theorem index_scan_without_storage (p ty : string) (w : World) :
  isScanning (ui w) = true ->
  db (ui w) = None \/ storageFault (env w) InsertarCodigo = true ->
  let w' := snd (Index.onBarcodeScanned p ty w) in
  store w' = store w
  /\ shown ("Código escaneado: " ++ p) w w'
  /\ fst (Index.onBarcodeScanned p ty w)
     = match db (ui w) with
       | None => Ok tt
       | Some _ => Throw (StorageError InsertarCodigo)
       end.
Proof.
  intros Hs Hcase w'. subst w'. rewrite (index_handled p ty w Hs).
  unfold indexWork, bind.
  pose proof (showNotification_store ("Código escaneado: " ++ p) (indexPaused w)) as Hst.
  pose proof (showNotification_env ("Código escaneado: " ++ p) (indexPaused w)) as Hv.
  pose proof (showNotification_shown ("Código escaneado: " ++ p) (indexPaused w)) as Hsh.
  destruct (showNotification_effects ("Código escaneado: " ++ p) (indexPaused w))
    as (Hr & _).
  destruct (showNotification _ (indexPaused w)) as [r w2].
  simpl in Hst, Hv, Hsh, Hr. subst r.
  destruct (db (ui w)) as [h | ] eqn:Hdb.
  - destruct Hcase as [Hcase | Hi]; [discriminate Hcase | ].
    rewrite insertarCodigo_run, Hv. simpl env. rewrite Hi. simpl.
    split; [exact Hst | ]. split; [ | reflexivity].
    apply (shown_logged _ InsertarCodigo w w2). exact Hsh.
  - simpl. split; [exact Hst | ]. split; [exact Hsh | reflexivity].
Qed.

Lemma index_scan_without_storage_witness :
  let w' := snd (Index.onBarcodeScanned "ABC123" "qr" brokenWorld) in
  store w' = store brokenWorld
  /\ shown ("Código escaneado: " ++ "ABC123") brokenWorld w'
  /\ fst (Index.onBarcodeScanned "ABC123" "qr" brokenWorld)
     = Throw (StorageError InsertarCodigo).
Proof.
  apply (index_scan_without_storage "ABC123" "qr" brokenWorld).
  - reflexivity.
  - right. reflexivity.
Defined.

(** ** The scan handler of the older screen *)

Lemma legacy_ignored (p ty : string) (w : World) :
  isScanning (ui w) = false -> Legacy.onBarcodeScanned p ty w = (Ok tt, w).
Proof.
  intro H. unfold Legacy.onBarcodeScanned, bind, getW. rewrite H. reflexivity.
Qed.

Lemma legacy_handled (p ty : string) (w : World) :
  isScanning (ui w) = true ->
  Legacy.onBarcodeScanned p ty w = legacyWork (db (ui w)) p ty (scanningOff w).
Proof.
  intro H. unfold Legacy.onBarcodeScanned, legacyWork, bind, getW. rewrite H.
  reflexivity.
Qed.

Lemma showNotification_timers (m : string) : keeps timers (showNotification m).
Proof. apply keeps_showNotification; reflexivity. Qed.

Lemma showNotification_scanning (m : string) :
  keeps (fun w => isScanning (ui w)) (showNotification m).
Proof. apply keeps_showNotification; reflexivity. Qed.

(** X8. On the older screen the timer that switches scanning on again is
    set after the awaited work and nothing catches a failure: when the
    insertion or the listing that follows it rejects, the handler throws,
    no timer has been set and scanning stays off, however much time passes;
    every later scan is ignored. *)
Theorem legacy_failed_insert_stops_scanning
    (p ty : string) (w : World) (h : Database) :
  isScanning (ui w) = true ->
  db (ui w) = Some h ->
  storageFault (env w) InsertarCodigo = true
  \/ storageFault (env w) ConsultarCodigos = true ->
  deadlines isEnable (timers w) = [] ->
  let w' := snd (Legacy.onBarcodeScanned p ty w) in
  (exists op, fst (Legacy.onBarcodeScanned p ty w) = Throw (StorageError op))
  /\ timers w' = timers w
  /\ (forall d, isScanning (ui (snd (advance d w'))) = false)
  /\ (forall d q ty', Legacy.onBarcodeScanned q ty' (snd (advance d w'))
                      = (Ok tt, snd (advance d w'))).
Proof.
  intros Hs Hdb Hfault Hno w'.
  assert (Hrun : (exists op, fst (Legacy.onBarcodeScanned p ty w) = Throw (StorageError op))
                 /\ timers w' = timers w /\ isScanning (ui w') = false).
  { subst w'. rewrite (legacy_handled p ty w Hs), Hdb. unfold legacyWork, bind.
    pose proof (showNotification_timers ("Código escaneado: " ++ p) (scanningOff w)) as Ht.
    pose proof (showNotification_env ("Código escaneado: " ++ p) (scanningOff w)) as Hv.
    pose proof (showNotification_scanning ("Código escaneado: " ++ p) (scanningOff w))
      as Hsc.
    destruct (showNotification_effects ("Código escaneado: " ++ p) (scanningOff w))
      as (Hr & _).
    destruct (showNotification _ (scanningOff w)) as [r w2].
    simpl in Ht, Hv, Hsc, Hr. subst r.
    rewrite insertarCodigo_run, Hv.
    destruct (storageFault (env w) InsertarCodigo) eqn:Hi.
    - simpl. split; [eexists; reflexivity | auto].
    - destruct Hfault as [Hf | Hc]; [discriminate Hf | ].
      rewrite consultarCodigos_run. simpl env. rewrite Hv, Hc. simpl.
      split; [eexists; reflexivity | auto]. }
  destruct Hrun as (Hthrow & Ht & Hoff).
  assert (Hadv : forall d, isScanning (ui (snd (advance d w'))) = false).
  { intro d. rewrite advance_scanning, Hoff, Ht, Hno. reflexivity. }
  split; [exact Hthrow | ]. split; [exact Ht | ]. split; [exact Hadv | ].
  intros d q ty'. apply legacy_ignored. apply Hadv.
Qed.

Lemma legacy_failed_insert_stops_scanning_witness :
  let w' := snd (Legacy.onBarcodeScanned "ABC123" "qr" brokenWorld) in
  (exists op, fst (Legacy.onBarcodeScanned "ABC123" "qr" brokenWorld)
              = Throw (StorageError op))
  /\ timers w' = timers brokenWorld
  /\ (forall d, isScanning (ui (snd (advance d w'))) = false)
  /\ (forall d q ty', Legacy.onBarcodeScanned q ty' (snd (advance d w'))
                      = (Ok tt, snd (advance d w'))).
Proof.
  apply (legacy_failed_insert_stops_scanning "ABC123" "qr" brokenWorld LocalDb).
  - reflexivity.
  - reflexivity.
  - left. reflexivity.
  - reflexivity.
Defined.

(** X9. On the older screen a scan whose work goes through (or that finds
    no database) returns normally with scanning off and one timer set for
    2000 ms later, when scanning is on again; until then scanning is off. *)
Theorem legacy_scan_pauses_two_seconds (p ty : string) (w : World) (d : N) :
  isScanning (ui w) = true ->
  deadlines isEnable (timers w) = [] ->
  db (ui w) = None
  \/ (storageFault (env w) InsertarCodigo = false
      /\ storageFault (env w) ConsultarCodigos = false) ->
  let w' := snd (Legacy.onBarcodeScanned p ty w) in
  fst (Legacy.onBarcodeScanned p ty w) = Ok tt
  /\ timers w' = (timers w ++ [(now w + 2000, EnableScanning)])%list
  /\ isScanning (ui w') = false
  /\ isScanning (ui (snd (advance d w'))) = (2000 <=? Z.of_N d).
Proof.
  intros Hs Hno Hcase w'.
  assert (Hrun : fst (Legacy.onBarcodeScanned p ty w) = Ok tt
                 /\ timers w' = (timers w ++ [(now w + 2000, EnableScanning)])%list
                 /\ isScanning (ui w') = false /\ now w' = now w).
  { subst w'. rewrite (legacy_handled p ty w Hs). unfold legacyWork, bind.
    pose proof (showNotification_timers ("Código escaneado: " ++ p) (scanningOff w)) as Ht.
    pose proof (showNotification_env ("Código escaneado: " ++ p) (scanningOff w)) as Hv.
    pose proof (showNotification_now ("Código escaneado: " ++ p) (scanningOff w)) as Hn.
    pose proof (showNotification_scanning ("Código escaneado: " ++ p) (scanningOff w))
      as Hsc.
    destruct (showNotification_effects ("Código escaneado: " ++ p) (scanningOff w))
      as (Hr & _).
    destruct (showNotification _ (scanningOff w)) as [r w2].
    simpl in Ht, Hv, Hn, Hsc, Hr. subst r.
    destruct (db (ui w)) as [h | ] eqn:Hdb.
    - destruct Hcase as [Hcase | [Hi Hc]]; [discriminate Hcase | ].
      rewrite insertarCodigo_run, Hv, Hi. rewrite consultarCodigos_run. simpl env.
      rewrite Hv, Hc. simpl. rewrite Ht, Hn. auto.
    - simpl. rewrite Ht, Hn. auto. }
  destruct Hrun as (Hok & Ht & Hoff & Hn).
  split; [exact Hok | ]. split; [exact Ht | ]. split; [exact Hoff | ].
  rewrite advance_scanning, Hoff, Ht, deadlines_app, Hno, Hn. simpl.
  rewrite orb_false_r.
  destruct (Z.leb_spec (now w + 2000) (now w + Z.of_N d));
    destruct (Z.leb_spec 2000 (Z.of_N d)); try reflexivity; lia.
Qed.

Lemma legacy_scan_pauses_two_seconds_witness :
  let w' := snd (Legacy.onBarcodeScanned "ABC123" "qr" idleWorld) in
  fst (Legacy.onBarcodeScanned "ABC123" "qr" idleWorld) = Ok tt
  /\ timers w' = (timers idleWorld ++ [(now idleWorld + 2000, EnableScanning)])%list
  /\ isScanning (ui w') = false
  /\ isScanning (ui (snd (advance 1999 w'))) = (2000 <=? Z.of_N 1999).
Proof.
  apply (legacy_scan_pauses_two_seconds "ABC123" "qr" idleWorld 1999).
  - reflexivity.
  - reflexivity.
  - right. split; reflexivity.
Defined.

(** ** Clearing and deleting *)

Lemma limpiarCodigos_run (h : Database) (w : World) :
  limpiarCodigos h w
  = if storageFault (env w) LimpiarCodigos
    then (Throw (StorageError LimpiarCodigos), logged (DbCall LimpiarCodigos) w)
    else (Ok tt, upd_store (mkStore [] (nextId (store w)))
                   (logged (DbCall LimpiarCodigos) w)).
Proof.
  unfold limpiarCodigos, dbCall, logged.
  destruct (storageFault (env w) LimpiarCodigos); reflexivity.
Qed.

Lemma eliminarCodigo_run (h : Database) (i : string) (w : World) :
  eliminarCodigo h i w
  = if storageFault (env w) EliminarCodigo
    then (Throw (StorageError EliminarCodigo), logged (DbCall EliminarCodigo) w)
    else (Ok tt, upd_store (mkStore (remove_id i (records (store w)))
                                    (nextId (store w)))
                   (logged (DbCall EliminarCodigo) w)).
Proof.
  unfold eliminarCodigo, dbCall, logged.
  destruct (storageFault (env w) EliminarCodigo); reflexivity.
Qed.

(** What the reload leaves of the displayed state and of the alerts. *)
Lemma updateData_after (d : Database) (w : World) :
  fst (updateData d w) = Ok tt
  /\ store (snd (updateData d w)) = store w
  /\ alerts (out (snd (updateData d w))) = alerts (out w)
  /\ (storageFault (env w) ConsultarCodigos = true
      \/ storageFault (env w) ObtenerEstadisticas = true ->
      ui (snd (updateData d w)) = ui w)
  /\ (storageFault (env w) ConsultarCodigos = false ->
      storageFault (env w) ObtenerEstadisticas = false ->
      scannedCodes (ui (snd (updateData d w))) = records (store w)
      /\ stats (ui (snd (updateData d w))) = computeStats (records (store w))).
Proof.
  destruct (updateData_cases d w) as [(Hc & Ho & E) | (Hf & o & E & Ha)]; rewrite E.
  - simpl. rewrite !alerts_app. simpl. rewrite !app_nil_r.
    split; [reflexivity | ]. split; [reflexivity | ]. split; [reflexivity | ].
    split; [intros [H | H]; congruence | auto].
  - simpl. split; [reflexivity | ]. split; [reflexivity | ]. split; [exact Ha | ].
    split; [reflexivity | ]. intros Hc Ho. destruct Hf; congruence.
Qed.

Lemma clearScannedCodes_run (answer : DialogAnswer) (w : World) :
  clearScannedCodes answer w
  = match answer with
    | Eliminar => clearScannedCodes_onPress (logged clearDialog w)
    | Cancelar => (Ok tt, logged clearDialog w)
    end.
Proof. destruct answer; reflexivity. Qed.

Lemma clear_onPress_after (w : World) (h : Database) :
  db (ui w) = Some h ->
  storageFault (env w) LimpiarCodigos = false ->
  let w' := snd (clearScannedCodes_onPress w) in
  fst (clearScannedCodes_onPress w) = Ok tt
  /\ alerts (out w') = (alerts (out w) ++ [("Éxito", "Historial limpiado")])%list
  /\ (storageFault (env w) ConsultarCodigos = true
      \/ storageFault (env w) ObtenerEstadisticas = true ->
      ui w' = ui w)
  /\ (storageFault (env w) ConsultarCodigos = false ->
      storageFault (env w) ObtenerEstadisticas = false ->
      scannedCodes (ui w') = records (store w')
      /\ stats (ui w') = computeStats (records (store w'))).
Proof.
  intros Hdb Hl w'. subst w'. unfold clearScannedCodes_onPress, bind, getW. rewrite Hdb.
  unfold try_catch, bind. rewrite limpiarCodigos_run, Hl.
  set (w1 := upd_store _ _).
  destruct (updateData_after h w1) as (Hr & Hst & Ha & Hfail & Hok).
  destruct (updateData h w1) as [r w2]. simpl in Hr, Hst, Ha, Hfail, Hok. subst r.
  unfold emit, modify. simpl. rewrite alerts_app, Ha, ?alerts_app. simpl.
  rewrite ?app_nil_r.
  split; [reflexivity | ]. split; [reflexivity | ]. split.
  - intro Hf. rewrite (Hfail Hf). reflexivity.
  - intros Hc Ho. rewrite Hst. apply Hok; assumption.
Qed.

(** X10. [clearScannedCodes] always opens the confirmation dialog
    "Limpiar Historial" first.  If the user cancels, that dialog is all
    that happens: no database call, nothing cleared, nothing else shown.
    If the user confirms and the database clears its records, the alert
    "Historial limpiado" follows the dialog whether or not the reload
    worked: if a reload query rejects, the dialog and the success alert are
    still the only alerts and the displayed list and statistics stay as
    they were before the clearing; if both resolve, the displayed list is
    what the database now holds. *)
Theorem clear_reports_success_whatever_the_reload (w : World) (h : Database) :
  db (ui w) = Some h ->
  storageFault (env w) LimpiarCodigos = false ->
  let w' := snd (clearScannedCodes Eliminar w) in
  clearScannedCodes Cancelar w = (Ok tt, logged clearDialog w)
  /\ fst (clearScannedCodes Eliminar w) = Ok tt
  /\ alerts (out w')
     = (alerts (out w)
        ++ [("Limpiar Historial",
             "¿Estás seguro de que quieres eliminar todos los códigos escaneados?");
            ("Éxito", "Historial limpiado")])%list
  /\ (storageFault (env w) ConsultarCodigos = true
      \/ storageFault (env w) ObtenerEstadisticas = true ->
      ui w' = ui w)
  /\ (storageFault (env w) ConsultarCodigos = false ->
      storageFault (env w) ObtenerEstadisticas = false ->
      scannedCodes (ui w') = records (store w')
      /\ stats (ui w') = computeStats (records (store w'))).
Proof.
  intros Hdb Hl w'. subst w'. rewrite !clearScannedCodes_run.
  split; [reflexivity | ].
  destruct (clear_onPress_after (logged clearDialog w) h Hdb Hl)
    as (Hr & Ha & Hfail & Hok).
  split; [exact Hr | ]. split; [ | split; [exact Hfail | exact Hok]].
  rewrite Ha. unfold logged. simpl. rewrite alerts_app, <- app_assoc. reflexivity.
Qed.

(** A confirmed clearing whose reload fails, and a cancelled one. *)
Lemma clear_reports_success_whatever_the_reload_witness :
  let w := staleWorld brokenRead in
  let w' := snd (clearScannedCodes Eliminar w) in
  clearScannedCodes Cancelar w = (Ok tt, logged clearDialog w)
  /\ fst (clearScannedCodes Eliminar w) = Ok tt
  /\ alerts (out w')
     = (alerts (out w)
        ++ [("Limpiar Historial",
             "¿Estás seguro de que quieres eliminar todos los códigos escaneados?");
            ("Éxito", "Historial limpiado")])%list
  /\ ui w' = ui w.
Proof.
  destruct (clear_reports_success_whatever_the_reload (staleWorld brokenRead) LocalDb
              eq_refl eq_refl) as (H0 & H1 & H2 & H3 & _).
  split; [exact H0 | ]. split; [exact H1 | ]. split; [exact H2 | ].
  apply H3. left. reflexivity.
Defined.

(** X11. When the database deletes, [deleteCode] shows no alert at all,
    whether or not the reload that follows worked: if a reload query
    rejects, the displayed list and statistics stay as they were, the
    deleted record included; if both resolve, the displayed list is what
    the database now holds. *)
Theorem delete_is_silent_whatever_the_reload (w : World) (h : Database) (i : string) :
  db (ui w) = Some h ->
  storageFault (env w) EliminarCodigo = false ->
  let w' := snd (deleteCode i w) in
  fst (deleteCode i w) = Ok tt
  /\ alerts (out w') = alerts (out w)
  /\ (storageFault (env w) ConsultarCodigos = true
      \/ storageFault (env w) ObtenerEstadisticas = true ->
      ui w' = ui w)
  /\ (storageFault (env w) ConsultarCodigos = false ->
      storageFault (env w) ObtenerEstadisticas = false ->
      scannedCodes (ui w') = records (store w')
      /\ stats (ui w') = computeStats (records (store w'))).
Proof.
  intros Hdb Hl w'. subst w'. unfold deleteCode, bind, getW. rewrite Hdb.
  unfold try_catch, bind. rewrite eliminarCodigo_run, Hl.
  set (w1 := upd_store _ _).
  destruct (updateData_after h w1) as (Hr & Hst & Ha & Hfail & Hok).
  destruct (updateData h w1) as [r w2]. simpl in Hr, Hst, Ha, Hfail, Hok. subst r.
  simpl. rewrite Ha, ?alerts_app. simpl. rewrite ?app_nil_r.
  split; [reflexivity | ]. split; [reflexivity | ]. split.
  - intro Hf. rewrite (Hfail Hf). reflexivity.
  - intros Hc Ho. rewrite Hst. apply Hok; assumption.
Qed.

Lemma delete_is_silent_whatever_the_reload_witness :
  let w' := snd (deleteCode "0" (staleWorld brokenRead)) in
  fst (deleteCode "0" (staleWorld brokenRead)) = Ok tt
  /\ alerts (out w') = alerts (out (staleWorld brokenRead))
  /\ ui w' = ui (staleWorld brokenRead).
Proof.
  destruct (delete_is_silent_whatever_the_reload (staleWorld brokenRead) LocalDb "0"
              eq_refl eq_refl) as (H1 & H2 & H3 & _).
  split; [exact H1 | ]. split; [exact H2 | ]. apply H3. left. reflexivity.
Defined.

(** ** How a sync ends *)

Lemma alerts_sent (s : screen) (codes : list ScannedCode) : alerts (sent s codes) = [].
Proof. induction codes as [ | c cs IH]; [reflexivity | exact IH]. Qed.

Lemma returns_syncWithServer (s : screen) : returns (syncWithServer s).
Proof.
  intro w. unfold syncWithServer, bind, getW.
  destruct (length (scannedCodes (ui w)) =? 0)%nat; [eexists; reflexivity | ].
  unfold modify_ui at 1, modify. cbv beta iota.
  apply returns_try_finally.
  - apply returns_caught.
  - destruct (negb (isLocalMode (env w))); [apply returns_modify | apply returns_ret].
Qed.

(** X12. A remote sync of a non-empty list always comes back: the handler
    returns normally, the syncing indicator is off again, no timer is set,
    and exactly one alert is shown.  That alert is the success alert,
    stating the number of displayed records, precisely when no send
    rejected, and then every record was sent and as many network outcomes
    were consumed; otherwise it is the error alert. *)
Theorem remote_sync_outcome (s : screen) (w : World) :
  isLocalMode (env w) = false ->
  scannedCodes (ui w) <> [] ->
  let n := length (scannedCodes (ui w)) in
  let w' := snd (syncWithServer s w) in
  fst (syncWithServer s w) = Ok tt
  /\ isSyncing (ui w') = false /\ timers w' = timers w /\ store w' = store w
  /\ (~ In Rejects (firstn n (network w)) ->
      alerts (out w')
      = (alerts (out w)
         ++ [("Sincronización Exitosa",
              ("Se han sincronizado " ++ show_nat n ++ " códigos con el servidor")%string)])%list
      /\ fetches (out w')
         = (fetches (out w) ++ map (request s) (scannedCodes (ui w)))%list
      /\ network w' = skipn n (network w))
  /\ (In Rejects (firstn n (network w)) ->
      alerts (out w')
      = (alerts (out w)
         ++ [("Error de Sincronización",
              "No se pudieron sincronizar los códigos. Verifica tu conexión.")])%list).
Proof.
  intros Hmode Hne n w'. subst n w'.
  destruct (first_rejection (length (scannedCodes (ui w))) (network w))
    as [Hok | (k & rest & Hk & Hnet)].
  - rewrite (sync_remote_ok s w Hmode Hne Hok). simpl.
    repeat (split; [reflexivity | ]). split; [ | intro H; contradiction].
    intros _. rewrite !alerts_app, !fetches_app, alerts_sent, fetches_sent. simpl.
    rewrite app_nil_r. auto.
  - rewrite (sync_remote_fail s w k rest Hmode Hnet Hk). simpl.
    repeat (split; [reflexivity | ]). split.
    + intro Hno. exfalso. apply Hno. rewrite Hnet. apply rejection_in_reach. exact Hk.
    + intros _. rewrite !alerts_app, alerts_sent. reflexivity.
Qed.

Lemma remote_sync_outcome_witness :
  let n := length (scannedCodes (ui (remoteWorld [Resolves]))) in
  let w' := snd (syncWithServer AppIndex (remoteWorld [Resolves])) in
  fst (syncWithServer AppIndex (remoteWorld [Resolves])) = Ok tt
  /\ isSyncing (ui w') = false
  /\ alerts (out w')
     = (alerts (out (remoteWorld [Resolves]))
        ++ [("Sincronización Exitosa",
             ("Se han sincronizado " ++ show_nat n ++ " códigos con el servidor")%string)])%list
  /\ fetches (out w')
     = (fetches (out (remoteWorld [Resolves]))
        ++ map (request AppIndex) (scannedCodes (ui (remoteWorld [Resolves]))))%list.
Proof.
  destruct (remote_sync_outcome AppIndex (remoteWorld [Resolves]))
    as (H1 & H2 & _ & _ & H3 & _).
  - reflexivity.
  - discriminate.
  - destruct H3 as (Ha & Hf & _).
    + simpl. intros [H | []]. discriminate H.
    + repeat split; assumption.
Defined.

Lemma deadlines_local_in (ts : list (Z * callback)) (t : Z) :
  In t (deadlines isLocalAlert ts) <-> exists m, In (t, LocalModeAlert m) ts.
Proof.
  unfold deadlines. rewrite in_map_iff. split.
  - intros [[t' cb] [Ht Hin]]. apply filter_In in Hin. destruct Hin as [Hin Hcb].
    simpl in Ht, Hcb. subst t'. destruct cb; try discriminate Hcb.
    exists msg. exact Hin.
  - intros [m Hin]. exists (t, LocalModeAlert m). split; [reflexivity | ].
    apply filter_In. split; [exact Hin | reflexivity].
Qed.

Lemma fire_all_syncing_off (cbs : list callback) (w : World) :
  isSyncing (ui w) = false \/ (exists m, In (LocalModeAlert m) cbs) ->
  isSyncing (ui (snd (for_each cbs fire w))) = false.
Proof.
  revert w. induction cbs as [ | cb cbs IH]; intros w H; simpl.
  - destruct H as [H | [m []]]. exact H.
  - unfold bind. destruct (fire cb w) as [[u | e] w1] eqn:E.
    + apply IH. destruct H as [H | [m [H | H]]].
      * left. destruct cb; inversion E; subst; simpl; auto.
      * left. subst cb. inversion E; reflexivity.
      * right. exists m. exact H.
    + destruct cb; discriminate E.
Qed.

Lemma fire_all_keeps_syncing (cbs : list callback) (w : World) :
  (forall m, ~ In (LocalModeAlert m) cbs) ->
  isSyncing (ui (snd (for_each cbs fire w))) = isSyncing (ui w).
Proof.
  revert w. induction cbs as [ | cb cbs IH]; intros w H; simpl; [reflexivity | ].
  unfold bind. destruct (fire cb w) as [[u | e] w1] eqn:E.
  - rewrite IH by (intros m Hm; apply (H m); right; assumption).
    destruct cb; inversion E; subst; try reflexivity.
    exfalso; apply (H msg); left; reflexivity.
  - destruct cb; discriminate E.
Qed.

(** The syncing indicator after time has passed: switched off by a local
    mode alert that came due, otherwise as it was. *)
Lemma advance_syncing (dt : N) (w : World) :
  isSyncing (ui (snd (advance dt w)))
  = (isSyncing (ui w)
     && negb (existsb (fun t => t <=? now w + Z.of_N dt)
                (deadlines isLocalAlert (timers w)))).
Proof.
  unfold advance.
  destruct (existsb _ (deadlines isLocalAlert (timers w))) eqn:Ex.
  - rewrite andb_false_r. apply fire_all_syncing_off. right.
    apply existsb_exists in Ex. destruct Ex as [t [Hin Ht]].
    apply deadlines_local_in in Hin. destruct Hin as [m Hin]. exists m.
    apply in_map_iff. exists (t, LocalModeAlert m). split; [reflexivity | ].
    apply filter_In. split; [exact Hin | exact Ht].
  - rewrite andb_true_r. rewrite fire_all_keeps_syncing; [reflexivity | ].
    intros m Hin. apply in_map_iff in Hin. destruct Hin as [[t cb] [Hcb Hf]].
    simpl in Hcb. subst cb. apply filter_In in Hf. destruct Hf as [Hin Hdue].
    assert (Hex : existsb (fun t => t <=? now w + Z.of_N dt)
                    (deadlines isLocalAlert (timers w)) = true).
    { apply existsb_exists. exists t. split; [ | exact Hdue].
      apply deadlines_local_in. exists m. exact Hin. }
    rewrite Hex in Ex. discriminate Ex.
Qed.

(** X13. In local mode, on each of the three screens, a sync of a
    non-empty list keeps the syncing indicator on for 500 ms and no longer:
    it is on when the handler returns (the [finally] leaves it alone) and,
    with no earlier local mode alert waiting, it is on while less than
    500 ms have passed and off from then on; no request is made at any
    point. *)
Theorem local_sync_indicator (s : screen) (w : World) (d : N) :
  isLocalMode (env w) = true ->
  scannedCodes (ui w) <> [] ->
  deadlines isLocalAlert (timers w) = [] ->
  let w1 := snd (syncWithServer s w) in
  fst (syncWithServer s w) = Ok tt
  /\ isSyncing (ui w1) = true
  /\ isSyncing (ui (snd (advance d w1))) = (Z.of_N d <? 500)
  /\ fetches (out (snd (advance d w1))) = fetches (out w).
Proof.
  intros Hmode Hne Hno w1.
  assert (Hrun : syncWithServer s w
                 = (Ok tt,
                    upd_timers (timers w ++ [(now w + 500,
                                              LocalModeAlert
                                                (localModeMessage s (scannedCodes (ui w))))])
                      (upd_ui (setIsSyncing true (ui w)) w))).
  { unfold syncWithServer, bind, getW. rewrite Hmode.
    destruct (Nat.eqb_spec (length (scannedCodes (ui w))) 0) as [H0 | _].
    { destruct (scannedCodes (ui w)); [contradiction | discriminate H0]. }
    reflexivity. }
  subst w1. rewrite Hrun. simpl fst. simpl snd. set (w1 := upd_timers _ _).
  split; [reflexivity | ]. split; [reflexivity | ]. split.
  - rewrite advance_syncing. unfold w1 at 1 2 3. simpl.
    rewrite deadlines_app, Hno. simpl. rewrite orb_false_r.
    destruct (Z.leb_spec (now w + 500) (now w + Z.of_N d));
      destruct (Z.ltb_spec (Z.of_N d) 500); try reflexivity; lia.
  - unfold advance.
    rewrite (keeps_for_each (fun w => fetches (out w)) _ _ fire_fetches). reflexivity.
Qed.

Lemma local_sync_indicator_witness :
  let w1 := snd (syncWithServer LegacyScreen localWorld) in
  fst (syncWithServer LegacyScreen localWorld) = Ok tt
  /\ isSyncing (ui w1) = true
  /\ isSyncing (ui (snd (advance 499 w1))) = (Z.of_N 499 <? 500)
  /\ fetches (out (snd (advance 499 w1))) = fetches (out localWorld).
Proof.
  apply (local_sync_indicator LegacyScreen localWorld 499).
  - reflexivity.
  - discriminate.
  - reflexivity.
Defined.

(** ** Connecting to the database *)

Lemma updateData_db (d : Database) : keeps (fun w => db (ui w)) (updateData d).
Proof.
  intro w. destruct (updateData_cases d w) as [(_ & _ & E) | (_ & o & E & _)];
    rewrite E; reflexivity.
Qed.

(** X14. [retrieveLocalDbData] never throws.  When connecting fails it
    writes the failure to the console, shows the alert "No se pudo conectar
    a la base de datos" and leaves the database state as it was.  When
    connecting works the database is kept in the state, and no alert is
    shown even when the first load of the list fails. *)
Theorem retrieve_connects_or_alerts (connectDb : M Database) (w : World) :
  (forall e w1,
      connectDb w = (Throw e, w1) ->
      retrieveLocalDbData connectDb w
      = (Ok tt, caught "Error conectando a la base de datos:" "Error"
                  "No se pudo conectar a la base de datos" e w1))
  /\ (forall d w1,
         connectDb w = (Ok d, w1) ->
         let w' := snd (retrieveLocalDbData connectDb w) in
         fst (retrieveLocalDbData connectDb w) = Ok tt
         /\ db (ui w') = Some d
         /\ alerts (out w') = alerts (out w1)
         /\ (storageFault (env w1) ConsultarCodigos = true
             \/ storageFault (env w1) ObtenerEstadisticas = true ->
             scannedCodes (ui w') = scannedCodes (ui w1)
             /\ stats (ui w') = stats (ui w1))).
Proof.
  split.
  - intros e w1 H. unfold retrieveLocalDbData, try_catch, bind. rewrite H. reflexivity.
  - intros d w1 H w'. subst w'. unfold retrieveLocalDbData, try_catch, bind.
    rewrite H. unfold modify_ui, modify. cbv beta iota.
    set (w2 := upd_ui (setDB d (ui w1)) w1).
    destruct (updateData_after d w2) as (Hr & _ & Ha & Hfail & _).
    pose proof (updateData_db d w2) as Hdb.
    destruct (updateData d w2) as [r w3]. simpl in Hr, Ha, Hfail, Hdb. subst r.
    simpl. split; [reflexivity | ]. split; [exact Hdb | ]. split; [exact Ha | ].
    intro Hf. rewrite (Hfail Hf). split; reflexivity.
Qed.

Lemma retrieve_connects_or_alerts_witness :
  retrieveLocalDbData (throw NetworkError) idleWorld
  = (Ok tt, caught "Error conectando a la base de datos:" "Error"
              "No se pudo conectar a la base de datos" NetworkError idleWorld)
  /\ db (ui (snd (retrieveLocalDbData (ret LocalDb) (staleWorld brokenRead))))
     = Some LocalDb
  /\ alerts (out (snd (retrieveLocalDbData (ret LocalDb) (staleWorld brokenRead))))
     = alerts (out (staleWorld brokenRead)).
Proof.
  split.
  - apply (proj1 (retrieve_connects_or_alerts (throw NetworkError) idleWorld)).
    reflexivity.
  - destruct (proj2 (retrieve_connects_or_alerts (ret LocalDb) (staleWorld brokenRead))
                LocalDb (staleWorld brokenRead) eq_refl) as (_ & H2 & H3 & _).
    split; assumption.
Defined.

(** ** Scanning without a database *)

(** X15. Without a database connection the ref-based screen still accepts
    a scan and locks: the refs are written and the release is set for
    [PROCESSING_TIMEOUT] later; but nothing is shown (no notification, no
    alert), no database call is made and nothing is stored.  Deleting does
    nothing at all, and clearing only shows its confirmation dialog:
    whatever the user answers, nothing follows it. *)
Theorem ref_screen_without_database (w : World) (p ty i : string) :
  db (ui w) = None ->
  fst (Ref.decide (refs w) p (now w)) = Accept ->
  let w' := snd (Ref.onBarcodeScanned p ty w) in
  fst (Ref.onBarcodeScanned p ty w) = Ok Accept
  /\ refs w' = mkRefs p (now w) true
  /\ timers w' = (timers w ++ [(now w + Ref.PROCESSING_TIMEOUT, Unlock)])%list
  /\ store w' = store w /\ ui w' = ui w
  /\ notifications (out w') = notifications (out w)
  /\ alerts (out w') = alerts (out w)
  /\ dbCalls (out w') = dbCalls (out w)
  /\ (forall answer, clearScannedCodes answer w = (Ok tt, logged clearDialog w))
  /\ deleteCode i w = (Ok tt, w).
Proof.
  intros Hdb Ha w'.
  assert (Hrun : Ref.onBarcodeScanned p ty w
                 = (Ok Accept,
                    upd_timers (timers w ++ [(now w + Ref.PROCESSING_TIMEOUT, Unlock)])
                      (logged (ConsoleLog ["Procesando escaneo:"; p])
                         (upd_refs (mkRefs p (now w) true) w)))).
  { unfold Ref.onBarcodeScanned, bind. rewrite (scanGuards_accepted _ _ Ha).
    unfold getW. set (w1 := logged _ _).
    change (db (ui w1)) with (db (ui w)). rewrite Hdb. reflexivity. }
  subst w'. rewrite Hrun. simpl.
  unfold notifications, alerts, dbCalls. rewrite !flat_map_app. simpl.
  rewrite !app_nil_r.
  repeat (split; [reflexivity | ]). split.
  - intros [ | ]; [reflexivity | ].
    unfold clearScannedCodes, clearScannedCodes_onPress, bind, getW, emit, modify.
    change (db (ui (upd_out (out w ++ [clearDialog]) w))) with (db (ui w)).
    rewrite Hdb. reflexivity.
  - unfold deleteCode, bind, getW. rewrite Hdb. reflexivity.
Qed.

(** A freshly started screen whose database never connected. *)
Lemma ref_screen_without_database_witness :
  let w := initialWorld (nativeEnv true noFault) 1700000000000 None [] [] in
  let w' := snd (Ref.onBarcodeScanned "ABC123" "qr" w) in
  fst (Ref.onBarcodeScanned "ABC123" "qr" w) = Ok Accept
  /\ refs w' = mkRefs "ABC123" (now w) true
  /\ timers w' = (timers w ++ [(now w + Ref.PROCESSING_TIMEOUT, Unlock)])%list
  /\ store w' = store w /\ ui w' = ui w
  /\ notifications (out w') = notifications (out w)
  /\ alerts (out w') = alerts (out w)
  /\ dbCalls (out w') = dbCalls (out w)
  /\ (forall answer, clearScannedCodes answer w = (Ok tt, logged clearDialog w))
  /\ deleteCode "0" w = (Ok tt, w).
Proof.
  apply (ref_screen_without_database
           (initialWorld (nativeEnv true noFault) 1700000000000 None [] [])
           "ABC123" "qr" "0"); reflexivity.
Defined.

(** ** A failing statistics query *)

Lemma showNotification_ui (m : string) : keeps ui (showNotification m).
Proof. apply keeps_showNotification; reflexivity. Qed.

(** X16. With the database storing and listing but its statistics query
    rejecting, the two screens differ in what they display after a scan.
    On [src/app/index.tsx] the record is stored and the displayed list is
    replaced by the new listing before [updateData] runs, so the list shows
    the new record while the displayed statistics stay as they were.  On
    the ref-based screen the record (of a payload not stored before) is
    stored too, but the display is only written by [updateData], so neither
    the list nor the statistics change.  Neither handler throws. *)
Theorem stats_failure_and_the_display (w : World) (p ty : string) (h : Database) :
  db (ui w) = Some h ->
  storageFault (env w) InsertarCodigo = false ->
  storageFault (env w) ConsultarCodigos = false ->
  storageFault (env w) ObtenerEstadisticas = true ->
  (isScanning (ui w) = true ->
   let w' := snd (Index.onBarcodeScanned p ty w) in
   fst (Index.onBarcodeScanned p ty w) = Ok tt
   /\ store w' = inserted p ty w
   /\ scannedCodes (ui w') = newCode p ty w :: records (store w)
   /\ stats (ui w') = stats (ui w))
  /\ (fst (Ref.decide (refs w) p (now w)) = Accept ->
      storageFault (env w) ExisteCodigo = false -> known p w = false ->
      let w' := snd (Ref.onBarcodeScanned p ty w) in
      fst (Ref.onBarcodeScanned p ty w) = Ok Accept
      /\ store w' = inserted p ty w
      /\ ui w' = ui w).
Proof.
  intros Hdb Hi Hc Ho. split.
  - intros Hs w'. subst w'. rewrite (index_handled p ty w Hs), Hdb.
    unfold indexWork, bind.
    pose proof (showNotification_store ("Código escaneado: " ++ p) (indexPaused w)) as Hst.
    pose proof (showNotification_env ("Código escaneado: " ++ p) (indexPaused w)) as Hv.
    pose proof (showNotification_now ("Código escaneado: " ++ p) (indexPaused w)) as Hn.
    pose proof (showNotification_ui ("Código escaneado: " ++ p) (indexPaused w)) as Hu.
    destruct (showNotification_effects ("Código escaneado: " ++ p) (indexPaused w))
      as (Hr & _).
    destruct (showNotification _ (indexPaused w)) as [r w2].
    simpl in Hst, Hv, Hn, Hu, Hr. subst r.
    rewrite insertarCodigo_run, Hv, Hi. rewrite consultarCodigos_run. simpl env.
    rewrite Hv, Hc. unfold modify_ui, modify. cbv beta iota.
    set (w5 := upd_ui _ _).
    destruct (updateData_after h w5) as (Hr5 & Hst5 & _ & Hfail & _).
    destruct (updateData h w5) as [r w6]. simpl in Hr5, Hst5, Hfail. subst r.
    simpl fst. simpl snd. rewrite Hst5.
    rewrite Hfail by (right; simpl; rewrite Hv; exact Ho).
    simpl. unfold inserted, newCode. rewrite Hst, Hn, Hu. auto.
  - intros Ha He Hk w'. subst w'.
    split; [rewrite handler_result, Ha; reflexivity | ].
    unfold Ref.onBarcodeScanned, bind. rewrite (scanGuards_accepted _ _ Ha).
    unfold getW. set (w1 := logged _ _).
    change (db (ui w1)) with (db (ui w)). rewrite Hdb.
    unfold Ref.scanTry, try_finally, try_catch, Ref.scanBody, bind.
    rewrite existeCodigo_run. change (env w1) with (env w). rewrite He.
    change (records (store w1)) with (records (store w)).
    unfold known in Hk. rewrite Hk.
    set (w2 := logged (DbCall ExisteCodigo) w1).
    pose proof (showNotification_store ("Nuevo código escaneado: " ++ p) w2) as Hst.
    pose proof (showNotification_env ("Nuevo código escaneado: " ++ p) w2) as Hv.
    pose proof (showNotification_now ("Nuevo código escaneado: " ++ p) w2) as Hn.
    pose proof (showNotification_ui ("Nuevo código escaneado: " ++ p) w2) as Hu.
    destruct (showNotification_effects ("Nuevo código escaneado: " ++ p) w2) as (Hr & _).
    destruct (showNotification _ w2) as [r w3].
    simpl in Hst, Hv, Hn, Hu, Hr. subst r.
    rewrite insertarCodigo_run, Hv, Hi.
    set (w4 := upd_store _ _).
    destruct (updateData_after h w4) as (Hr4 & Hst4 & _ & Hfail & _).
    destruct (updateData h w4) as [r w5]. simpl in Hr4, Hst4, Hfail. subst r.
    simpl. rewrite Hst4.
    rewrite Hfail by (right; rewrite Hv; exact Ho).
    unfold inserted, newCode. rewrite Hst, Hn, Hu. auto.
Qed.

(** A screen whose database cannot compute statistics. *)
Lemma stats_failure_and_the_display_witness :
  let w := initialWorld
             (nativeEnv true
                (fun op => match op with ObtenerEstadisticas => true | _ => false end))
             1700000000000 (Some LocalDb) [] [] in
  (let w' := snd (Index.onBarcodeScanned "ABC123" "qr" w) in
   fst (Index.onBarcodeScanned "ABC123" "qr" w) = Ok tt
   /\ store w' = inserted "ABC123" "qr" w
   /\ scannedCodes (ui w') = newCode "ABC123" "qr" w :: records (store w)
   /\ stats (ui w') = stats (ui w))
  /\ (let w' := snd (Ref.onBarcodeScanned "ABC123" "qr" w) in
      fst (Ref.onBarcodeScanned "ABC123" "qr" w) = Ok Accept
      /\ store w' = inserted "ABC123" "qr" w
      /\ ui w' = ui w).
Proof.
  intro w.
  destruct (stats_failure_and_the_display w "ABC123" "qr" LocalDb
              eq_refl eq_refl eq_refl eq_refl) as [Hi Hr].
  split; [apply Hi; reflexivity | apply Hr; reflexivity].
Defined.

(** ** What a sync and a scan never do *)

Lemma sync_local (s : screen) (w : World) :
  isLocalMode (env w) = true -> scannedCodes (ui w) <> [] ->
  syncWithServer s w
  = (Ok tt,
     upd_timers (timers w ++ [(now w + 500,
                               LocalModeAlert (localModeMessage s (scannedCodes (ui w))))])
       (upd_ui (setIsSyncing true (ui w)) w)).
Proof.
  intros Hmode Hne. unfold syncWithServer, bind, getW. rewrite Hmode.
  destruct (Nat.eqb_spec (length (scannedCodes (ui w))) 0) as [H0 | _].
  { destruct (scannedCodes (ui w)); [contradiction | discriminate H0]. }
  reflexivity.
Qed.

(** X17. [syncWithServer] only reads the displayed records: on every
    screen, in both modes and whatever the network does, it returns
    normally and leaves the stored records, the displayed list and
    statistics, the database state and the refs as they were.  With nothing
    displayed it shows the alert "No hay códigos para sincronizar" and does
    nothing else: no request, no timer, the syncing indicator untouched. *)
Theorem sync_only_reads (s : screen) (w : World) :
  let w' := snd (syncWithServer s w) in
  fst (syncWithServer s w) = Ok tt
  /\ store w' = store w /\ refs w' = refs w
  /\ scannedCodes (ui w') = scannedCodes (ui w) /\ stats (ui w') = stats (ui w)
  /\ db (ui w') = db (ui w)
  /\ (scannedCodes (ui w) = [] ->
      syncWithServer s w
      = (Ok tt, logged (AlertE "Sincronización" "No hay códigos para sincronizar") w)).
Proof.
  intro w'. subst w'.
  destruct (scannedCodes (ui w)) as [ | c cs] eqn:Hcodes.
  - rewrite (sync_nothing s w Hcodes). simpl. rewrite Hcodes. repeat split.
  - assert (Hne : scannedCodes (ui w) <> []) by (rewrite Hcodes; discriminate).
    rewrite <- Hcodes.
    destruct (isLocalMode (env w)) eqn:Hmode.
    + rewrite (sync_local s w Hmode Hne). simpl.
      repeat (split; [reflexivity | ]). rewrite Hcodes. discriminate.
    + destruct (first_rejection (length (scannedCodes (ui w))) (network w))
        as [Hok | (k & rest & Hk & Hnet)].
      * rewrite (sync_remote_ok s w Hmode Hne Hok). simpl.
        repeat (split; [reflexivity | ]). rewrite Hcodes. discriminate.
      * rewrite (sync_remote_fail s w k rest Hmode Hnet Hk). simpl.
        repeat (split; [reflexivity | ]). rewrite Hcodes. discriminate.
Qed.

Lemma indexWork_store (odb : option Database) (p ty : string) (w : World) :
  store (snd (indexWork odb p ty w)) = store w
  \/ store (snd (indexWork odb p ty w)) = inserted p ty w.
Proof.
  unfold indexWork, bind.
  pose proof (showNotification_store ("Código escaneado: " ++ p) w) as Hst.
  pose proof (showNotification_now ("Código escaneado: " ++ p) w) as Hn.
  destruct (showNotification _ w) as [[u | e] w2]; simpl in Hst, Hn; [ | left; exact Hst].
  destruct odb as [h | ]; [ | left; exact Hst].
  rewrite insertarCodigo_run.
  destruct (storageFault (env w2) InsertarCodigo); [left; exact Hst | ].
  right. etransitivity; [exact (index_reload_store h _) | ].
  simpl. unfold inserted, newCode. rewrite Hst, Hn. reflexivity.
Qed.

Lemma legacyWork_store (odb : option Database) (p ty : string) (w : World) :
  store (snd (legacyWork odb p ty w)) = store w
  \/ store (snd (legacyWork odb p ty w)) = inserted p ty w.
Proof.
  unfold legacyWork, bind.
  pose proof (showNotification_store ("Código escaneado: " ++ p) w) as Hst.
  pose proof (showNotification_now ("Código escaneado: " ++ p) w) as Hn.
  destruct (showNotification _ w) as [[u | e] w2]; simpl in Hst, Hn; [ | left; exact Hst].
  destruct odb as [h | ].
  - rewrite insertarCodigo_run.
    destruct (storageFault (env w2) InsertarCodigo); [left; exact Hst | ].
    right. rewrite consultarCodigos_run. simpl env.
    destruct (storageFault (env w2) ConsultarCodigos); simpl;
      unfold inserted, newCode; rewrite Hst, Hn; reflexivity.
  - left. exact Hst.
Qed.

(** X18. A scan never removes a record and never stores more than one: on
    each of the three screens, whatever the guards decide and whatever the
    database and the notification sink do, after the handler the store is
    either as it was or has exactly one more record, for the scanned
    payload and type, stamped with the current time. *)
Theorem scan_stores_at_most_one_record (w : World) (p ty : string) :
  (store (snd (Ref.onBarcodeScanned p ty w)) = store w
   \/ store (snd (Ref.onBarcodeScanned p ty w)) = inserted p ty w)
  /\ (store (snd (Index.onBarcodeScanned p ty w)) = store w
      \/ store (snd (Index.onBarcodeScanned p ty w)) = inserted p ty w)
  /\ (store (snd (Legacy.onBarcodeScanned p ty w)) = store w
      \/ store (snd (Legacy.onBarcodeScanned p ty w)) = inserted p ty w).
Proof.
  split; [ | split].
  - destruct (fst (Ref.decide (refs w) p (now w))) eqn:Ed.
    + unfold Ref.onBarcodeScanned, bind. rewrite (scanGuards_accepted _ _ Ed).
      unfold getW. set (w1 := logged _ _).
      assert (Hs : store (snd (Ref.scanTry (db (ui w1)) p ty w1)) = store w
                   \/ store (snd (Ref.scanTry (db (ui w1)) p ty w1)) = inserted p ty w).
      { rewrite scanTry_store. destruct (db (ui w1)) as [h | ]; [ | left; reflexivity].
        destruct (storageFault (env w1) ExisteCodigo) eqn:He.
        { left. rewrite scanBody_store_fault; [reflexivity | left; exact He]. }
        destruct (storageFault (env w1) InsertarCodigo) eqn:Hi.
        { left. rewrite scanBody_store_fault; [reflexivity | right; exact Hi]. }
        rewrite (scanBody_store_ok h p ty w1 He Hi).
        destruct (existsb _ _); [left | right]; reflexivity. }
      destruct (Ref.scanTry (db (ui w1)) p ty w1) as [[u | e] w2]; exact Hs.
    + left. rewrite handler_rejected; rewrite Ed; [reflexivity | right; reflexivity].
    + left. rewrite handler_rejected; rewrite Ed; [reflexivity | left; reflexivity].
  - destruct (isScanning (ui w)) eqn:Hs.
    + rewrite (index_handled p ty w Hs).
      exact (indexWork_store (db (ui w)) p ty (indexPaused w)).
    + left. rewrite (index_ignored p ty w Hs). reflexivity.
  - destruct (isScanning (ui w)) eqn:Hs.
    + rewrite (legacy_handled p ty w Hs).
      exact (legacyWork_store (db (ui w)) p ty (scanningOff w)).
    + left. rewrite (legacy_ignored p ty w Hs). reflexivity.
Qed.
